(** * zd-cli: cache, credentials, error classification, retry and OAuth flow

    A shallow embedding of the Go packages [cache], [config], [auth],
    [client] and [commands] of zd-cli, the properties of them that its
    specification states, and further properties read off the code.

    Conventions.
    - A Go [string] or [[]byte] is a [string] (a sequence of bytes).
    - A Go [int], [int64] or [time.Duration] is a [Z]; where the source
      can leave the 64-bit range the wrap-around is written out ([wrap64]).
    - A [time.Time] is the instant it denotes, in nanoseconds since the
      Unix epoch.
    - The file system, the clock and the HTTP transport are the state of a
      small state monad [M]; what the operating system, the standard
      library's digest and decoders, and the remote server answer is left
      open, as the members of an environment record [Env], so that every
      theorem holds for all of them. *)

From Stdlib Require Import ZArith String Ascii List Lia Bool.
From stdpp Require Import base option strings pretty gmap.

Local Open Scope Z_scope.


(** ** Runtime: integers, time, formatting *)

Definition wrap64 (x : Z) : Z :=
  (x + 2 ^ 63) mod 2 ^ 64 - 2 ^ 63.

Definition MaxInt64 : Z := 2 ^ 63 - 1.
Definition MinInt64 : Z := - 2 ^ 63.

Module time.
Definition Nanosecond : Z := 1.
Definition Millisecond : Z := 1000000 * Nanosecond.
Definition Second : Z := 1000 * Millisecond.
Definition Minute : Z := 60 * Second.

(** [t.After(u)]: the instant [t] is later than [u]. *)
Definition After (t u : Z) : bool := (u <? t)%Z.

(** [t.Add(d)]. *)
Definition Add (t d : Z) : Z := t + d.
End time.

(** [fmt.Sprintf("%d", n)]: the decimal numeral of [n], with a leading
    minus sign for a negative number. *)
Definition itoa (n : Z) : string := pretty n.

(** ** Package encoding/hex *)

Module hex.
Definition hextable : string := "0123456789abcdef".

Definition digit (n : N) : ascii :=
  match String.get (N.to_nat n) hextable with
  | Some c => c
  | None => "0"%char
  end.

Definition encodeByte (b : ascii) : string :=
  let n := N_of_ascii b in
  String (digit (n / 16)) (String (digit (n mod 16)) "").

Fixpoint EncodeToString (src : string) : string :=
  match src with
  | EmptyString => ""
  | String b rest => encodeByte b +:+ EncodeToString rest
  end.

(** The inverse of [digit], used only to show that the encoding loses
    nothing. *)
Definition undigit (c : ascii) : N :=
  let n := N_of_ascii c in
  if (n <? 58)%N then (n - 48)%N else (n - 87)%N.

Fixpoint DecodeString (s : string) : string :=
  match s with
  | String hi (String lo rest) =>
      String (ascii_of_N (undigit hi * 16 + undigit lo)) (DecodeString rest)
  | _ => ""
  end.
End hex.

(** ** Package net/http: what the program sees of a round trip *)

(** The JSON documents the program builds for request bodies; the fields of
    an object are listed in the order [json.Marshal] writes them. *)
#[warnings="-register-all"]
Inductive json : Type :=
  | JNull
  | JBool (b : bool)
  | JNum (n : Z)
  | JStr (s : string)
  | JArr (l : list json)
  | JObj (fields : list (string * json)).

Module http.
Definition MethodGet : string := "GET".
Definition MethodPost : string := "POST".
Definition MethodPut : string := "PUT".

Definition StatusOK : Z := 200.
Definition StatusBadRequest : Z := 400.
Definition StatusUnauthorized : Z := 401.
Definition StatusForbidden : Z := 403.
Definition StatusNotFound : Z := 404.
Definition StatusUnprocessableEntity : Z := 422.
Definition StatusTooManyRequests : Z := 429.
Definition StatusInternalServerError : Z := 500.
Definition StatusServiceUnavailable : Z := 503.

Record Request := mkRequest {
  Method : string;
  URL : string;
  Authorization : string;
  ReqBody : option json;
}.

(** [RetryAfter] is [resp.Header.Get("Retry-After")]: empty when the
    header is absent.  [Body] is what [io.ReadAll] returns and [ReadErr]
    whether it reports an error with it. *)
Record Response := mkResponse {
  StatusCode : Z;
  RetryAfter : string;
  Body : string;
  ReadErr : bool;
}.

Definition MethodDelete : string := "DELETE".
Definition StatusNoContent : Z := 204.
End http.

(** ** The world the program runs in *)

Record World := mkWorld {
  files : gmap string string;     (* regular files: path to content *)
  ticks : nat;                    (* clock readings made so far *)
  sent : list http.Request;       (* HTTP requests issued, oldest first *)
}.

Definition M (A : Type) : Type := World -> A * World.

Definition ret {A} (a : A) : M A := fun w => (a, w).

Definition bind {A B} (m : M A) (k : A -> M B) : M B :=
  fun w => let (a, w') := m w in k a w'.

Notation "x <- m ;; k" := (bind m (fun x => k))
  (at level 100, m at level 99, right associativity).
Notation "m ;;; k" := (bind m (fun _ => k))
  (at level 100, right associativity).

Module os.
(** [os.ReadFile]: [None] when there is no such file. *)
Definition ReadFile (path : string) : M (option string) :=
  fun w => (files w !! path, w).

Definition WriteFile (path data : string) : M unit :=
  fun w => (tt, mkWorld (<[path := data]> (files w)) (ticks w) (sent w)).

(** [os.Remove]: the result is [true] when the file was removed and
    [false] when it did not exist ([os.IsNotExist] holds of the error). *)
Definition Remove (path : string) : M bool :=
  fun w => (bool_decide (is_Some (files w !! path)),
            mkWorld (delete path (files w)) (ticks w) (sent w)).

(** The files of the world are filed under their full paths, and a
    directory is there through the files below it.  [childName dir path] is
    the name under which [path] is an entry of [dir] that is a file: what
    follows [dir] and a separator, when that is a name without separator. *)
Fixpoint stripPrefix (prefix s : string) : option string :=
  match prefix, s with
  | EmptyString, _ => Some s
  | String a prefix', String b s' =>
      if Ascii.eqb a b then stripPrefix prefix' s' else None
  | String _ _, EmptyString => None
  end.

Fixpoint hasSeparator (s : string) : bool :=
  match s with
  | EmptyString => false
  | String a s' => Ascii.eqb a "/" || hasSeparator s'
  end.

Definition childName (dir path : string) : option string :=
  match stripPrefix (dir +:+ "/") path with
  | Some name =>
      if hasSeparator name || bool_decide (name = "") then None
      else Some name
  | None => None
  end.

(** [os.ReadDir], as the names of the entries that are not directories
    (the callers skip those).  Go lists the entries by name; here they come
    in the order of the map, without repetition.  The directory itself is
    taken to exist, as [cache.New] has made it. *)
Definition ReadDir (dir : string) : M (list string) :=
  fun w => (omap (childName dir) (fst <$> map_to_list (files w)), w).
End os.

Module filepath.
(** [filepath.Join] of a directory and a file name, on a directory that is
    already clean (as [cache.New] makes it) and a name without
    separators. *)
Definition Join (dir name : string) : string :=
  if decide (dir = "") then name else dir +:+ "/" +:+ name.
End filepath.

(** ** Package cache *)

Module cache.

Definition cacheDirName : string := ".zd".
Definition cacheSubDir : string := "cache".
Definition DefaultTTL : Z := 10 * time.Minute.

Record Entry := mkEntry {
  Data : string;
  ExpiresAt : Z;
  CreatedAt : Z;
}.

Record Cache := mkCache {
  dir : string;
  ttl : Z;
}.

(** What the cache needs from outside the program: [sha256.Sum256], the
    decoder and encoder of [Entry] from encoding/json ([None] is an
    error), the successive readings of the wall clock, [os.UserHomeDir]
    and whether [os.MkdirAll] succeeds. *)
Record Env := mkEnv {
  Sum256 : string -> string;
  Unmarshal : string -> option Entry;
  Marshal : Entry -> string;
  Now : nat -> Z;
  UserHomeDir : option string;
  MkdirAll : string -> bool;
}.

Section WithEnvironment.
Variable env : Env.

Definition time_Now : M Z :=
  fun w => (Now env (ticks w), mkWorld (files w) (S (ticks w)) (sent w)).

Definition New (ttl : Z) : option Cache :=
  match UserHomeDir env with
  | None => None
  | Some home =>
      let cacheDir :=
        filepath.Join (filepath.Join home cacheDirName) cacheSubDir in
      if MkdirAll env cacheDir then Some (mkCache cacheDir ttl) else None
  end.

Definition keyToPath (c : Cache) (key : string) : string :=
  let hash := Sum256 env key in
  let filename := hex.EncodeToString hash +:+ ".json" in
  filepath.Join (dir c) filename.

Definition Get (c : Cache) (key : string) : M (string * bool) :=
  let path := keyToPath c key in
  r <- os.ReadFile path ;;
  match r with
  | None => ret ("", false)
  | Some data =>
      match Unmarshal env data with
      | None => os.Remove path ;;; ret ("", false)
      | Some entry =>
          now <- time_Now ;;
          if time.After now (ExpiresAt entry)
          then os.Remove path ;;; ret ("", false)
          else ret (Data entry, true)
      end
  end.

(** [Set] in the source. *)
Definition Set_ (c : Cache) (key data : string) : M unit :=
  created <- time_Now ;;
  now <- time_Now ;;
  let entry := mkEntry data (time.Add now (ttl c)) created in
  let entryData := Marshal env entry in
  os.WriteFile (keyToPath c key) entryData.

Definition Delete (c : Cache) (key : string) : M unit :=
  os.Remove (keyToPath c key) ;;; ret tt.

(** The loop of [Clear] over the entries that are not directories.  It stops
    at the first file that [os.Remove] does not remove. *)
Fixpoint clearEntries (c : Cache) (names : list string) : M (option string) :=
  match names with
  | [] => ret None
  | name :: rest =>
      let path := filepath.Join (dir c) name in
      removed <- os.Remove path ;;
      if removed then clearEntries c rest
      else ret (Some ("failed to remove cache file " +:+ name +:+ ": remove "
                      +:+ path +:+ ": no such file or directory"))
  end.

Definition Clear (c : Cache) : M (option string) :=
  entries <- os.ReadDir (dir c) ;;
  clearEntries c entries.

(** The loop of [PruneExpired], with the one reading [now] of the clock that
    is taken before it. *)
Fixpoint pruneEntries (c : Cache) (now : Z) (names : list string) : M unit :=
  match names with
  | [] => ret tt
  | name :: rest =>
      let path := filepath.Join (dir c) name in
      r <- os.ReadFile path ;;
      match r with
      | None => pruneEntries c now rest
      | Some data =>
          match Unmarshal env data with
          | None => os.Remove path ;;; pruneEntries c now rest
          | Some cacheEntry =>
              (if time.After now (ExpiresAt cacheEntry)
               then os.Remove path ;;; ret tt
               else ret tt) ;;;
              pruneEntries c now rest
          end
      end
  end.

Definition PruneExpired (c : Cache) : M (option string) :=
  entries <- os.ReadDir (dir c) ;;
  now <- time_Now ;;
  pruneEntries c now entries ;;;
  ret None.

(** What [PruneExpired] leaves of a file of the cache directory at the
    reading [now] of the clock: the file when it decodes as an entry whose
    expiration [now] is not after, and nothing otherwise. *)
Definition pruned (now : Z) (file : option string) : option string :=
  match file with
  | Some data =>
      match Unmarshal env data with
      | Some entry =>
          if time.After now (ExpiresAt entry) then None else Some data
      | None => None
      end
  | None => None
  end.

(** The codec gives back the data and the expiration of [entry]. *)
Definition codecKeeps (entry : Entry) : Prop :=
  exists decoded,
    Unmarshal env (Marshal env entry) = Some decoded
    /\ Data decoded = Data entry /\ ExpiresAt decoded = ExpiresAt entry.

(** The codec reads [entry] back for a reader [decode] of its data: what it
    has written of the entry it reads as an entry with the same expiration,
    whose data [decode] reads as it reads the data of [entry].  This lets
    the codec write another text of the same document, as [json.Marshal]
    does when it compacts a [json.RawMessage]. *)
Definition codecReadsBack {A : Type} (decode : string -> option A)
  (entry : Entry) : Prop :=
  exists decoded,
    Unmarshal env (Marshal env entry) = Some decoded
    /\ decode (Data decoded) = decode (Data entry)
    /\ ExpiresAt decoded = ExpiresAt entry.

End WithEnvironment.
End cache.

(** ** Package encoding/base64 *)

Module base64.
Definition encodeStd : string :=
  "ABCDEFGHIJKLMNOPQRSTUVWXYZabcdefghijklmnopqrstuvwxyz0123456789+/".
Definition StdPadding : ascii := "="%char.

Definition enc (n : N) : ascii :=
  match String.get (N.to_nat n) encodeStd with
  | Some c => c
  | None => StdPadding
  end.

(** [StdEncoding.EncodeToString]: three source bytes make one 24-bit
    value and four characters; a tail of one or two bytes is padded. *)
Fixpoint EncodeToString (src : string) : string :=
  match src with
  | EmptyString => ""
  | String a EmptyString =>
      let val := N.shiftl (N_of_ascii a) 16 in
      String (enc (N.land (N.shiftr val 18) 63))
        (String (enc (N.land (N.shiftr val 12) 63))
           (String StdPadding (String StdPadding "")))
  | String a (String b EmptyString) =>
      let val := N.lor (N.shiftl (N_of_ascii a) 16)
                       (N.shiftl (N_of_ascii b) 8) in
      String (enc (N.land (N.shiftr val 18) 63))
        (String (enc (N.land (N.shiftr val 12) 63))
           (String (enc (N.land (N.shiftr val 6) 63))
              (String StdPadding "")))
  | String a (String b (String c rest)) =>
      let val := N.lor (N.lor (N.shiftl (N_of_ascii a) 16)
                              (N.shiftl (N_of_ascii b) 8))
                       (N_of_ascii c) in
      String (enc (N.land (N.shiftr val 18) 63))
        (String (enc (N.land (N.shiftr val 12) 63))
           (String (enc (N.land (N.shiftr val 6) 63))
              (String (enc (N.land val 63))
                 (EncodeToString rest))))
  end.
End base64.

(** ** Package strconv *)

Module strconv.
Definition isDigit (c : ascii) : bool :=
  let n := N_of_ascii c in ((48 <=? n) && (n <=? 57))%N.

Fixpoint digits (s : string) (acc : Z) : option Z :=
  match s with
  | EmptyString => Some acc
  | String c rest =>
      if isDigit c
      then digits rest (10 * acc + Z.of_N (N_of_ascii c - 48))
      else None
  end.

(** [strconv.Atoi] where [int] has 64 bits, and [strconv.ParseInt(s, 10,
    64)]: an optional sign and at least one decimal digit, within the
    range of [int64]; [None] is a syntax or range error. *)
Definition Atoi (s : string) : option Z :=
  let '(neg, body) :=
    match s with
    | String "-"%char rest => (true, rest)
    | String "+"%char rest => (false, rest)
    | _ => (false, s)
    end in
  match body with
  | EmptyString => None
  | _ =>
      match digits body 0 with
      | None => None
      | Some n =>
          let v := if neg then - n else n in
          if (MinInt64 <=? v) && (v <=? MaxInt64) then Some v else None
      end
  end.
End strconv.

(** ** Package strings *)

Module strings.
(** [strings.HasPrefix], [strings.HasSuffix] and [strings.Contains]. *)
Definition HasPrefix (s prefix : string) : bool := String.prefix prefix s.

Fixpoint HasSuffix (s suffix : string) : bool :=
  if String.eqb s suffix then true
  else
    match s with
    | EmptyString => false
    | String _ rest => HasSuffix rest suffix
    end.

Fixpoint Contains (s substr : string) : bool :=
  if HasPrefix s substr then true
  else
    match s with
    | EmptyString => false
    | String _ rest => Contains rest substr
    end.

(** [strings.ToLower] on a string of ASCII characters: the letters A to Z
    become a to z and every other character stays.  (Go maps the letters
    beyond ASCII too; those are left as they are here.) *)
Definition toLower (c : ascii) : ascii :=
  let n := N_of_ascii c in
  if ((65 <=? n) && (n <=? 90))%N then ascii_of_N (n + 32) else c.

Fixpoint ToLower (s : string) : string :=
  match s with
  | EmptyString => ""
  | String c rest => String (toLower c) (ToLower rest)
  end.
End strings.

(** ** Package net/url *)

Module url.
Definition upperhex : string := "0123456789ABCDEF".

Definition hexDigit (n : N) : ascii :=
  match String.get (N.to_nat n) upperhex with
  | Some c => c
  | None => "0"%char
  end.

(** [shouldEscape(c, encodeQueryComponent)]. *)
Definition shouldEscape (c : ascii) : bool :=
  let n := N_of_ascii c in
  if ((97 <=? n) && (n <=? 122) || (65 <=? n) && (n <=? 90)
      || (48 <=? n) && (n <=? 57))%N then false
  else if ((n =? 45) || (n =? 95) || (n =? 46) || (n =? 126))%N then false
  else true.

Fixpoint QueryEscape (s : string) : string :=
  match s with
  | EmptyString => ""
  | String c rest =>
      if shouldEscape c then
        if Ascii.eqb c " "%char then String "+"%char (QueryEscape rest)
        else
          let n := N_of_ascii c in
          String "%"%char
            (String (hexDigit (n / 16))
               (String (hexDigit (n mod 16)) (QueryEscape rest)))
      else String c (QueryEscape rest)
  end.

(** [r.URL.Query()]: the parameters of a request, in order, and
    [Values.Get]: the first value of a key, or the empty string. *)
Definition Values : Type := list (string * string).

Fixpoint Get (q : Values) (key : string) : string :=
  match q with
  | [] => ""
  | (k, v) :: rest => if decide (k = key) then v else Get rest key
  end.
End url.

(** ** Package config *)

Module config.
Definition AuthTypeToken : string := "token".
Definition AuthTypeOAuth : string := "oauth".

Record Instance := mkInstance {
  Name : string;
  Subdomain : string;
  AuthType : string;
  Email : string;
  APIToken : string;
  OAuthClientID : string;
  OAuthSecret : string;
  OAuthToken : string;
  OAuthRefresh : string;
  OAuthExpiry : string;
}.

(** *** config.go: the set of instances and the current one *)

Definition ErrNoCurrentInstance : string := "no current instance set".
Definition ErrInstanceNotFound : string := "instance not found".
Definition ErrInstanceExists : string := "instance already exists".
Definition ErrInvalidInstanceName : string := "invalid instance name".

Record Config := mkConfig {
  Current : string;
  Instances : gmap string Instance;
}.

Definition NewConfig : Config := mkConfig "" ∅.

Definition GetCurrentInstance (c : Config) : Instance + string :=
  if decide (Current c = "") then inr ErrNoCurrentInstance
  else
    match Instances c !! Current c with
    | Some instance => inl instance
    | None => inr ErrInstanceNotFound
    end.

(** The methods that change the configuration return their error ([None]
    for [nil]) and the configuration as they leave it. *)
Definition AddInstanceWithSwitch (c : Config) (instance : Instance)
  (makeCurrent : bool) : option string * Config :=
  if decide (Name instance = "") then (Some ErrInvalidInstanceName, c)
  else if decide (is_Some (Instances c !! Name instance)) then
    (Some ErrInstanceExists, c)
  else
    let instances := <[Name instance := instance]> (Instances c) in
    if bool_decide (Current c = "") || makeCurrent
    then (None, mkConfig (Name instance) instances)
    else (None, mkConfig (Current c) instances).

Definition AddInstance (c : Config) (instance : Instance)
  : option string * Config :=
  AddInstanceWithSwitch c instance false.

Definition AddInstanceAndSwitch (c : Config) (instance : Instance)
  : option string * Config :=
  AddInstanceWithSwitch c instance true.

(** [rangeFirst] is the key that [for n := range c.Instances] yields first:
    Go leaves the order of a map's keys open, so it is some key of the
    map. *)
Definition RemoveInstance (rangeFirst : gmap string Instance -> string)
  (c : Config) (name : string) : option string * Config :=
  match Instances c !! name with
  | None => (Some ErrInstanceNotFound, c)
  | Some _ =>
      let instances := delete name (Instances c) in
      if decide (Current c = name) then
        if decide (0 < size instances)%nat
        then (None, mkConfig (rangeFirst instances) instances)
        else (None, mkConfig "" instances)
      else (None, mkConfig (Current c) instances)
  end.

Definition SwitchInstance (c : Config) (name : string)
  : option string * Config :=
  match Instances c !! name with
  | None => (Some ErrInstanceNotFound, c)
  | Some _ => (None, mkConfig name (Instances c))
  end.

(** What the methods keep of a configuration: every instance is filed under
    its own name, which is not empty; the current name is empty only when
    there is no instance; and a current name that is not empty names an
    instance. *)
Definition consistent (c : Config) : Prop :=
  (forall name instance,
     Instances c !! name = Some instance ->
     Name instance = name /\ name <> "")
  /\ (Current c = "" -> Instances c = ∅)
  /\ (Current c <> "" -> is_Some (Instances c !! Current c)).

(** A range over a map that is not empty yields one of its keys. *)
Definition yieldsKey (rangeFirst : gmap string Instance -> string) : Prop :=
  forall m : gmap string Instance, m <> ∅ -> is_Some (m !! rangeFirst m).
End config.

(** ** Package auth *)

Module auth.

Definition EncodeToken (email apiToken : string) : string :=
  let credentials := email +:+ "/token:" +:+ apiToken in
  base64.EncodeToString credentials.

(** The validators return [None] for Go's [nil] error and the message of
    the error otherwise. *)
Definition ValidateTokenAuth (email apiToken : string) : option string :=
  if decide (email = "") then
    Some "email is required for token authentication"
  else if decide (apiToken = "") then
    Some "API token is required for token authentication"
  else None.

Definition ValidateOAuthToken (accessToken refreshToken expiry : string)
  : option string :=
  if decide (accessToken = "") then Some "OAuth access token is required"
  else if decide (refreshToken = "") then
    Some "OAuth refresh token is required"
  else if decide (expiry = "") then Some "OAuth token expiry is required"
  else None.

Definition ValidateOAuthConfig (clientID clientSecret : string)
  : option string :=
  if decide (clientID = "") then Some "OAuth client ID is required"
  else if decide (clientSecret = "") then
    Some "OAuth client secret is required"
  else None.

(** *** The OAuth authorization flow *)

(** [time.Now().Unix()] of an instant: whole seconds since the epoch. *)
Definition Unix (t : Z) : Z := t / time.Second.

(** The value bound to [state] at the start of [PerformOAuthFlow]. *)
Definition state (now : Z) : string := "state-" +:+ itoa (Unix now).

(** What one run of the callback handler sends, and on which channel. *)
Inductive signal : Type :=
  | toCodeChan (code : string)
  | toErrChan (err : string).

(** The handler registered for [/callback]: the status of the HTTP reply
    and the value sent on [codeChan] or [errChan]. *)
Definition callback (state : string) (query : url.Values) : Z * signal :=
  if decide (url.Get query "state" ≠ state) then
    (http.StatusBadRequest, toErrChan "state mismatch - possible CSRF attack")
  else
    let errMsg := url.Get query "error" in
    if decide (errMsg ≠ "") then
      let errDesc := url.Get query "error_description" in
      (http.StatusBadRequest,
       toErrChan ("authorization failed: " +:+ errMsg +:+ " - " +:+ errDesc))
    else
      let code := url.Get query "code" in
      if decide (code = "") then
        (http.StatusBadRequest, toErrChan "no authorization code received")
      else (http.StatusOK, toCodeChan code).

(** Both channels have capacity one and the flow receives at most once:
    a channel holds the first value sent on it, later senders block. *)
Definition send (ch : option string) (v : string) : option string :=
  match ch with
  | Some _ => ch
  | None => Some v
  end.

Fixpoint deliver (state : string) (requests : list url.Values)
  (codeChan errChan : option string) : option string * option string :=
  match requests with
  | [] => (codeChan, errChan)
  | query :: rest =>
      match snd (callback state query) with
      | toCodeChan code => deliver state rest (send codeChan code) errChan
      | toErrChan err => deliver state rest codeChan (send errChan err)
      end
  end.

(** The case the [select] statement takes.  The scheduler's choice among
    the ready cases is [pick]; a channel case is ready only when its
    channel holds a value, and the timer ends every wait. *)
Inductive pick : Type := PickCode | PickErr | PickCtxDone | PickTimeout.

Inductive event : Type :=
  | GotCode (code : string)
  | GotErr (err : string)
  | CtxDone
  | TimedOut.

Definition select (p : pick) (codeChan errChan : option string) : event :=
  match p, codeChan, errChan with
  | PickCtxDone, _, _ => CtxDone
  | PickTimeout, _, _ => TimedOut
  | PickCode, Some code, _ => GotCode code
  | PickCode, None, Some err => GotErr err
  | PickErr, _, Some err => GotErr err
  | PickErr, Some code, None => GotCode code
  | _, None, None => TimedOut
  end.

(** What the surroundings of one run of the flow decide: the instant it
    starts, whether the callback server fails to start, the callback
    requests handled before the [select] returns (in the order of their
    sends), the scheduler's pick, and the error of the context when it is
    done. *)
Record Run := mkRun {
  started : Z;
  serverErr : option string;
  requests : list url.Values;
  picked : pick;
  ctxErr : string;
}.

(** What one run of the flow does: the state it issues in the
    authorization URL and the codes it passes to the token endpoint. *)
Record Trace := mkTrace {
  issued : string;
  exchanged : list string;
}.

Section WithTokenEndpoint.
Variable Token : Type.
(** [oauthCfg.Exchange(ctx, code)]. *)
Variable Exchange : string -> Token + string.

Definition PerformOAuthFlow (run : Run) : (Token + string) * Trace :=
  let state := state (started run) in
  let errChan :=
    match serverErr run with
    | Some err => Some ("failed to start callback server: " +:+ err)
    | None => None
    end in
  let '(codeChan, errChan) := deliver state (requests run) None errChan in
  match select (picked run) codeChan errChan with
  | GotErr err => (inr err, mkTrace state [])
  | CtxDone => (inr (ctxErr run), mkTrace state [])
  | TimedOut =>
      (inr "authorization timeout - no response received within 5 minutes",
       mkTrace state [])
  | GotCode code =>
      match Exchange code with
      | inr err =>
          (inr ("failed to exchange authorization code for token: "
                +:+ err),
           mkTrace state [code])
      | inl token => (inl token, mkTrace state [code])
      end
  end.
End WithTokenEndpoint.
End auth.

(** ** Package client *)

Module client.

(** *** errors.go *)

Record ZendeskError := mkZendeskError {
  zdError : string;          (* field [Error], JSON "error" *)
  zdDescription : string;    (* field [Description], JSON "description" *)
  zdDetails : json;          (* field [Details], JSON "details" *)
}.

Record APIError := mkAPIError {
  StatusCode : Z;
  Message : string;
  Description : string;
  Details : json;
}.

(** A Go [error]: an [*APIError], or an error made by [fmt.Errorf] or
    handed up from a library, of which the message is kept (without the
    text of the error of [io.ReadAll] or [json.Unmarshal] that it wraps,
    where it wraps one). *)
Inductive error : Type :=
  | ApiError (e : APIError)
  | Errorf (msg : string).

(** The method [(e *APIError) Error()], and [err.Error()] in general. *)
Definition APIError_Error (e : APIError) : string :=
  if decide (Description e ≠ "") then Message e +:+ ": " +:+ Description e
  else Message e.

Definition Error (err : error) : string :=
  match err with
  | ApiError e => APIError_Error e
  | Errorf msg => msg
  end.

Definition getStatusMessage (statusCode : Z) : string :=
  if decide (statusCode = http.StatusBadRequest) then "Bad Request"
  else if decide (statusCode = http.StatusUnauthorized) then
    "Authentication Failed"
  else if decide (statusCode = http.StatusForbidden) then "Access Denied"
  else if decide (statusCode = http.StatusNotFound) then
    "Resource Not Found"
  else if decide (statusCode = http.StatusUnprocessableEntity) then
    "Invalid Input"
  else if decide (statusCode = http.StatusTooManyRequests) then
    "Rate Limit Exceeded"
  else if decide (statusCode = http.StatusInternalServerError) then
    "Zendesk Server Error"
  else if decide (statusCode = http.StatusServiceUnavailable) then
    "Zendesk Service Unavailable"
  else "HTTP " +:+ itoa statusCode +:+ " Error".

Definition IsRateLimitError (err : error) : bool :=
  match err with
  | ApiError apiErr =>
      bool_decide (StatusCode apiErr = http.StatusTooManyRequests)
  | _ => false
  end.

Definition IsAuthError (err : error) : bool :=
  match err with
  | ApiError apiErr =>
      bool_decide (StatusCode apiErr = http.StatusUnauthorized)
      || bool_decide (StatusCode apiErr = http.StatusForbidden)
  | _ => false
  end.

Definition IsNotFoundError (err : error) : bool :=
  match err with
  | ApiError apiErr => bool_decide (StatusCode apiErr = http.StatusNotFound)
  | _ => false
  end.

(** The documents the client decodes responses into, and what it needs
    from outside the program: the environment of the cache;
    [http.NewRequestWithContext], as the error it reports for a URL, if
    any (the methods the client uses are all valid); [httpClient.Do], as
    the response, or the message of the transport error, to a request
    made after the requests [sent] before it; and [json.Unmarshal] into
    each kind of document and into [ZendeskError] ([None] is an error). *)
Inductive target : Type :=
  | TicketResponse
  | TicketsResponse
  | UsersResponse
  | OrganizationsResponse
  | GroupsResponse
  | GroupMembershipsResponse
  | TicketSearchResults.    (* the anonymous struct of [SearchTickets] *)

Record Env := mkEnv {
  cacheEnv : cache.Env;
  NewRequestErr : string -> option string;
  RoundTrip : list http.Request -> http.Request -> http.Response + string;
  Decoded : target -> Type;
  Unmarshal : forall t : target, string -> option (Decoded t);
  UnmarshalZendeskError : string -> option ZendeskError;
}.

Section ParseAPIError.
Variable env : Env.

Definition ParseAPIError (statusCode : Z) (body : string) : error :=
  match UnmarshalZendeskError env body with
  | Some zdErr =>
      if decide (zdError zdErr ≠ "") then
        ApiError (mkAPIError statusCode (zdError zdErr)
                    (zdDescription zdErr) (zdDetails zdErr))
      else
        ApiError (mkAPIError statusCode (getStatusMessage statusCode)
                    body JNull)
  | None =>
      ApiError (mkAPIError statusCode (getStatusMessage statusCode)
                  body JNull)
  end.
End ParseAPIError.

(** *** retry.go *)

Record RetryConfig := mkRetryConfig {
  MaxRetries : Z;
  InitialBackoff : Z;
  MaxBackoff : Z;
}.

Definition DefaultRetryConfig : RetryConfig :=
  mkRetryConfig 3 (1 * time.Second) (30 * time.Second).

(** What [RetryWithBackoff] does, in order: calls of [fn] and waits of a
    duration in nanoseconds (a wait that is not positive ends at once). *)
Inductive step : Type :=
  | Call
  | Wait (d : Z).

Inductive outcome : Type :=
  | Returned (resp : http.Response)     (* [resp, nil] *)
  | Cancelled                           (* [nil, ctx.Err()] *)
  | GaveUp (msg : string).              (* [nil, fmt.Errorf(...)] *)

(** The number of calls of [fn] among the steps. *)
Fixpoint calls (steps : list step) : nat :=
  match steps with
  | [] => O
  | Call :: rest => S (calls rest)
  | Wait _ :: rest => calls rest
  end.

(** The value [lastErr] takes after a call of [fn] that is retried: the
    transport error, or [fmt.Errorf("HTTP %d", resp.StatusCode)]. *)
Definition lastErrOf (r : http.Response + string) : string :=
  match r with
  | inr err => err
  | inl resp => "HTTP " +:+ itoa (http.StatusCode resp)
  end.

(** The results of [fn] that the loop does not return at once. *)
Definition retried (r : http.Response + string) : Prop :=
  match r with
  | inr _ => True
  | inl resp =>
      500 <= http.StatusCode resp
      \/ http.StatusCode resp = http.StatusTooManyRequests
  end.

Section RetryWithBackoff.
(** The result of the [attempt]-th call of [fn]: a response or the
    message of a transport error. *)
Variable fn : nat -> http.Response + string.
(** Whether, in the wait that follows the [attempt]-th call, the
    [select] statement takes the case of [ctx.Done()]. *)
Variable ctxDone : nat -> bool.

(** The backoff [time.Duration(float64(InitialBackoff) * math.Pow(2,
    float64(attempt)))]: the product is an integer below 2^53 for the
    attempts of the loop, so the floating-point computation is exact. *)
Definition backoffOf (config : RetryConfig) (attempt : nat) : Z :=
  let backoff := InitialBackoff config * 2 ^ Z.of_nat attempt in
  if backoff >? MaxBackoff config then MaxBackoff config else backoff.

(** The wait on a 429 response whose [Retry-After] header [strconv.Atoi]
    accepts. *)
Definition retryAfterOf (config : RetryConfig) (seconds : Z) : Z :=
  let waitDuration := wrap64 (seconds * time.Second) in
  if waitDuration >? MaxBackoff config then MaxBackoff config
  else waitDuration.

Definition giveUp (config : RetryConfig) (lastErr : string) : outcome :=
  GaveUp ("request failed after " +:+ itoa (MaxRetries config)
          +:+ " retries: " +:+ lastErr).

(** The loop [for attempt := 0; attempt <= config.MaxRetries; attempt++],
    entered at [attempt] with [remaining] iterations left. *)
Fixpoint loop (config : RetryConfig) (remaining attempt : nat)
  (lastErr : string) : list step * outcome :=
  match remaining with
  | O => ([], giveUp config lastErr)
  | S remaining' =>
      let continue := fun lastErr wait =>
        if ctxDone attempt then ([Call; Wait wait], Cancelled)
        else
          let '(steps, out) :=
            loop config remaining' (S attempt) lastErr in
          (Call :: Wait wait :: steps, out) in
      let backoff := fun lastErr =>
        if decide (Z.of_nat attempt = MaxRetries config) then
          ([Call], giveUp config lastErr)
        else continue lastErr (backoffOf config attempt) in
      match fn attempt with
      | inl resp =>
          if (http.StatusCode resp <? 500)
             && negb (http.StatusCode resp =? http.StatusTooManyRequests)
          then ([Call], Returned resp)
          else
            let lastErr := "HTTP " +:+ itoa (http.StatusCode resp) in
            if http.StatusCode resp =? http.StatusTooManyRequests then
              if decide (http.RetryAfter resp ≠ "") then
                match strconv.Atoi (http.RetryAfter resp) with
                | Some seconds =>
                    continue lastErr (retryAfterOf config seconds)
                | None => backoff lastErr
                end
              else backoff lastErr
            else backoff lastErr
      | inr err => backoff err
      end
  end.

(** The two ways an iteration of the loop waits for [d]: until the timer
    fires, and then the loop goes on with the next attempt, or until the
    context is done, and then the helper returns the error of the context
    without another call. *)
Definition waits (config : RetryConfig) (remaining attempt : nat)
  (lastErr : string) (d : Z) (result : list step * outcome) : Prop :=
  (ctxDone attempt = true -> result = ([Call; Wait d], Cancelled))
  /\ (ctxDone attempt = false ->
      result
      = (Call :: Wait d :: fst (loop config remaining (S attempt) lastErr),
         snd (loop config remaining (S attempt) lastErr))).

Definition RetryWithBackoff : list step * outcome :=
  let config := DefaultRetryConfig in
  loop config (Z.to_nat (MaxRetries config + 1)) 0 "".

Definition ShouldRetry (statusCode : Z) : bool :=
  if statusCode =? http.StatusTooManyRequests then true
  else if (statusCode >=? 500) && (statusCode <? 600) then true
  else false.
End RetryWithBackoff.

(** *** client.go, tickets.go and the other resource files *)

Record Client := mkClient {
  subdomain : string;
  authHeader : string;
  cache : option cache.Cache;      (* [None] is the [nil] pointer *)
  useCache : bool;
}.

Definition GetBaseURL (c : Client) : string :=
  "https://" +:+ subdomain c +:+ ".zendesk.com/api/v2".

(** The value of [cacheKey] in [GetTicket] and in [UpdateTicket], in
    [ListTickets], and in [SearchTickets]. *)
Definition ticketKey (c : Client) (ticketID : Z) : string :=
  subdomain c +:+ ":tickets:" +:+ itoa ticketID.

Definition ticketsListKey (c : Client) (page perPage : Z) (status : string)
  : string :=
  subdomain c +:+ ":tickets:list:" +:+ itoa page +:+ ":" +:+ itoa perPage
  +:+ ":" +:+ status.

Definition ticketsSearchKey (c : Client) (query : string) : string :=
  subdomain c +:+ ":tickets:search:" +:+ query.

Record CreateTicketRequest := mkCreateTicketRequest {
  createSubject : string;
  createDescription : string;
  createPriority : string;
  createType : string;
  createStatus : string;
  createAssigneeID : option Z;
  createGroupID : option Z;
  createTags : list string;
}.

Record UpdateTicketRequest := mkUpdateTicketRequest {
  Subject : option string;
  Priority : option string;
  Status : option string;
  AssigneeID : option Z;
  GroupID : option Z;
  Tags : list string;
  Comment : option (string * bool);     (* body and public *)
}.

(** One optional member of a JSON object. *)
Definition field {A} (name : string) (enc : A -> json) (v : option A)
  : list (string * json) :=
  match v with
  | Some x => [(name, enc x)]
  | None => []
  end.

Definition nonEmpty (s : string) : option string :=
  if decide (s = "") then None else Some s.

Definition nonEmptyTags (tags : list string) : option json :=
  match tags with
  | [] => None
  | _ => Some (JArr (JStr <$> tags))
  end.

(** The document [json.Marshal] writes for the map built by
    [CreateTicket]; the keys of a map are written in sorted order. *)
Definition createBody (req : CreateTicketRequest) : json :=
  JObj [("ticket",
         JObj (field "assignee_id" JNum (createAssigneeID req)
               ++ [("comment", JObj [("body", JStr (createDescription req))])]
               ++ field "group_id" JNum (createGroupID req)
               ++ field "priority" JStr (nonEmpty (createPriority req))
               ++ field "status" JStr (nonEmpty (createStatus req))
               ++ [("subject", JStr (createSubject req))]
               ++ field "tags" id (nonEmptyTags (createTags req))
               ++ field "type" JStr (nonEmpty (createType req))))].

(** The document [json.Marshal] writes for [{"ticket": req}] in
    [UpdateTicket]: every member of the request is tagged [omitempty], so a
    [nil] pointer and an empty slice are left out, and nothing else is. *)
Definition updateBody (req : UpdateTicketRequest) : json :=
  JObj [("ticket",
         JObj (field "subject" JStr (Subject req)
               ++ field "priority" JStr (Priority req)
               ++ field "status" JStr (Status req)
               ++ field "assignee_id" JNum (AssigneeID req)
               ++ field "group_id" JNum (GroupID req)
               ++ field "tags" id (nonEmptyTags (Tags req))
               ++ field "comment"
                    (fun c => JObj [("body", JStr (fst c));
                                    ("public", JBool (snd c))])
                    (Comment req)))].



Section WithEnvironment.
Variable env : Env.

Abbreviation cache_Get := (cache.Get (cacheEnv env)).
Abbreviation cache_Set := (cache.Set_ (cacheEnv env)).
Abbreviation cache_Delete := (cache.Delete (cacheEnv env)).

Definition NewClientWithCache (instance : config.Instance)
  (useCache : bool) : Client + string :=
  let withCache := fun authHeader =>
    if useCache then
      match cache.New (cacheEnv env) cache.DefaultTTL with
      | None =>
          inl (mkClient (config.Subdomain instance) authHeader None false)
      | Some c =>
          inl (mkClient (config.Subdomain instance) authHeader (Some c)
                 useCache)
      end
    else
      inl (mkClient (config.Subdomain instance) authHeader None useCache)
  in
  if decide (config.AuthType instance = config.AuthTypeToken) then
    match auth.ValidateTokenAuth (config.Email instance)
            (config.APIToken instance) with
    | Some err => inr err
    | None =>
        let encodedToken :=
          auth.EncodeToken (config.Email instance)
            (config.APIToken instance) in
        withCache ("Basic " +:+ encodedToken)
    end
  else if decide (config.AuthType instance = config.AuthTypeOAuth) then
    match auth.ValidateOAuthToken (config.OAuthToken instance)
            (config.OAuthRefresh instance) (config.OAuthExpiry instance)
    with
    | Some err => inr err
    | None =>
        match auth.ValidateOAuthConfig (config.OAuthClientID instance)
                (config.OAuthSecret instance) with
        | Some err => inr err
        | None => withCache ("Bearer " +:+ config.OAuthToken instance)
        end
    end
  else inr ("unsupported auth type: " +:+ config.AuthType instance).

Definition NewClient (instance : config.Instance) : Client + string :=
  NewClientWithCache instance true.

Definition httpClient_Do (req : http.Request)
  : M (http.Response + string) :=
  fun w => (RoundTrip env (sent w) req,
            mkWorld (files w) (ticks w) (sent w ++ [req])).

Definition makeRequest (c : Client) (method path : string)
  : M (http.Response + error) :=
  let url := GetBaseURL c +:+ path in
  match NewRequestErr env url with
  | Some err => ret (inr (Errorf ("failed to create request: " +:+ err)))
  | None =>
      r <- httpClient_Do (http.mkRequest method url (authHeader c) None) ;;
      match r with
      | inr err => ret (inr (Errorf ("request failed: " +:+ err)))
      | inl resp => ret (inl resp)
      end
  end.

(** The guard [c.useCache && c.cache != nil]. *)
Definition cacheInUse (c : Client) : option cache.Cache :=
  if useCache c then cache c else None.

Definition ListTickets (c : Client) (page perPage : Z) (status : string)
  : M (Decoded env TicketsResponse + error) :=
  let cacheKey := ticketsListKey c page perPage status in
  hit <- match cacheInUse c with
         | Some ch =>
             r <- cache_Get ch cacheKey ;;
             ret (if snd r then Unmarshal env TicketsResponse (fst r)
                  else None)
         | None => ret None
         end ;;
  match hit with
  | Some resp => ret (inl resp)
  | None =>
      let path :=
        "/tickets.json?page=" +:+ itoa page +:+ "&per_page="
        +:+ itoa perPage in
      let path :=
        if decide (status ≠ "")
        then path +:+ "&status=" +:+ url.QueryEscape status
        else path in
      r <- makeRequest c http.MethodGet path ;;
      match r with
      | inr err => ret (inr err)
      | inl resp =>
          if decide (http.StatusCode resp ≠ http.StatusOK) then
            ret (inr (Errorf ("failed to list tickets (status "
                              +:+ itoa (http.StatusCode resp) +:+ "): "
                              +:+ http.Body resp)))
          else if http.ReadErr resp then
            ret (inr (Errorf "failed to read response"))
          else
            match Unmarshal env TicketsResponse (http.Body resp) with
            | None => ret (inr (Errorf "failed to decode response"))
            | Some ticketsResp =>
                match cacheInUse c with
                | Some ch => cache_Set ch cacheKey (http.Body resp)
                | None => ret tt
                end ;;;
                ret (inl ticketsResp)
            end
      end
  end.

Definition GetTicket (c : Client) (ticketID : Z)
  : M (Decoded env TicketResponse + error) :=
  let cacheKey := ticketKey c ticketID in
  hit <- match cacheInUse c with
         | Some ch =>
             r <- cache_Get ch cacheKey ;;
             ret (if snd r then Unmarshal env TicketResponse (fst r)
                  else None)
         | None => ret None
         end ;;
  match hit with
  | Some ticket => ret (inl ticket)
  | None =>
      let path := "/tickets/" +:+ itoa ticketID +:+ ".json" in
      r <- makeRequest c http.MethodGet path ;;
      match r with
      | inr err => ret (inr err)
      | inl resp =>
          if decide (http.StatusCode resp ≠ http.StatusOK) then
            ret (inr (Errorf ("failed to get ticket (status "
                              +:+ itoa (http.StatusCode resp) +:+ "): "
                              +:+ http.Body resp)))
          else if http.ReadErr resp then
            ret (inr (Errorf "failed to read response"))
          else
            match Unmarshal env TicketResponse (http.Body resp) with
            | None => ret (inr (Errorf "failed to decode response"))
            | Some ticket =>
                match cacheInUse c with
                | Some ch => cache_Set ch cacheKey (http.Body resp)
                | None => ret tt
                end ;;;
                ret (inl ticket)
            end
      end
  end.

Definition makeTicketRequest (c : Client) (method path : string)
  (body : json) : M (Decoded env TicketResponse + error) :=
  let url := GetBaseURL c +:+ path in
  match NewRequestErr env url with
  | Some err => ret (inr (Errorf ("failed to create request: " +:+ err)))
  | None =>
      r <- httpClient_Do
             (http.mkRequest method url (authHeader c) (Some body)) ;;
      match r with
      | inr err => ret (inr (Errorf ("request failed: " +:+ err)))
      | inl resp =>
          if (http.StatusCode resp <? 200) || (http.StatusCode resp >=? 300)
          then
            ret (inr (Errorf ("request failed with status "
                              +:+ itoa (http.StatusCode resp) +:+ ": "
                              +:+ http.Body resp)))
          else
            match Unmarshal env TicketResponse (http.Body resp) with
            | None => ret (inr (Errorf "failed to decode response"))
            | Some ticket => ret (inl ticket)
            end
      end
  end.

Definition CreateTicket (c : Client) (req : CreateTicketRequest)
  : M (Decoded env TicketResponse + error) :=
  makeTicketRequest c http.MethodPost "/tickets.json" (createBody req).

Definition UpdateTicket (c : Client) (ticketID : Z)
  (req : UpdateTicketRequest) : M (Decoded env TicketResponse + error) :=
  let body := updateBody req in
  let path := "/tickets/" +:+ itoa ticketID +:+ ".json" in
  r <- makeTicketRequest c http.MethodPut path body ;;
  match r with
  | inr err => ret (inr err)
  | inl ticket =>
      match cache c with
      | Some ch =>
          let cacheKey := ticketKey c ticketID in
          cache_Delete ch cacheKey
      | None => ret tt
      end ;;;
      ret (inl ticket)
  end.

(** The body that the paged read methods of the client share word for
    word ([ListTickets] above is written out): look the key up in the
    cache, else request [path], check the status, read and decode the
    body, store it under the key.  They differ in the key, the path, the
    document decoded, and the error made of a status other than 200. *)
Definition cachedRead {A : Type} (decode : string -> option A)
  (c : Client) (cacheKey path : string)
  (statusErr : Z -> string -> error) : M (A + error) :=
  hit <- match cacheInUse c with
         | Some ch =>
             r <- cache_Get ch cacheKey ;;
             ret (if snd r then decode (fst r) else None)
         | None => ret None
         end ;;
  match hit with
  | Some resp => ret (inl resp)
  | None =>
      r <- makeRequest c http.MethodGet path ;;
      match r with
      | inr err => ret (inr err)
      | inl resp =>
          if decide (http.StatusCode resp ≠ http.StatusOK) then
            ret (inr (statusErr (http.StatusCode resp) (http.Body resp)))
          else if http.ReadErr resp then
            ret (inr (Errorf "failed to read response"))
          else
            match decode (http.Body resp) with
            | None => ret (inr (Errorf "failed to decode response"))
            | Some doc =>
                match cacheInUse c with
                | Some ch => cache_Set ch cacheKey (http.Body resp)
                | None => ret tt
                end ;;;
                ret (inl doc)
            end
      end
  end.

Definition failedTo (what : string) (status : Z) (body : string)
  : error :=
  Errorf ("failed to " +:+ what +:+ " (status " +:+ itoa status +:+ "): "
          +:+ body).

Definition pageQuery (page perPage : Z) : string :=
  "?page=" +:+ itoa page +:+ "&per_page=" +:+ itoa perPage.

Definition pageKey (page perPage : Z) : string :=
  itoa page +:+ ":" +:+ itoa perPage.

Definition SearchTickets (c : Client) (query : string)
  : M (Decoded env TicketSearchResults + error) :=
  let searchQuery := "type:ticket " +:+ query in
  cachedRead (Unmarshal env TicketSearchResults) c
    (ticketsSearchKey c query)
    ("/search.json?query=" +:+ url.QueryEscape searchQuery)
    (failedTo "search tickets").

Definition ListUsers (c : Client) (page perPage : Z)
  : M (Decoded env UsersResponse + error) :=
  cachedRead (Unmarshal env UsersResponse) c
    (subdomain c +:+ ":users:list:" +:+ pageKey page perPage)
    ("/users.json" +:+ pageQuery page perPage)
    (ParseAPIError env).

Definition ListOrganizations (c : Client) (page perPage : Z)
  : M (Decoded env OrganizationsResponse + error) :=
  cachedRead (Unmarshal env OrganizationsResponse) c
    (subdomain c +:+ ":organizations:list:" +:+ pageKey page perPage)
    ("/organizations.json" +:+ pageQuery page perPage)
    (failedTo "list organizations").

Definition GetOrganizationUsers (c : Client) (orgID page perPage : Z)
  : M (Decoded env UsersResponse + error) :=
  cachedRead (Unmarshal env UsersResponse) c
    (subdomain c +:+ ":organizations:" +:+ itoa orgID +:+ ":users:"
     +:+ pageKey page perPage)
    ("/organizations/" +:+ itoa orgID +:+ "/users.json"
     +:+ pageQuery page perPage)
    (failedTo "get organization users").

Definition GetOrganizationTickets (c : Client) (orgID page perPage : Z)
  : M (Decoded env TicketsResponse + error) :=
  cachedRead (Unmarshal env TicketsResponse) c
    (subdomain c +:+ ":organizations:" +:+ itoa orgID +:+ ":tickets:"
     +:+ pageKey page perPage)
    ("/organizations/" +:+ itoa orgID +:+ "/tickets.json"
     +:+ pageQuery page perPage)
    (failedTo "get organization tickets").

Definition ListGroups (c : Client) (page perPage : Z)
  : M (Decoded env GroupsResponse + error) :=
  cachedRead (Unmarshal env GroupsResponse) c
    (subdomain c +:+ ":groups:list:" +:+ pageKey page perPage)
    ("/groups.json" +:+ pageQuery page perPage)
    (failedTo "list groups").

Definition GetGroupUsers (c : Client) (groupID page perPage : Z)
  : M (Decoded env UsersResponse + error) :=
  cachedRead (Unmarshal env UsersResponse) c
    (subdomain c +:+ ":groups:" +:+ itoa groupID +:+ ":users:"
     +:+ pageKey page perPage)
    ("/groups/" +:+ itoa groupID +:+ "/users.json"
     +:+ pageQuery page perPage)
    (failedTo "get group users").

Definition GetGroupMemberships (c : Client) (groupID page perPage : Z)
  : M (Decoded env GroupMembershipsResponse + error) :=
  cachedRead (Unmarshal env GroupMembershipsResponse) c
    (subdomain c +:+ ":groups:" +:+ itoa groupID +:+ ":memberships:"
     +:+ pageKey page perPage)
    ("/groups/" +:+ itoa groupID +:+ "/memberships.json"
     +:+ pageQuery page perPage)
    (failedTo "get group memberships").

(** *** tickets.go: the comments of a ticket *)

Definition ticketCommentsKey (c : Client) (ticketID : Z) : string :=
  subdomain c +:+ ":tickets:" +:+ itoa ticketID +:+ ":comments".

Section Comments.
(** The document [CommentsResponse] and its decoder from encoding/json. *)
Variable CommentsResponse : Type.
Variable UnmarshalComments : string -> option CommentsResponse.

Definition GetTicketComments (c : Client) (ticketID : Z)
  : M (CommentsResponse + error) :=
  cachedRead UnmarshalComments c (ticketCommentsKey c ticketID)
    ("/tickets/" +:+ itoa ticketID +:+ "/comments.json")
    (failedTo "get ticket comments").

End Comments.

Definition ClearCache (c : Client) : M (option string) :=
  match cache c with
  | Some ch => cache.Clear ch
  | None => ret None
  end.

(** *** users.go: a single user *)

Definition userKey (c : Client) (userID : Z) : string :=
  subdomain c +:+ ":users:" +:+ itoa userID.

Definition userMeKey (c : Client) : string := subdomain c +:+ ":users:me".

Record CreateUserRequest := mkCreateUserRequest {
  createName : string;
  createEmail : string;
  createRole : string;
  createPhone : string;
}.

Record UpdateUserRequest := mkUpdateUserRequest {
  Name : option string;
  Email : option string;
  Phone : option string;
  Role : option string;
  Verified : option bool;
}.

(** The documents [json.Marshal] writes for [{"user": req}]: the members of
    a struct come in the order of its fields, those tagged [omitempty] are
    left out when empty. *)
Definition createUserBody (req : CreateUserRequest) : json :=
  JObj [("user",
         JObj ([("name", JStr (createName req));
                ("email", JStr (createEmail req))]
               ++ field "role" JStr (nonEmpty (createRole req))
               ++ field "phone" JStr (nonEmpty (createPhone req))))].

Definition updateUserBody (req : UpdateUserRequest) : json :=
  JObj [("user",
         JObj (field "name" JStr (Name req)
               ++ field "email" JStr (Email req)
               ++ field "phone" JStr (Phone req)
               ++ field "role" JStr (Role req)
               ++ field "verified" JBool (Verified req)))].

Definition suspendedBody (suspended : bool) : json :=
  JObj [("user", JObj [("suspended", JBool suspended)])].

Section Users.
(** The document [UserResponse] and its decoder from encoding/json. *)
Variable UserResponse : Type.
Variable UnmarshalUser : string -> option UserResponse.

Definition makeUserRequest (c : Client) (method path : string)
  (body : json) : M (UserResponse + error) :=
  let url := GetBaseURL c +:+ path in
  match NewRequestErr env url with
  | Some err => ret (inr (Errorf ("failed to create request: " +:+ err)))
  | None =>
      r <- httpClient_Do
             (http.mkRequest method url (authHeader c) (Some body)) ;;
      match r with
      | inr err => ret (inr (Errorf ("request failed: " +:+ err)))
      | inl resp =>
          if (http.StatusCode resp <? 200) || (http.StatusCode resp >=? 300)
          then
            ret (inr (ParseAPIError env (http.StatusCode resp)
                        (http.Body resp)))
          else
            match UnmarshalUser (http.Body resp) with
            | None => ret (inr (Errorf "failed to decode response"))
            | Some user => ret (inl user)
            end
      end
  end.

Definition CreateUser (c : Client) (req : CreateUserRequest)
  : M (UserResponse + error) :=
  makeUserRequest c http.MethodPost "/users.json" (createUserBody req).

Definition UpdateUser (c : Client) (userID : Z) (req : UpdateUserRequest)
  : M (UserResponse + error) :=
  let body := updateUserBody req in
  let path := "/users/" +:+ itoa userID +:+ ".json" in
  r <- makeUserRequest c http.MethodPut path body ;;
  match r with
  | inr err => ret (inr err)
  | inl user =>
      match cache c with
      | Some ch =>
          let cacheKey := userKey c userID in
          cache_Delete ch cacheKey
      | None => ret tt
      end ;;;
      ret (inl user)
  end.

Definition SuspendUser (c : Client) (userID : Z)
  : M (UserResponse + error) :=
  let path := "/users/" +:+ itoa userID +:+ ".json" in
  let body := suspendedBody true in
  r <- makeUserRequest c http.MethodPut path body ;;
  match r with
  | inr err => ret (inr err)
  | inl user =>
      match cache c with
      | Some ch =>
          let cacheKey := userKey c userID in
          cache_Delete ch cacheKey
      | None => ret tt
      end ;;;
      ret (inl user)
  end.

Definition UnsuspendUser (c : Client) (userID : Z)
  : M (UserResponse + error) :=
  let path := "/users/" +:+ itoa userID +:+ ".json" in
  let body := suspendedBody false in
  r <- makeUserRequest c http.MethodPut path body ;;
  match r with
  | inr err => ret (inr err)
  | inl user =>
      match cache c with
      | Some ch =>
          let cacheKey := userKey c userID in
          cache_Delete ch cacheKey
      | None => ret tt
      end ;;;
      ret (inl user)
  end.

(** [DeleteUser] returns its error, [None] for [nil]. *)
Definition DeleteUser (c : Client) (userID : Z) : M (option error) :=
  let path := "/users/" +:+ itoa userID +:+ ".json" in
  let url := GetBaseURL c +:+ path in
  match NewRequestErr env url with
  | Some err => ret (Some (Errorf ("failed to create request: " +:+ err)))
  | None =>
      r <- httpClient_Do
             (http.mkRequest http.MethodDelete url (authHeader c) None) ;;
      match r with
      | inr err => ret (Some (Errorf ("request failed: " +:+ err)))
      | inl resp =>
          if bool_decide (http.StatusCode resp ≠ http.StatusOK)
             && bool_decide (http.StatusCode resp ≠ http.StatusNoContent)
          then
            ret (Some (ParseAPIError env (http.StatusCode resp)
                         (http.Body resp)))
          else
            match cache c with
            | Some ch =>
                let cacheKey := userKey c userID in
                cache_Delete ch cacheKey
            | None => ret tt
            end ;;;
            ret None
      end
  end.

Definition GetUser (c : Client) (userID : Z) : M (UserResponse + error) :=
  cachedRead UnmarshalUser c (userKey c userID)
    ("/users/" +:+ itoa userID +:+ ".json")
    (failedTo "get user").

Definition GetMe (c : Client) : M (UserResponse + error) :=
  cachedRead UnmarshalUser c (userMeKey c) "/users/me.json"
    (ParseAPIError env).

End Users.
End WithEnvironment.
End client.


(** ** Package commands *)

Module commands.

(** The flags of [zd ticket create], with their defaults where a flag is not
    given: [type] is "incident", [status] is "new", [assignee] and [group]
    are 0 and the others are empty. *)
Record CreateFlags := mkCreateFlags {
  subject : string;
  description : string;
  priority : string;
  type : string;
  status : string;
  assignee : Z;
  group : Z;
  tags : list string;
}.

(** The flags of [zd ticket update]: [None] when [cmd.Flags().Changed] is
    false of the flag, else the value given on the command line. *)
Record UpdateFlags := mkUpdateFlags {
  newSubject : option string;
  newPriority : option string;
  newStatus : option string;
  newAssignee : option Z;
  newGroup : option Z;
  newTags : option (list string);
}.

(** What the commands need from outside the program: the environment of the
    client; [config.Load] followed by [GetCurrentInstance], as the current
    instance or the message of the error [getClientFromFlags] returns for
    their failure; and [promptString(label, true)], as the trimmed answer or
    the message of an error. *)
Record Env := mkEnv {
  clientEnv : client.Env;
  current : config.Instance + string;
  promptString : string -> string + string;
}.

Section WithEnvironment.
Variable env : Env.

Abbreviation Doc := (client.Decoded (clientEnv env)).

(** What a command did between two worlds as far as the server sees: it
    sent nothing, or it sent one GET request for [path]. *)
Definition requested (zdClient : client.Client) (path : string)
  (w w' : World) : Prop :=
  sent w' = sent w
  \/ sent w' = sent w ++ [http.mkRequest http.MethodGet
                            (client.GetBaseURL zdClient +:+ path)
                            (client.authHeader zdClient) None].

(** What a paged list command did between two worlds: it [requested]
    [path], and when the cache in use, if there is one, has no entry to
    serve under [cacheKey] and the request for [path] can be built, it did
    send that request. *)
Definition fetched (zdClient : client.Client) (cacheKey path : string)
  (w w' : World) : Prop :=
  requested zdClient path w w'
  /\ ((forall ch,
         client.cacheInUse zdClient = Some ch ->
         snd (fst (cache.Get (client.cacheEnv (clientEnv env)) ch cacheKey
                     w))
         = false) ->
      client.NewRequestErr (clientEnv env)
        (client.GetBaseURL zdClient +:+ path) = None ->
      sent w' = sent w ++ [http.mkRequest http.MethodGet
                             (client.GetBaseURL zdClient +:+ path)
                             (client.authHeader zdClient) None]).

Definition getClientFromFlags (refresh : bool) : client.Client + string :=
  match current env with
  | inr err => inr err
  | inl instance =>
      let useCache := negb refresh in
      client.NewClientWithCache (clientEnv env) instance useCache
  end.

(** A command returns the message of its error, or hands a document to the
    rendering layer. *)
Definition wrapErr {A} (what : string) (r : A + client.error) : A + string :=
  match r with
  | inl doc => inl doc
  | inr err => inr (what +:+ ": " +:+ client.Error err)
  end.

(** The commands that take an id parse it from their first argument with
    [strconv.ParseInt(args[0], 10, 64)]. *)
Definition withID {A} (what : string) (arg : string)
  (k : Z -> M (A + string)) : M (A + string) :=
  match strconv.Atoi arg with
  | None => ret (inr ("invalid " +:+ what +:+ " ID: " +:+ arg))
  | Some id => k id
  end.

Definition runTicketList (page perPage : Z) (status : string)
  (refresh : bool) : M (Doc client.TicketsResponse + string) :=
  match getClientFromFlags refresh with
  | inr err => ret (inr err)
  | inl zdClient =>
      let perPage := if perPage >? 100 then 100 else perPage in
      r <- client.ListTickets (clientEnv env) zdClient page perPage status ;;
      ret (wrapErr "failed to list tickets" r)
  end.

Definition runUserList (page perPage : Z) (refresh : bool)
  : M (Doc client.UsersResponse + string) :=
  match getClientFromFlags refresh with
  | inr err => ret (inr err)
  | inl zdClient =>
      let perPage := if perPage >? 100 then 100 else perPage in
      r <- client.ListUsers (clientEnv env) zdClient page perPage ;;
      ret (wrapErr "failed to list users" r)
  end.

Definition runOrgList (page perPage : Z) (refresh : bool)
  : M (Doc client.OrganizationsResponse + string) :=
  match getClientFromFlags refresh with
  | inr err => ret (inr err)
  | inl zdClient =>
      let perPage := if perPage >? 100 then 100 else perPage in
      r <- client.ListOrganizations (clientEnv env) zdClient page perPage ;;
      ret (wrapErr "failed to list organizations" r)
  end.

Definition runOrgUsers (arg : string) (page perPage : Z) (refresh : bool)
  : M (Doc client.UsersResponse + string) :=
  match getClientFromFlags refresh with
  | inr err => ret (inr err)
  | inl zdClient =>
      withID "organization" arg (fun orgID =>
        let perPage := if perPage >? 100 then 100 else perPage in
        r <- client.GetOrganizationUsers (clientEnv env) zdClient orgID page
               perPage ;;
        ret (wrapErr "failed to get organization users" r))
  end.

Definition runOrgTickets (arg : string) (page perPage : Z) (refresh : bool)
  : M (Doc client.TicketsResponse + string) :=
  match getClientFromFlags refresh with
  | inr err => ret (inr err)
  | inl zdClient =>
      withID "organization" arg (fun orgID =>
        let perPage := if perPage >? 100 then 100 else perPage in
        r <- client.GetOrganizationTickets (clientEnv env) zdClient orgID page
               perPage ;;
        ret (wrapErr "failed to get organization tickets" r))
  end.

Definition runGroupList (page perPage : Z) (refresh : bool)
  : M (Doc client.GroupsResponse + string) :=
  match getClientFromFlags refresh with
  | inr err => ret (inr err)
  | inl zdClient =>
      let perPage := if perPage >? 100 then 100 else perPage in
      r <- client.ListGroups (clientEnv env) zdClient page perPage ;;
      ret (wrapErr "failed to list groups" r)
  end.

Definition runGroupUsers (arg : string) (page perPage : Z) (refresh : bool)
  : M (Doc client.UsersResponse + string) :=
  match getClientFromFlags refresh with
  | inr err => ret (inr err)
  | inl zdClient =>
      withID "group" arg (fun groupID =>
        let perPage := if perPage >? 100 then 100 else perPage in
        r <- client.GetGroupUsers (clientEnv env) zdClient groupID page
               perPage ;;
        ret (wrapErr "failed to get group users" r))
  end.

Definition runGroupMemberships (arg : string) (page perPage : Z)
  (refresh : bool) : M (Doc client.GroupMembershipsResponse + string) :=
  match getClientFromFlags refresh with
  | inr err => ret (inr err)
  | inl zdClient =>
      withID "group" arg (fun groupID =>
        let perPage := if perPage >? 100 then 100 else perPage in
        r <- client.GetGroupMemberships (clientEnv env) zdClient groupID page
               perPage ;;
        ret (wrapErr "failed to get group memberships" r))
  end.

(** [zd ticket create]: the command has no [refresh] flag, so
    [getClientFromFlags] reads it as false. *)
Definition runTicketCreate (flags : CreateFlags)
  : M (Doc client.TicketResponse + string) :=
  match getClientFromFlags false with
  | inr err => ret (inr err)
  | inl zdClient =>
      match (if decide (subject flags = "") then promptString env "Subject"
             else inl (subject flags)) with
      | inr err => ret (inr err)
      | inl subject =>
          match (if decide (description flags = "")
                 then promptString env "Description"
                 else inl (description flags)) with
          | inr err => ret (inr err)
          | inl description =>
              let assigneeID := assignee flags in
              let groupID := group flags in
              let req :=
                client.mkCreateTicketRequest subject description
                  (priority flags) (type flags) (status flags)
                  (if assigneeID >? 0 then Some assigneeID else None)
                  (if groupID >? 0 then Some groupID else None)
                  (tags flags) in
              r <- client.CreateTicket (clientEnv env) zdClient req ;;
              ret (wrapErr "failed to create ticket" r)
          end
      end
  end.

Definition runTicketUpdate (arg : string) (flags : UpdateFlags)
  : M (Doc client.TicketResponse + string) :=
  match getClientFromFlags false with
  | inr err => ret (inr err)
  | inl zdClient =>
      withID "ticket" arg (fun ticketID =>
        let req :=
          client.mkUpdateTicketRequest (newSubject flags) (newPriority flags)
            (newStatus flags) (newAssignee flags) (newGroup flags)
            (default [] (newTags flags)) None in
        let updated :=
          bool_decide (is_Some (newSubject flags))
          || bool_decide (is_Some (newPriority flags))
          || bool_decide (is_Some (newStatus flags))
          || bool_decide (is_Some (newAssignee flags))
          || bool_decide (is_Some (newGroup flags))
          || bool_decide (is_Some (newTags flags)) in
        if negb updated then
          ret (inr ("no updates specified. Use flags like --status, "
                    +:+ "--priority, --assignee, etc."))
        else
          r <- client.UpdateTicket (clientEnv env) zdClient ticketID req ;;
          ret (wrapErr "failed to update ticket" r))
  end.

Definition runTicketAssign (arg0 arg1 : string)
  : M (Doc client.TicketResponse + string) :=
  match getClientFromFlags false with
  | inr err => ret (inr err)
  | inl zdClient =>
      withID "ticket" arg0 (fun ticketID =>
        match strconv.Atoi arg1 with
        | None => ret (inr ("invalid user ID: " +:+ arg1))
        | Some assigneeID =>
            let req :=
              client.mkUpdateTicketRequest None None None (Some assigneeID)
                None [] None in
            r <- client.UpdateTicket (clientEnv env) zdClient ticketID req ;;
            ret (wrapErr "failed to assign ticket" r)
        end)
  end.


(** *** user.go: suspending, unsuspending and deleting a user *)

Section Users.
Variable UserResponse : Type.
Variable UnmarshalUser : string -> option UserResponse.

Definition runUserSuspend (arg : string) : M (UserResponse + string) :=
  match getClientFromFlags false with
  | inr err => ret (inr err)
  | inl zdClient =>
      match strconv.Atoi arg with
      | None => ret (inr ("invalid user ID: " +:+ arg))
      | Some userID =>
          r <- client.SuspendUser (clientEnv env) UserResponse UnmarshalUser
                 zdClient userID ;;
          ret (wrapErr "failed to suspend user" r)
      end
  end.

Definition runUserUnsuspend (arg : string) : M (UserResponse + string) :=
  match getClientFromFlags false with
  | inr err => ret (inr err)
  | inl zdClient =>
      match strconv.Atoi arg with
      | None => ret (inr ("invalid user ID: " +:+ arg))
      | Some userID =>
          r <- client.UnsuspendUser (clientEnv env) UserResponse
                 UnmarshalUser zdClient userID ;;
          ret (wrapErr "failed to unsuspend user" r)
      end
  end.

End Users.

(** What [zd user delete] reports: that the user was deleted, that the
    deletion was cancelled (the command returns [nil] in both cases), or
    the message of its error. *)
Inductive deletion : Type :=
  | Deleted
  | DeletionCancelled
  | DeletionFailed (err : string).

Definition runUserDelete (arg : string) (force : bool) : M deletion :=
  match getClientFromFlags false with
  | inr err => ret (DeletionFailed err)
  | inl zdClient =>
      match strconv.Atoi arg with
      | None => ret (DeletionFailed ("invalid user ID: " +:+ arg))
      | Some userID =>
          let confirmed : bool + string :=
            if negb force then
              match promptString env "Type 'yes' to confirm" with
              | inr err => inr err
              | inl confirm =>
                  inl (bool_decide (strings.ToLower confirm = "yes"))
              end
            else inl true in
          match confirmed with
          | inr err => ret (DeletionFailed err)
          | inl false => ret DeletionCancelled
          | inl true =>
              r <- client.DeleteUser (clientEnv env) zdClient userID ;;
              match r with
              | Some err =>
                  ret (DeletionFailed ("failed to delete user: "
                                       +:+ client.Error err))
              | None => ret Deleted
              end
          end
      end
  end.

(** *** Appending to a shell's start-up file *)

(** [addLineToFile] and [addBlockToFile]: the files of the model can be
    read and opened for appending whenever they are named, so the only
    result is [nil]. *)
Definition addLineToFile (filepath line comment : string) : M (option string) :=
  r <- os.ReadFile filepath ;;
  let content := default "" r in
  if strings.Contains content line then ret None
  else
    let f := content in
    let f :=
      if (0 <? Z.of_nat (String.length content))
         && negb (strings.HasSuffix content (String "010" ""))
      then f +:+ String "010" "" else f in
    let f := f +:+ (String "010" "" +:+ comment +:+ String "010" "") in
    let f := f +:+ line in
    os.WriteFile filepath f ;;; ret None.

Definition addBlockToFile (filepath block marker : string)
  : M (option string) :=
  r <- os.ReadFile filepath ;;
  let content := default "" r in
  if strings.Contains content marker then ret None
  else
    let f := content in
    let f :=
      if (0 <? Z.of_nat (String.length content))
         && negb (strings.HasSuffix content (String "010" ""))
      then f +:+ String "010" "" else f in
    let f := f +:+ block in
    os.WriteFile filepath f ;;; ret None.

(** *** [zd ticket comment] and [zd ticket comments] *)

(** The flags of [zd ticket comment]: the message (empty when not given),
    the value of [public] (true when not given), and the value of
    [private] when [cmd.Flags().Changed] holds of it, else [None]. *)
Record CommentFlags := mkCommentFlags {
  message : string;
  public : bool;
  private : option bool;
}.

Definition runTicketComment (arg : string) (flags : CommentFlags)
  : M (Doc client.TicketResponse + string) :=
  match getClientFromFlags false with
  | inr err => ret (inr err)
  | inl zdClient =>
      withID "ticket" arg (fun ticketID =>
        match (if decide (message flags = "") then promptString env "Comment"
               else inl (message flags)) with
        | inr err => ret (inr err)
        | inl message =>
            let isPublic :=
              match private flags with
              | Some private => negb private
              | None => true
              end in
            let req :=
              client.mkUpdateTicketRequest None None None None None []
                (Some (message, isPublic)) in
            r <- client.UpdateTicket (clientEnv env) zdClient ticketID req ;;
            ret (wrapErr "failed to add comment" r)
        end)
  end.

Section Comments.
Variable CommentsResponse : Type.
Variable UnmarshalComments : string -> option CommentsResponse.

Definition runTicketComments (arg : string) (refresh : bool)
  : M (CommentsResponse + string) :=
  match getClientFromFlags refresh with
  | inr err => ret (inr err)
  | inl zdClient =>
      withID "ticket" arg (fun ticketID =>
        r <- client.GetTicketComments (clientEnv env) CommentsResponse
               UnmarshalComments zdClient ticketID ;;
        ret (wrapErr "failed to get ticket comments" r))
  end.

End Comments.

(** *** [zd cache clear] *)

(** What [zd cache clear] reports: that the cache was cleared, that it
    could not be initialized, or the message of the error of [Clear]. *)
Inductive clearing : Type :=
  | CacheCleared
  | CacheInitFailed
  | CacheClearFailed (err : string).

Definition runCacheClear : M clearing :=
  match cache.New (client.cacheEnv (clientEnv env)) (15 * time.Minute) with
  | None => ret CacheInitFailed
  | Some c =>
      r <- cache.Clear c ;;
      match r with
      | Some err => ret (CacheClearFailed ("failed to clear cache: " +:+ err))
      | None => ret CacheCleared
      end
  end.
End WithEnvironment.
End commands.

(** ** The specification's sentences where the code departs from them *)

Module stated.

(** "An entry is valid for reads if and only if now is strictly before its
    expiration timestamp": [Get] finds the entry exactly when its file
    exists, decodes, and the reading of the clock is strictly before the
    expiration. *)
Definition Get_found (env : cache.Env) (c : cache.Cache) (key : string)
  (w : World) : Prop :=
  snd (fst (cache.Get env c key w)) = true <->
  exists data entry,
    files w !! cache.keyToPath env c key = Some data
    /\ cache.Unmarshal env data = Some entry
    /\ cache.Now env (ticks w) < cache.ExpiresAt entry.

(** "400 Bad Request, 401 Authentication Failed, 403 Access Denied, 404
    Resource Not Found, 422 Invalid Input, 429 Rate Limit Exceeded, 5xx
    Server Error/Unavailable": the message the table is said to give a
    status. *)
Definition statusMessage (statusCode : Z) (msg : string) : Prop :=
  (statusCode = 400 -> msg = "Bad Request")
  /\ (statusCode = 401 -> msg = "Authentication Failed")
  /\ (statusCode = 403 -> msg = "Access Denied")
  /\ (statusCode = 404 -> msg = "Resource Not Found")
  /\ (statusCode = 422 -> msg = "Invalid Input")
  /\ (statusCode = 429 -> msg = "Rate Limit Exceeded")
  /\ (500 <= statusCode <= 599 ->
      msg = "Zendesk Server Error" \/ msg = "Zendesk Service Unavailable").

(** "On 429, honors a Retry-After response header if present (capped at a
    maximum backoff ceiling) before retrying": the wait that is said to
    follow a 429 response whose header gives [seconds]. *)
Definition retryAfterWait (config : client.RetryConfig) (seconds : Z) : Z :=
  Z.min (seconds * time.Second) (client.MaxBackoff config).

Definition honorsRetryAfter (fn : nat -> http.Response + string)
  (ctxDone : nat -> bool) : Prop :=
  forall resp seconds,
    fn O = inl resp ->
    http.StatusCode resp = http.StatusTooManyRequests ->
    strconv.Atoi (http.RetryAfter resp) = Some seconds ->
    exists rest,
      fst (client.RetryWithBackoff fn ctxDone)
      = client.Call
          :: client.Wait (retryAfterWait client.DefaultRetryConfig seconds)
          :: rest.

(** "A caller-supplied zero for an optional id field must be treated as not
    set": the member [name] of the ticket in a request body, if it has
    one. *)
Definition ticketField (name : string) (req : http.Request) : option json :=
  match http.ReqBody req with
  | Some (JObj [(_, JObj fields)]) =>
      snd <$> List.find (fun f => bool_decide (fst f = name)) fields
  | _ => None
  end.


(** "Per-page is clamped to a maximum of 100 regardless of caller input":
    the request that the list operation of the client sends for a per-page
    value above 100 carries [per_page=100]. *)
Definition clampsPerPage (env : client.Env) (c : client.Client)
  (page perPage : Z) (status : string) (w : World) : Prop :=
  perPage > 100 ->
  forall r,
    sent (snd (client.ListTickets env c page perPage status w))
    = sent w ++ [r] ->
    http.URL r
    = client.GetBaseURL c
      +:+ (if decide (status ≠ "")
           then ("/tickets.json?page=" +:+ itoa page +:+ "&per_page=100")
                +:+ "&status=" +:+ url.QueryEscape status
           else "/tickets.json?page=" +:+ itoa page +:+ "&per_page=100").

End stated.

(** ** A concrete environment, to run the definitions in *)

Module demo.

(** A stand-in for the digest that is injective (the key itself), a codec
    of entries that keeps the expiration only, as a decimal numeral, and a
    clock that starts at 1000 and advances by one at each reading. *)
Definition cacheEnv : cache.Env :=
  cache.mkEnv
    (fun key => key)
    (fun data =>
       match strconv.Atoi data with
       | Some n => Some (cache.mkEntry "cached" n 0)
       | None => None
       end)
    (fun entry => itoa (cache.ExpiresAt entry))
    (fun n => 1000 + Z.of_nat n)
    (Some "/home/zd")
    (fun _ => true).

Definition zdCache : cache.Cache :=
  cache.mkCache "/home/zd/.zd/cache" cache.DefaultTTL.

(** A server that answers every request with status 200 and the body
    "ok", and decoders that accept every body. *)
Definition clientEnv : client.Env :=
  client.mkEnv cacheEnv
    (fun _ => None)
    (fun _ _ => inl (http.mkResponse 200 "" "ok" false))
    (fun _ => string)
    (fun _ body => Some body)
    (fun _ => None).

Definition instance : config.Instance :=
  config.mkInstance "work" "acme" config.AuthTypeToken "a@b.com" "tok123"
    "" "" "" "" "".

Definition oauthInstance : config.Instance :=
  config.mkInstance "work" "acme" config.AuthTypeOAuth "" ""
    "client-1" "secret-1" "access-1" "refresh-1" "2026-01-01T00:00:00Z".

Definition env : commands.Env :=
  commands.mkEnv clientEnv (inl instance) (fun _ => inr "no terminal").

Definition zdClient : client.Client :=
  client.mkClient "acme" "Basic YUBiLmNvbS90b2tlbjp0b2sxMjM=" (Some zdCache)
    true.

Definition emptyWorld : World := mkWorld ∅ O [].

(** A world whose cache holds the entry of ticket 500 and an entry of the
    ticket list, neither expired at the clock's first reading. *)
Definition ticketKey : string := "acme:tickets:500".
Definition listKey : string := "acme:tickets:list:1:30:".

Definition cachedWorld : World :=
  mkWorld
    (<[cache.keyToPath cacheEnv zdCache ticketKey := "5000"]>
       (<[cache.keyToPath cacheEnv zdCache listKey := "5000"]> ∅))
    O [].

(** A world whose cache holds an entry that expires at the very instant of
    the clock's first reading. *)
Definition boundaryWorld : World :=
  mkWorld (<[cache.keyToPath cacheEnv zdCache ticketKey := "1000"]> ∅) O [].

(** An update of the status of ticket 500, and the world it leaves. *)
Definition updateReq : client.UpdateTicketRequest :=
  client.mkUpdateTicketRequest None None (Some "solved") None None [] None.

Definition updatedWorld : World :=
  snd (client.UpdateTicket clientEnv zdClient 500 updateReq cachedWorld).

(** [zd ticket update 500 --assignee 0] and [zd ticket create --subject s
    --description d --assignee 0]. *)
Definition unassign : commands.UpdateFlags :=
  commands.mkUpdateFlags None None None (Some 0) None None.

Definition createUnassigned : commands.CreateFlags :=
  commands.mkCreateFlags "s" "d" "" "incident" "new" 0 0 [].

(** A token endpoint that accepts every code. *)
Definition Exchange (code : string) : string + string :=
  inl ("token-for-" +:+ code).

(** A callback whose state is not the one issued. *)
Definition forged : url.Values := [("state", "state-0"); ("code", "abc")].



(** An environment in which the cache directory cannot be made. *)
Definition readOnlyEnv : client.Env :=
  client.mkEnv
    (cache.mkEnv (cache.Sum256 cacheEnv) (cache.Unmarshal cacheEnv)
       (cache.Marshal cacheEnv) (cache.Now cacheEnv) (Some "/home/zd")
       (fun _ => false))
    (client.NewRequestErr clientEnv) (client.RoundTrip clientEnv)
    (client.Decoded clientEnv) (client.Unmarshal clientEnv)
    (client.UnmarshalZendeskError clientEnv).

(** Responses for the retry helper. *)
Definition tooMany (retryAfter : string) : http.Response :=
  http.mkResponse 429 retryAfter "" false.

Definition unavailable : http.Response := http.mkResponse 503 "" "" false.

(** A server that always answers 429 with [Retry-After: 2], one that
    answers 429 with a [Retry-After] of more seconds than an [int64] holds
    nanoseconds, and a context that is never done. *)
Definition rateLimited (attempt : nat) : http.Response + string :=
  inl (tooMany "2").

Definition overflowing (attempt : nat) : http.Response + string :=
  inl (tooMany "9223372037").

Definition patient (attempt : nat) : bool := false.


(** A codec of entries that loses nothing of the data and of the
    expiration: the sign of the expiration, its binary digits from the
    lowest up to a semicolon, and the data. *)
Fixpoint bits (p : positive) : string :=
  match p with
  | xH => ";"
  | xO q => String "0" (bits q)
  | xI q => String "1" (bits q)
  end.

Fixpoint unbits (s : string) : option (positive * string) :=
  match s with
  | String ";"%char rest => Some (xH, rest)
  | String "0"%char rest =>
      match unbits rest with
      | Some (q, data) => Some (xO q, data)
      | None => None
      end
  | String "1"%char rest =>
      match unbits rest with
      | Some (q, data) => Some (xI q, data)
      | None => None
      end
  | _ => None
  end.

Definition marshal (entry : cache.Entry) : string :=
  match cache.ExpiresAt entry with
  | Z0 => String "z" (cache.Data entry)
  | Zpos p => String "+" (bits p +:+ cache.Data entry)
  | Zneg p => String "-" (bits p +:+ cache.Data entry)
  end.

Definition unmarshal (s : string) : option cache.Entry :=
  match s with
  | String "z"%char data => Some (cache.mkEntry data 0 0)
  | String "+"%char rest =>
      match unbits rest with
      | Some (p, data) => Some (cache.mkEntry data (Zpos p) 0)
      | None => None
      end
  | String "-"%char rest =>
      match unbits rest with
      | Some (p, data) => Some (cache.mkEntry data (Zneg p) 0)
      | None => None
      end
  | _ => None
  end.

Definition codecEnv : client.Env :=
  client.mkEnv
    (cache.mkEnv (cache.Sum256 cacheEnv) unmarshal marshal
       (cache.Now cacheEnv) (Some "/home/zd") (fun _ => true))
    (client.NewRequestErr clientEnv) (client.RoundTrip clientEnv)
    (client.Decoded clientEnv) (client.Unmarshal clientEnv)
    (client.UnmarshalZendeskError clientEnv).

(** A client without a cache, as [--refresh] makes it. *)
Definition refreshClient : client.Client :=
  client.mkClient "acme" "Basic YUBiLmNvbS90b2tlbjp0b2sxMjM=" None false.

(** A server that answers every request with status 404 and an empty
    document, which is not a structured error. *)
Definition missingEnv : client.Env :=
  client.mkEnv cacheEnv
    (fun _ => None)
    (fun _ _ => inl (http.mkResponse 404 "" "{}" false))
    (fun _ => string)
    (fun _ body => Some body)
    (fun _ => None).

(** The decoder of [UserResponse] that accepts every body. *)
Definition UnmarshalUser (body : string) : option string := Some body.

(** A world whose cache holds the entry of user 7 and the entry of the
    authenticated user, neither expired at the clock's first reading. *)
Definition userKey : string := "acme:users:7".
Definition meKey : string := "acme:users:me".

Definition usersWorld : World :=
  mkWorld
    (<[cache.keyToPath cacheEnv zdCache userKey := "5000"]>
       (<[cache.keyToPath cacheEnv zdCache meKey := "5000"]> ∅))
    O [].

(** The world that suspending user 7 leaves. *)
Definition suspendedWorld : World :=
  snd (client.SuspendUser clientEnv string UnmarshalUser zdClient 7
         usersWorld).



(** A run in which a forged callback is followed by two callbacks that
    carry the issued state, with the codes "abc" and "xyz". *)
Definition accepted : url.Values :=
  [("state", "state-1700000000"); ("code", "abc")].

Definition repeated : url.Values :=
  [("state", "state-1700000000"); ("code", "xyz")].


Definition acceptedRun : auth.Run :=
  auth.mkRun (1700000000 * time.Second) None [forged; accepted; repeated]
    auth.PickCode "context canceled".

(** A terminal at which the user answers every prompt with "YES". *)
Definition confirmingEnv : commands.Env :=
  commands.mkEnv clientEnv (inl instance) (fun _ => inl "YES").

(** The block that the installer of the bash completion adds, for the home
    directory /home/zd. *)
Definition sourceBlock : string :=
  String "010" "" +:+ "# zd completion - load bash-completion framework first"
  +:+ String "010" "" +:+ ". /home/zd/.bash_completion.d/zd"
  +:+ String "010" "".

Definition zshrcWorld : World :=
  mkWorld {[ "/home/zd/.zshrc" := "export EDITOR=vi" ]} O [].

(** A world whose cache holds the entry of the comments of ticket 500 and
    the entry of the ticket, neither expired at the clock's first reading;
    the decoder of [CommentsResponse] that accepts every body; and [zd
    ticket comment 500 --message hello --public=false]. *)
Definition commentsKey : string := "acme:tickets:500:comments".

Definition commentsWorld : World :=
  mkWorld
    (<[cache.keyToPath cacheEnv zdCache commentsKey := "5000"]>
       (<[cache.keyToPath cacheEnv zdCache ticketKey := "5000"]> ∅))
    O [].

Definition UnmarshalComments (body : string) : option string := Some body.

Definition notPublic : commands.CommentFlags :=
  commands.mkCommentFlags "hello" false None.

(** A map range that yields the first key of the map's listing. *)
Definition rangeFirst (m : gmap string config.Instance) : string :=
  match map_to_list m with
  | (name, _) :: _ => name
  | [] => ""
  end.

Definition staging : config.Instance :=
  config.mkInstance "staging" "acme-staging" config.AuthTypeToken
    "a@b.com" "tok456" "" "" "" "" "".

Definition oneInstance : config.Config :=
  config.mkConfig "work" {[ "work" := instance ]}.

Definition twoInstances : config.Config :=
  config.mkConfig "work" (<["staging" := staging]> {[ "work" := instance ]}).

(** A configuration file that has an instance and names no current one. *)
Definition noCurrent : config.Config :=
  config.mkConfig "" {[ "work" := instance ]}.

(** A configuration file that has an instance under the empty name. *)
Definition unnamed : config.Config :=
  config.mkConfig "work" (<["" := staging]> {[ "work" := instance ]}).
End demo.

(** * Properties *)

(** ** The state monad *)

Lemma bind_eq {A B} (m : M A) (k : A -> M B) (w : World) :
  bind m k w = k (fst (m w)) (snd (m w)).
Proof. unfold bind. destruct (m w); reflexivity. Qed.

(** ** Cache entries are read until they expire *)

Section CacheGet.
Variable env : cache.Env.
Variable c : cache.Cache.
Variable key : string.
Variable w : World.

Let path := cache.keyToPath env c key.
Let now := cache.Now env (ticks w).

Lemma Get_absent :
  files w !! path = None -> cache.Get env c key w = (("", false), w).
Proof.
  intros Hnone. unfold cache.Get. rewrite bind_eq. unfold os.ReadFile. simpl.
  fold path. rewrite Hnone. reflexivity.
Qed.

Lemma Get_malformed data :
  files w !! path = Some data ->
  cache.Unmarshal env data = None ->
  cache.Get env c key w
  = (("", false), mkWorld (delete path (files w)) (ticks w) (sent w)).
Proof.
  intros Hsome Hbad. unfold cache.Get. rewrite bind_eq. unfold os.ReadFile.
  simpl. fold path. rewrite Hsome, Hbad. reflexivity.
Qed.

Lemma Get_expired data entry :
  files w !! path = Some data ->
  cache.Unmarshal env data = Some entry ->
  cache.ExpiresAt entry < now ->
  cache.Get env c key w
  = (("", false), mkWorld (delete path (files w)) (S (ticks w)) (sent w)).
Proof.
  intros Hsome Hok Hexp. unfold cache.Get. rewrite bind_eq.
  unfold os.ReadFile. simpl. fold path. rewrite Hsome, Hok.
  rewrite bind_eq. unfold cache.time_Now, time.After. simpl. fold now.
  destruct (Z.ltb_spec (cache.ExpiresAt entry) now); [reflexivity | lia].
Qed.

Lemma Get_fresh data entry :
  files w !! path = Some data ->
  cache.Unmarshal env data = Some entry ->
  now <= cache.ExpiresAt entry ->
  cache.Get env c key w
  = ((cache.Data entry, true), mkWorld (files w) (S (ticks w)) (sent w)).
Proof.
  intros Hsome Hok Hfresh. unfold cache.Get. rewrite bind_eq.
  unfold os.ReadFile. simpl. fold path. rewrite Hsome, Hok.
  rewrite bind_eq. unfold cache.time_Now, time.After. simpl. fold now.
  destruct (Z.ltb_spec (cache.ExpiresAt entry) now); [lia | reflexivity].
Qed.

(** C1, as the code has it.  [Get] returns [found = true], with the data of
    the entry, exactly when the entry file of the key exists, decodes as an
    entry, and the reading of the clock is not after the entry's expiration
    (an entry is still read at the very instant it expires).  In every
    other case it returns [found = false]; it deletes the entry file when
    the file exists and its content is malformed or expired, and leaves the
    files as they are otherwise. *)
Theorem Get_found_iff :
  (snd (fst (cache.Get env c key w)) = true <->
   exists data entry,
     files w !! path = Some data
     /\ cache.Unmarshal env data = Some entry
     /\ now <= cache.ExpiresAt entry)
  /\ (forall data entry,
        files w !! path = Some data ->
        cache.Unmarshal env data = Some entry ->
        now <= cache.ExpiresAt entry ->
        fst (cache.Get env c key w) = (cache.Data entry, true)
        /\ files (snd (cache.Get env c key w)) = files w)
  /\ (files w !! path = None ->
      fst (cache.Get env c key w) = ("", false)
      /\ files (snd (cache.Get env c key w)) = files w)
  /\ (forall data,
        files w !! path = Some data ->
        cache.Unmarshal env data = None
        \/ (exists entry,
              cache.Unmarshal env data = Some entry
              /\ cache.ExpiresAt entry < now) ->
        fst (cache.Get env c key w) = ("", false)
        /\ files (snd (cache.Get env c key w)) = delete path (files w)
        /\ files (snd (cache.Get env c key w)) !! path = None).
Proof.
  split; [split | split; [|split]].
  - intros Hfound.
    destruct (files w !! path) as [data|] eqn:Hfile.
    + destruct (cache.Unmarshal env data) as [entry|] eqn:Hdec.
      * destruct (Z.lt_ge_cases (cache.ExpiresAt entry) now) as [Hlt|Hge].
        -- rewrite (Get_expired data entry Hfile Hdec Hlt) in Hfound.
           discriminate.
        -- exists data, entry. auto.
      * rewrite (Get_malformed data Hfile Hdec) in Hfound. discriminate.
    + rewrite (Get_absent Hfile) in Hfound. discriminate.
  - intros (data & entry & Hfile & Hdec & Hfresh).
    rewrite (Get_fresh data entry Hfile Hdec Hfresh). reflexivity.
  - intros data entry Hfile Hdec Hfresh.
    rewrite (Get_fresh data entry Hfile Hdec Hfresh). split; reflexivity.
  - intros Hfile. rewrite (Get_absent Hfile). split; reflexivity.
  - intros data Hfile [Hbad | (entry & Hdec & Hexp)].
    + rewrite (Get_malformed data Hfile Hbad).
      repeat split. apply lookup_delete_eq.
    + rewrite (Get_expired data entry Hfile Hdec Hexp).
      repeat split. apply lookup_delete_eq.
Qed.

End CacheGet.

Lemma Get_found_iff_witness :
  fst (cache.Get demo.cacheEnv demo.zdCache demo.ticketKey demo.cachedWorld)
  = ("cached", true)
  /\ files (snd (cache.Get demo.cacheEnv demo.zdCache demo.ticketKey
                   demo.cachedWorld))
     = files demo.cachedWorld.
Proof.
  apply (proj1 (proj2 (Get_found_iff demo.cacheEnv demo.zdCache
                         demo.ticketKey demo.cachedWorld))
           "5000" (cache.mkEntry "cached" 5000 0)).
  - vm_compute. reflexivity.
  - vm_compute. reflexivity.
  - vm_compute. discriminate.
Defined.

(** C1, as the specification words it, fails at the instant of expiration:
    an entry that expires at 1000 is still found by a read at 1000, which is
    not strictly before 1000. *)
Lemma Get_found_strictly_before_fails :
  ~ stated.Get_found demo.cacheEnv demo.zdCache demo.ticketKey
      demo.boundaryWorld.
Proof.
  unfold stated.Get_found. intros [Hfound _].
  assert (Hread :
    snd (fst (cache.Get demo.cacheEnv demo.zdCache demo.ticketKey
                demo.boundaryWorld)) = true) by (vm_compute; reflexivity).
  destruct (Hfound Hread) as (data & entry & Hfile & Hdec & Hstrict).
  assert (Hdata : data = "1000").
  { vm_compute in Hfile. congruence. }
  subst data. vm_compute in Hdec. injection Hdec as <-.
  vm_compute in Hstrict. discriminate.
Qed.

(** ** Strings, numerals and hexadecimal digests *)

Lemma string_app_nil (t : string) : "" +:+ t = t.
Proof. reflexivity. Qed.

Lemma string_app_cons (a : ascii) (s t : string) :
  String a s +:+ t = String a (s +:+ t).
Proof. reflexivity. Qed.

Lemma string_length_app (s t : string) :
  String.length (s +:+ t) = (String.length s + String.length t)%nat.
Proof.
  induction s as [|a s IH]; [reflexivity|].
  rewrite string_app_cons. cbn [String.length]. rewrite IH. reflexivity.
Qed.

Lemma string_app_inj_r (s1 s2 t : string) : s1 +:+ t = s2 +:+ t -> s1 = s2.
Proof.
  revert s2.
  induction s1 as [|a s1 IH]; intros [|b s2] Heq;
    rewrite ?string_app_nil, ?string_app_cons in Heq.
  - reflexivity.
  - apply (f_equal String.length) in Heq. cbn [String.length] in Heq.
    rewrite string_length_app in Heq. lia.
  - apply (f_equal String.length) in Heq. cbn [String.length] in Heq.
    rewrite string_length_app in Heq. lia.
  - injection Heq as -> Heq. f_equal. auto.
Qed.

Lemma hex_decode_byte (b : ascii) (rest : string) :
  hex.DecodeString (hex.encodeByte b +:+ rest)
  = String b (hex.DecodeString rest).
Proof. destruct b as [[] [] [] [] [] [] [] []]; reflexivity. Qed.

Lemma hex_decode_encode (s : string) :
  hex.DecodeString (hex.EncodeToString s) = s.
Proof.
  induction s as [|b s IH]; [reflexivity|].
  cbn [hex.EncodeToString]. rewrite hex_decode_byte. congruence.
Qed.

Lemma hex_encode_inj (s1 s2 : string) :
  hex.EncodeToString s1 = hex.EncodeToString s2 -> s1 = s2.
Proof.
  intros Heq. rewrite <- (hex_decode_encode s1), <- (hex_decode_encode s2).
  congruence.
Qed.

(** Two keys share an entry file only if their digests collide. *)
Lemma keyToPath_inj (env : cache.Env) (c : cache.Cache) (k1 k2 : string) :
  cache.keyToPath env c k1 = cache.keyToPath env c k2 ->
  cache.Sum256 env k1 = cache.Sum256 env k2.
Proof.
  unfold cache.keyToPath, filepath.Join. intros Heq.
  apply hex_encode_inj, (string_app_inj_r _ _ ".json").
  destruct (decide (cache.dir c = "")); [assumption|].
  apply (String.app_inj (cache.dir c)) in Heq.
  apply (String.app_inj "/") in Heq. assumption.
Qed.

Lemma pretty_N_go_head (x : N) (s : string) (c : ascii) (s' : string) :
  strconv.isDigit c = false ->
  s <> String c s' -> pretty_N_go x s <> String c s'.
Proof.
  intros Hc. revert s. induction (N.lt_wf_0 x) as [x _ IH]; intros s Hs.
  assert (x = 0 \/ 0 < x)%N as [->|Hpos] by lia.
  - rewrite pretty_N_go_0. assumption.
  - rewrite pretty_N_go_step by assumption. apply IH.
    + apply N.div_lt; [assumption | reflexivity].
    + intros [= <- _]. unfold pretty_N_char in Hc.
      repeat case_match; discriminate.
Qed.

(** A decimal numeral starts with a digit or with the minus sign. *)
Lemma itoa_head (n : Z) (c : ascii) (s : string) :
  strconv.isDigit c = false -> c <> "-"%char -> itoa n <> String c s.
Proof.
  intros Hc Hdash. unfold itoa, pretty, pretty_Z. destruct n as [|p|p].
  - intros [= <- _]. discriminate.
  - unfold pretty, pretty_positive, pretty, pretty_N.
    destruct (decide (N.pos p = 0%N)); [discriminate|].
    apply pretty_N_go_head; [assumption | discriminate].
  - simpl. intros [= Heq _]. congruence.
Qed.

(** The key of a ticket is not the key of a list or of a search of
    tickets. *)
Lemma ticketKey_not_list (c : client.Client) (ticketID page perPage : Z)
  (status : string) :
  client.ticketsListKey c page perPage status <> client.ticketKey c ticketID.
Proof.
  unfold client.ticketsListKey, client.ticketKey. intros Heq.
  apply (String.app_inj (client.subdomain c)) in Heq.
  rewrite !string_app_cons, !string_app_nil in Heq. injection Heq as Heq.
  symmetry in Heq. revert Heq. apply itoa_head; [reflexivity | discriminate].
Qed.

Lemma ticketKey_not_search (c : client.Client) (ticketID : Z)
  (query : string) :
  client.ticketsSearchKey c query <> client.ticketKey c ticketID.
Proof.
  unfold client.ticketsSearchKey, client.ticketKey. intros Heq.
  apply (String.app_inj (client.subdomain c)) in Heq.
  rewrite !string_app_cons, !string_app_nil in Heq. injection Heq as Heq.
  symmetry in Heq. revert Heq. apply itoa_head; [reflexivity | discriminate].
Qed.

(** ** A ticket update invalidates the entry of that ticket only *)

Section UpdateTicket.
Variable env : client.Env.
Variable c : client.Client.
Variable ticketID : Z.

Let key := client.ticketKey c ticketID.
Let url := client.GetBaseURL c +:+ "/tickets/" +:+ itoa ticketID +:+ ".json".

Lemma Delete_world (ch : cache.Cache) (k : string) (w : World) :
  cache.Delete (client.cacheEnv env) ch k w
  = (tt, mkWorld (delete (cache.keyToPath (client.cacheEnv env) ch k)
                    (files w))
           (ticks w) (sent w)).
Proof. reflexivity. Qed.

(** A request that returns a ticket was created, was sent, and changed
    nothing else. *)
Lemma makeTicketRequest_ok (method path : string) (body : json)
  (w w' : World) (ticket : client.Decoded env client.TicketResponse) :
  client.makeTicketRequest env c method path body w = (inl ticket, w') ->
  client.NewRequestErr env (client.GetBaseURL c +:+ path) = None
  /\ w' = mkWorld (files w) (ticks w)
            (sent w ++ [http.mkRequest method (client.GetBaseURL c +:+ path)
                          (client.authHeader c) (Some body)]).
Proof.
  unfold client.makeTicketRequest.
  destruct (client.NewRequestErr env _) as [err|]; [discriminate|].
  rewrite bind_eq. unfold client.httpClient_Do. cbn [fst snd].
  destruct (client.RoundTrip env _ _) as [resp|err]; [|discriminate].
  destruct (_ || _); [discriminate|].
  destruct (client.Unmarshal env _ _); [|discriminate].
  unfold ret. intros [= _ <-]. split; reflexivity.
Qed.

Lemma UpdateTicket_ok (req : client.UpdateTicketRequest) (w w' : World)
  (ticket : client.Decoded env client.TicketResponse) :
  client.UpdateTicket env c ticketID req w = (inl ticket, w') ->
  client.NewRequestErr env url = None
  /\ ticks w' = ticks w
  /\ sent w' = sent w ++ [http.mkRequest http.MethodPut url
                            (client.authHeader c)
                            (Some (client.updateBody req))]
  /\ files w' = match client.cache c with
                | Some ch =>
                    delete (cache.keyToPath (client.cacheEnv env) ch key)
                      (files w)
                | None => files w
                end.
Proof.
  unfold client.UpdateTicket. rewrite bind_eq.
  destruct (client.makeTicketRequest env c _ _ _ w) as [[t|err] w1] eqn:Hreq;
    cbn [fst snd]; [|discriminate].
  apply makeTicketRequest_ok in Hreq as [Hurl ->].
  rewrite bind_eq. destruct (client.cache c) as [ch|].
  - rewrite Delete_world. cbn [fst snd]. unfold ret. intros [= _ <-].
    repeat split; assumption || reflexivity.
  - unfold ret. cbn [fst snd]. intros [= _ <-].
    repeat split; assumption || reflexivity.
Qed.

(** [GetTicket] goes to the network when the cache, if it is in use, holds
    no file for the ticket. *)
Lemma GetTicket_miss (w : World) :
  (forall ch, client.cacheInUse c = Some ch ->
     files w !! cache.keyToPath (client.cacheEnv env) ch key = None) ->
  client.NewRequestErr env url = None ->
  sent (snd (client.GetTicket env c ticketID w))
  = sent w ++ [http.mkRequest http.MethodGet url (client.authHeader c) None].
Proof.
  intros Hfile Hurl. unfold client.GetTicket. rewrite bind_eq.
  assert (Hhit :
    (match client.cacheInUse c with
     | Some ch =>
         r <- cache.Get (client.cacheEnv env) ch
                (client.ticketKey c ticketID) ;;
         ret (if snd r then client.Unmarshal env client.TicketResponse (fst r)
              else None)
     | None => ret None
     end) w = (None, w)).
  { destruct (client.cacheInUse c) as [ch|]; [|reflexivity].
    rewrite bind_eq, Get_absent by (apply Hfile; reflexivity). reflexivity. }
  rewrite Hhit. cbn [fst snd]. rewrite bind_eq.
  unfold client.makeRequest. fold url. rewrite Hurl, bind_eq.
  unfold client.httpClient_Do. cbn [fst snd].
  destruct (client.RoundTrip env _ _) as [resp|err]; [|reflexivity].
  unfold ret at 1. cbn [fst snd].
  destruct (decide (http.StatusCode resp ≠ http.StatusOK)); [reflexivity|].
  destruct (http.ReadErr resp); [reflexivity|].
  destruct (client.Unmarshal env _ _); [|reflexivity].
  rewrite bind_eq. destruct (client.cacheInUse c); reflexivity.
Qed.

(** C2.  A successful [UpdateTicket] of a ticket deletes the entry file of
    that ticket's key and changes no other file (it deletes nothing when
    the client has no cache); the next [GetTicket] of the ticket by the
    client finds no entry, whatever the entry's expiration was, and sends
    its request to the server; and the entry file of every key whose digest
    is not that of the ticket's key, so that of every list and of every
    search of tickets, is as it was before: the keys of lists and of
    searches differ from the key of any ticket. *)
Theorem UpdateTicket_invalidates (req : client.UpdateTicketRequest)
  (w w' : World) (ticket : client.Decoded env client.TicketResponse) :
  client.UpdateTicket env c ticketID req w = (inl ticket, w') ->
  (forall ch, client.cache c = Some ch ->
     files w' = delete (cache.keyToPath (client.cacheEnv env) ch key)
                  (files w)
     /\ snd (fst (cache.Get (client.cacheEnv env) ch key w')) = false)
  /\ (client.cache c = None -> files w' = files w)
  /\ sent (snd (client.GetTicket env c ticketID w'))
     = sent w' ++ [http.mkRequest http.MethodGet url (client.authHeader c)
                     None]
  /\ (forall ch k,
        client.cache c = Some ch ->
        cache.Sum256 (client.cacheEnv env) k
        <> cache.Sum256 (client.cacheEnv env) key ->
        files w' !! cache.keyToPath (client.cacheEnv env) ch k
        = files w !! cache.keyToPath (client.cacheEnv env) ch k)
  /\ (forall page perPage status,
        client.ticketsListKey c page perPage status <> key)
  /\ (forall query, client.ticketsSearchKey c query <> key).
Proof.
  intros Hupd. apply UpdateTicket_ok in Hupd as (Hurl & _ & _ & Hfiles).
  split; [|split; [|split; [|split; [|split]]]].
  - intros ch Hch. split.
    + rewrite Hfiles, Hch. reflexivity.
    + rewrite Get_absent; [reflexivity|].
      rewrite Hfiles, Hch. apply lookup_delete_eq.
  - intros Hnone. rewrite Hfiles, Hnone. reflexivity.
  - apply GetTicket_miss; [|assumption].
    intros ch Hch. unfold client.cacheInUse in Hch.
    destruct (client.useCache c); [|discriminate].
    rewrite Hfiles, Hch. apply lookup_delete_eq.
  - intros ch k Hch Hdigest. rewrite Hfiles, Hch.
    apply lookup_delete_ne. intros Hpath. apply Hdigest. symmetry.
    exact (keyToPath_inj _ _ _ _ Hpath).
  - intros page perPage status. apply ticketKey_not_list.
  - intros query. apply ticketKey_not_search.
Qed.

End UpdateTicket.

Lemma UpdateTicket_invalidates_witness :
  snd (fst (cache.Get demo.cacheEnv demo.zdCache demo.ticketKey
              demo.updatedWorld)) = false
  /\ files demo.updatedWorld
       !! cache.keyToPath demo.cacheEnv demo.zdCache demo.listKey
     = Some "5000".
Proof.
  assert (Hrun :
    client.UpdateTicket demo.clientEnv demo.zdClient 500 demo.updateReq
      demo.cachedWorld = (inl "ok", demo.updatedWorld))
    by (vm_compute; reflexivity).
  destruct (UpdateTicket_invalidates demo.clientEnv demo.zdClient 500
              demo.updateReq demo.cachedWorld demo.updatedWorld "ok" Hrun)
    as (Hdel & _ & _ & Hframe & _).
  split.
  - exact (proj2 (Hdel demo.zdCache eq_refl)).
  - etransitivity.
    + apply (Hframe demo.zdCache demo.listKey eq_refl).
      vm_compute. discriminate.
    + vm_compute. reflexivity.
Defined.

(** ** The OAuth flow exchanges no code of a forged callback *)

Section OAuthFlow.
Variable Token : Type.
Variable Exchange : string -> Token + string.


(** The handler sends a code only for a callback that carries the issued
    state, no error, and that code. *)
Lemma callback_code (state : string) (query : url.Values) (code : string) :
  snd (auth.callback state query) = auth.toCodeChan code ->
  url.Get query "state" = state
  /\ url.Get query "error" = ""
  /\ url.Get query "code" = code /\ code <> "".
Proof.
  unfold auth.callback.
  destruct (decide (url.Get query "state" ≠ state)) as [|Hst];
    [discriminate|].
  destruct (decide (url.Get query "error" ≠ "")) as [|Herr]; [discriminate|].
  destruct (decide (url.Get query "code" = "")) as [|Hcode]; [discriminate|].
  cbn [snd]. intros [= <-].
  repeat split; try assumption.
  - destruct (decide (url.Get query "state" = state)); [assumption|].
    contradiction.
  - destruct (decide (url.Get query "error" = "")); [assumption|].
    contradiction.
Qed.


Lemma select_code (p : auth.pick) (codeChan errChan : option string)
  (code : string) :
  auth.select p codeChan errChan = auth.GotCode code -> codeChan = Some code.
Proof.
  destruct p, codeChan as [held|], errChan as [err|]; cbn [auth.select];
    congruence.
Qed.






End OAuthFlow.




(** ** Client construction validates the credentials of the declared mode *)

Section NewClient.
Variable env : client.Env.
Variable instance : config.Instance.
Variable useCache : bool.

Let result := client.NewClientWithCache env instance useCache.

(** C4.  With Token authentication an empty email, and else an empty API
    token, makes construction fail with the error that names it; with OAuth
    authentication so does an empty access token, refresh token, expiry,
    client id or client secret, the first of them in this order.  When the
    fields of the declared mode are all present construction succeeds, and
    if the cache cannot be initialised the client has no cache and does not
    use one. *)
Theorem NewClientWithCache_validates :
  (config.AuthType instance = config.AuthTypeToken ->
     (config.Email instance = "" ->
      result = inr "email is required for token authentication")
     /\ (config.Email instance <> "" -> config.APIToken instance = "" ->
         result = inr "API token is required for token authentication"))
  /\ (config.AuthType instance = config.AuthTypeOAuth ->
        (config.OAuthToken instance = "" ->
         result = inr "OAuth access token is required")
        /\ (config.OAuthToken instance <> "" ->
            config.OAuthRefresh instance = "" ->
            result = inr "OAuth refresh token is required")
        /\ (config.OAuthToken instance <> "" ->
            config.OAuthRefresh instance <> "" ->
            config.OAuthExpiry instance = "" ->
            result = inr "OAuth token expiry is required")
        /\ (config.OAuthToken instance <> "" ->
            config.OAuthRefresh instance <> "" ->
            config.OAuthExpiry instance <> "" ->
            config.OAuthClientID instance = "" ->
            result = inr "OAuth client ID is required")
        /\ (config.OAuthToken instance <> "" ->
            config.OAuthRefresh instance <> "" ->
            config.OAuthExpiry instance <> "" ->
            config.OAuthClientID instance <> "" ->
            config.OAuthSecret instance = "" ->
            result = inr "OAuth client secret is required"))
  /\ ((config.AuthType instance = config.AuthTypeToken
       /\ config.Email instance <> "" /\ config.APIToken instance <> "")
      \/ (config.AuthType instance = config.AuthTypeOAuth
          /\ config.OAuthToken instance <> ""
          /\ config.OAuthRefresh instance <> ""
          /\ config.OAuthExpiry instance <> ""
          /\ config.OAuthClientID instance <> ""
          /\ config.OAuthSecret instance <> "") ->
      exists zdClient,
        result = inl zdClient
        /\ client.subdomain zdClient = config.Subdomain instance
        /\ (cache.New (client.cacheEnv env) cache.DefaultTTL = None ->
            client.cache zdClient = None
            /\ client.useCache zdClient = false)
        /\ (forall ch,
              cache.New (client.cacheEnv env) cache.DefaultTTL = Some ch ->
              useCache = true ->
              client.cache zdClient = Some ch
              /\ client.useCache zdClient = true)).
Proof.
  unfold result, client.NewClientWithCache, auth.ValidateTokenAuth,
    auth.ValidateOAuthToken, auth.ValidateOAuthConfig.
  split; [|split].
  - intros Hmode.
    destruct (decide (config.AuthType instance = config.AuthTypeToken));
      [|contradiction].
    split.
    + intros Hemail.
      destruct (decide (config.Email instance = "")); [reflexivity|].
      contradiction.
    + intros Hemail Htoken.
      destruct (decide (config.Email instance = "")); [contradiction|].
      destruct (decide (config.APIToken instance = "")); [reflexivity|].
      contradiction.
  - intros Hmode.
    destruct (decide (config.AuthType instance = config.AuthTypeToken))
      as [Htok|_]; [rewrite Hmode in Htok; discriminate|].
    destruct (decide (config.AuthType instance = config.AuthTypeOAuth));
      [|contradiction].
    repeat split; intros;
      repeat (match goal with
              | |- context [decide (?x = "")] =>
                  destruct (decide (x = "")); try contradiction;
                  try reflexivity
              end).
  - intros [(Hmode & Hemail & Htoken)
           | (Hmode & Haccess & Hrefresh & Hexpiry & Hid & Hsecret)].
    + destruct (decide (config.AuthType instance = config.AuthTypeToken));
        [|contradiction].
      destruct (decide (config.Email instance = "")); [contradiction|].
      destruct (decide (config.APIToken instance = "")); [contradiction|].
      destruct useCache;
        [destruct (cache.New _ _) as [ch|]|];
        eexists; (split; [reflexivity|]); cbn;
        repeat split; congruence.
    + destruct (decide (config.AuthType instance = config.AuthTypeToken))
        as [Htok|_]; [rewrite Hmode in Htok; discriminate|].
      destruct (decide (config.AuthType instance = config.AuthTypeOAuth));
        [|contradiction].
      destruct (decide (config.OAuthToken instance = ""));
        [contradiction|].
      destruct (decide (config.OAuthRefresh instance = ""));
        [contradiction|].
      destruct (decide (config.OAuthExpiry instance = ""));
        [contradiction|].
      destruct (decide (config.OAuthClientID instance = ""));
        [contradiction|].
      destruct (decide (config.OAuthSecret instance = ""));
        [contradiction|].
      destruct useCache;
        [destruct (cache.New _ _) as [ch|]|];
        eexists; (split; [reflexivity|]); cbn;
        repeat split; congruence.
Qed.

(** C5.  The authorization header of a client made for a Token-mode
    instance is "Basic " followed by the base64 encoding of the email,
    "/token:" and the API token; that of a client made for an OAuth-mode
    instance is "Bearer " followed by the access token as it is. *)
Theorem NewClientWithCache_authHeader (zdClient : client.Client) :
  result = inl zdClient ->
  (config.AuthType instance = config.AuthTypeToken ->
   client.authHeader zdClient
   = "Basic " +:+ base64.EncodeToString
                    (config.Email instance +:+ "/token:"
                     +:+ config.APIToken instance))
  /\ (config.AuthType instance = config.AuthTypeOAuth ->
      client.authHeader zdClient = "Bearer " +:+ config.OAuthToken instance).
Proof.
  unfold result, client.NewClientWithCache, auth.EncodeToken.
  intros Hres. split; intros Hmode.
  - destruct (decide (config.AuthType instance = config.AuthTypeToken));
      [|contradiction].
    destruct (auth.ValidateTokenAuth _ _); [discriminate|].
    destruct useCache; [destruct (cache.New _ _)|];
      injection Hres as <-; reflexivity.
  - destruct (decide (config.AuthType instance = config.AuthTypeToken))
      as [Htok|_]; [rewrite Hmode in Htok; discriminate|].
    destruct (decide (config.AuthType instance = config.AuthTypeOAuth));
      [|contradiction].
    destruct (auth.ValidateOAuthToken _ _ _); [discriminate|].
    destruct (auth.ValidateOAuthConfig _ _); [discriminate|].
    destruct useCache; [destruct (cache.New _ _)|];
      injection Hres as <-; reflexivity.
Qed.

End NewClient.

(** The encoder agrees with the test vectors of RFC 4648, section 10. *)
Lemma base64_test_vectors :
  base64.EncodeToString "" = ""
  /\ base64.EncodeToString "f" = "Zg=="
  /\ base64.EncodeToString "fo" = "Zm8="
  /\ base64.EncodeToString "foo" = "Zm9v"
  /\ base64.EncodeToString "foob" = "Zm9vYg=="
  /\ base64.EncodeToString "fooba" = "Zm9vYmE="
  /\ base64.EncodeToString "foobar" = "Zm9vYmFy".
Proof. repeat split; reflexivity. Qed.

Lemma NewClientWithCache_validates_witness :
  client.NewClientWithCache demo.readOnlyEnv demo.oauthInstance true
  = inl (client.mkClient "acme" "Bearer access-1" None false).
Proof.
  destruct (proj2 (proj2 (NewClientWithCache_validates demo.readOnlyEnv
                            demo.oauthInstance true)))
    as (zdClient & Hres & Hsub & Hnocache & _).
  - right. repeat split; vm_compute; discriminate.
  - rewrite Hres. vm_compute in Hres. congruence.
Defined.

Lemma NewClientWithCache_authHeader_witness :
  exists zdClient,
    client.NewClientWithCache demo.clientEnv demo.instance true
    = inl zdClient
    /\ client.authHeader zdClient = "Basic YUBiLmNvbS90b2tlbjp0b2sxMjM=".
Proof.
  assert (Hnew :
    client.NewClientWithCache demo.clientEnv demo.instance true
    = inl demo.zdClient) by (vm_compute; reflexivity).
  exists demo.zdClient. split; [exact Hnew|].
  apply (proj1 (NewClientWithCache_authHeader demo.clientEnv demo.instance
                  true demo.zdClient Hnew)).
  reflexivity.
Defined.

(** ** Errors of the remote API are classified by their status *)

Section ParseAPIError.
Variable env : client.Env.
Variable statusCode : Z.
Variable body : string.

Let err := client.ParseAPIError env statusCode body.

Lemma getStatusMessage_other :
  statusCode <> 400 -> statusCode <> 401 -> statusCode <> 403 ->
  statusCode <> 404 -> statusCode <> 422 -> statusCode <> 429 ->
  statusCode <> 500 -> statusCode <> 503 ->
  client.getStatusMessage statusCode
  = "HTTP " +:+ itoa statusCode +:+ " Error".
Proof.
  intros. unfold client.getStatusMessage.
  repeat (match goal with
          | |- context [decide (statusCode = ?k)] =>
              destruct (decide (statusCode = k)) as [Heq|_];
              [vm_compute in Heq; contradiction|]
          end).
  reflexivity.
Qed.

(** C6, as the code has it.  The error made of a status and a body carries
    that status.  When the body decodes as a remote-error document with a
    non-empty error code, the message and description are those of the
    document; otherwise the message is that of the table and the
    description is the body.  The table gives 400, 401, 403, 404, 422, 429,
    500 and 503 a message of their own and every other status, the other
    5xx among them, the message "HTTP <status> Error".  The error is a
    rate-limit error iff the status is 429, an authentication error iff it
    is 401 or 403, and a not-found error iff it is 404. *)
Theorem ParseAPIError_classifies :
  (exists apiErr,
     err = client.ApiError apiErr
     /\ client.StatusCode apiErr = statusCode
     /\ ((exists zdErr,
            client.UnmarshalZendeskError env body = Some zdErr
            /\ client.zdError zdErr <> ""
            /\ client.Message apiErr = client.zdError zdErr
            /\ client.Description apiErr = client.zdDescription zdErr)
         \/ ((client.UnmarshalZendeskError env body = None
              \/ exists zdErr,
                   client.UnmarshalZendeskError env body = Some zdErr
                   /\ client.zdError zdErr = "")
             /\ client.Message apiErr = client.getStatusMessage statusCode
             /\ client.Description apiErr = body)))
  /\ (client.getStatusMessage 400 = "Bad Request"
      /\ client.getStatusMessage 401 = "Authentication Failed"
      /\ client.getStatusMessage 403 = "Access Denied"
      /\ client.getStatusMessage 404 = "Resource Not Found"
      /\ client.getStatusMessage 422 = "Invalid Input"
      /\ client.getStatusMessage 429 = "Rate Limit Exceeded"
      /\ client.getStatusMessage 500 = "Zendesk Server Error"
      /\ client.getStatusMessage 503 = "Zendesk Service Unavailable"
      /\ (statusCode <> 400 -> statusCode <> 401 -> statusCode <> 403 ->
          statusCode <> 404 -> statusCode <> 422 -> statusCode <> 429 ->
          statusCode <> 500 -> statusCode <> 503 ->
          client.getStatusMessage statusCode
          = "HTTP " +:+ itoa statusCode +:+ " Error"))
  /\ (client.IsRateLimitError err = true <-> statusCode = 429)
  /\ (client.IsAuthError err = true <-> statusCode = 401 \/ statusCode = 403)
  /\ (client.IsNotFoundError err = true <-> statusCode = 404).
Proof.
  assert (Hstatus : exists apiErr,
    err = client.ApiError apiErr /\ client.StatusCode apiErr = statusCode
    /\ ((exists zdErr,
           client.UnmarshalZendeskError env body = Some zdErr
           /\ client.zdError zdErr <> ""
           /\ client.Message apiErr = client.zdError zdErr
           /\ client.Description apiErr = client.zdDescription zdErr)
        \/ ((client.UnmarshalZendeskError env body = None
             \/ exists zdErr,
                  client.UnmarshalZendeskError env body = Some zdErr
                  /\ client.zdError zdErr = "")
            /\ client.Message apiErr = client.getStatusMessage statusCode
            /\ client.Description apiErr = body))).
  { unfold err, client.ParseAPIError.
    destruct (client.UnmarshalZendeskError env body) as [zdErr|].
    - destruct (decide (client.zdError zdErr ≠ "")) as [Hcode|Hnocode].
      + eexists. split; [reflexivity|]. split; [reflexivity|].
        left. exists zdErr. repeat split. assumption.
      + eexists. split; [reflexivity|]. split; [reflexivity|].
        right. repeat split. right. exists zdErr. split; [reflexivity|].
        destruct (decide (client.zdError zdErr = "")); [assumption|].
        contradiction.
    - eexists. split; [reflexivity|]. split; [reflexivity|].
      right. repeat split. left. reflexivity. }
  split; [exact Hstatus|].
  destruct Hstatus as (apiErr & -> & Hcode & _).
  split.
  { repeat split; try reflexivity. apply getStatusMessage_other. }
  unfold client.IsRateLimitError, client.IsAuthError, client.IsNotFoundError.
  rewrite Hcode, orb_true_iff, !bool_decide_eq_true. tauto.
Qed.

End ParseAPIError.

Lemma ParseAPIError_classifies_witness :
  client.getStatusMessage 502 = "HTTP 502 Error".
Proof.
  apply (proj2 (proj2 (proj2 (proj2 (proj2 (proj2 (proj2 (proj2
           (proj1 (proj2 (ParseAPIError_classifies demo.clientEnv 502
                            "Bad Gateway"))))))))))); discriminate.
Defined.

(** C6, as the specification words it, fails at status 502, a 5xx status
    whose message is neither the server-error nor the unavailable one. *)
Lemma statusMessage_of_502_is_generic :
  ~ stated.statusMessage 502 (client.getStatusMessage 502).
Proof.
  unfold stated.statusMessage. intros (_ & _ & _ & _ & _ & _ & H5xx).
  destruct H5xx as [Hmsg | Hmsg]; [lia | |]; vm_compute in Hmsg;
    discriminate.
Qed.

(** ** The retry helper backs off, honours Retry-After and gives up *)

Section Retry.
Variable fn : nat -> http.Response + string.
Variable ctxDone : nat -> bool.

Let config := client.DefaultRetryConfig.

Lemma loop_returns (remaining attempt : nat) (lastErr : string)
  (resp : http.Response) :
  fn attempt = inl resp ->
  http.StatusCode resp < 500 ->
  http.StatusCode resp <> http.StatusTooManyRequests ->
  client.loop fn ctxDone config (S remaining) attempt lastErr
  = ([client.Call], client.Returned resp).
Proof.
  intros Hfn Hlt Hne. cbn [client.loop]. rewrite Hfn.
  destruct (Z.ltb_spec (http.StatusCode resp) 500); [|lia].
  destruct (Z.eqb_spec (http.StatusCode resp) http.StatusTooManyRequests);
    [contradiction|].
  reflexivity.
Qed.

Lemma retryAfterOf_in_range (seconds : Z) :
  -9223372036 <= seconds <= 9223372036 ->
  client.retryAfterOf config seconds
  = Z.min (seconds * time.Second) (client.MaxBackoff config).
Proof.
  intros Hrange. unfold client.retryAfterOf, wrap64.
  change time.Second with 1000000000.
  change (client.MaxBackoff config) with 30000000000.
  change (2 ^ 63) with 9223372036854775808.
  change (2 ^ 64) with 18446744073709551616.
  rewrite Z.mod_small by lia.
  destruct (Z.gtb_spec (seconds * 1000000000 + 9223372036854775808
                        - 9223372036854775808) 30000000000); lia.
Qed.

Lemma backoffOf_min (attempt : nat) :
  client.backoffOf config attempt
  = Z.min (client.InitialBackoff config * 2 ^ Z.of_nat attempt)
      (client.MaxBackoff config).
Proof.
  unfold client.backoffOf.
  destruct (Z.gtb_spec (client.InitialBackoff config * 2 ^ Z.of_nat attempt)
              (client.MaxBackoff config)); lia.
Qed.

Lemma loop_continue (remaining attempt : nat) (lastErr : string) (d : Z) :
  client.waits fn ctxDone config remaining attempt lastErr d
    (if ctxDone attempt
     then ([client.Call; client.Wait d], client.Cancelled)
     else
       let '(steps, out) :=
         client.loop fn ctxDone config remaining (S attempt) lastErr in
       (client.Call :: client.Wait d :: steps, out)).
Proof.
  unfold client.waits. destruct (ctxDone attempt); split; try discriminate.
  - reflexivity.
  - intros _. destruct (client.loop _ _ _ _ _ _). reflexivity.
Qed.

Lemma loop_retry_after (remaining attempt : nat) (lastErr : string)
  (resp : http.Response) (seconds : Z) :
  fn attempt = inl resp ->
  http.StatusCode resp = http.StatusTooManyRequests ->
  strconv.Atoi (http.RetryAfter resp) = Some seconds ->
  client.waits fn ctxDone config remaining attempt "HTTP 429"
    (client.retryAfterOf config seconds)
    (client.loop fn ctxDone config (S remaining) attempt lastErr).
Proof.
  intros Hfn Hstatus Hatoi. cbn [client.loop]. rewrite Hfn, Hstatus, Hatoi.
  change (http.StatusTooManyRequests <? 500) with true.
  change (http.StatusTooManyRequests =? http.StatusTooManyRequests)
    with true.
  cbn [andb negb].
  destruct (decide (http.RetryAfter resp ≠ "")) as [_|Hempty].
  - apply loop_continue.
  - destruct (decide (http.RetryAfter resp = "")) as [Hnil|]; [|contradiction].
    rewrite Hnil in Hatoi. discriminate.
Qed.

Lemma loop_backoff (remaining attempt : nat) (lastErr : string) :
  (exists err, fn attempt = inr err)
  \/ (exists resp,
        fn attempt = inl resp
        /\ (500 <= http.StatusCode resp
            \/ (http.StatusCode resp = http.StatusTooManyRequests
                /\ strconv.Atoi (http.RetryAfter resp) = None))) ->
  Z.of_nat attempt < client.MaxRetries config ->
  client.waits fn ctxDone config remaining attempt
    (client.lastErrOf (fn attempt)) (client.backoffOf config attempt)
    (client.loop fn ctxDone config (S remaining) attempt lastErr).
Proof.
  intros Hfail Hlt. cbn [client.loop].
  destruct (decide (Z.of_nat attempt = client.MaxRetries config)); [lia|].
  destruct Hfail as [(err & ->) | (resp & -> & [Hge | [Hstatus Hatoi]])].
  - apply loop_continue.
  - destruct (Z.ltb_spec (http.StatusCode resp) 500); [lia|].
    cbn [andb].
    destruct (Z.eqb_spec (http.StatusCode resp) http.StatusTooManyRequests)
      as [Heq|_]; [rewrite Heq in Hge; vm_compute in Hge; contradiction|].
    apply loop_continue.
  - cbn [client.lastErrOf]. rewrite Hstatus, Hatoi.
    change (http.StatusTooManyRequests <? 500) with true.
    change (http.StatusTooManyRequests =? http.StatusTooManyRequests)
      with true.
    cbn [andb negb].
    destruct (decide (http.RetryAfter resp ≠ "")); apply loop_continue.
Qed.

Lemma loop_calls (remaining attempt : nat) (lastErr : string) :
  (client.calls (fst (client.loop fn ctxDone config remaining attempt
                        lastErr)) <= remaining)%nat.
Proof.
  revert attempt lastErr.
  induction remaining as [|r IH]; intros attempt lastErr; [reflexivity|].
  assert (Hcont : forall lastErr' d,
    (client.calls
       (fst (if ctxDone attempt
             then ([client.Call; client.Wait d], client.Cancelled)
             else
               let '(steps, out) :=
                 client.loop fn ctxDone config r (S attempt) lastErr' in
               (client.Call :: client.Wait d :: steps, out))) <= S r)%nat).
  { intros lastErr' d. specialize (IH (S attempt) lastErr').
    destruct (ctxDone attempt); [cbn; lia|].
    destruct (client.loop _ _ _ _ _ _). cbn in *. lia. }
  assert (Hback : forall lastErr' d,
    (client.calls
       (fst (if decide (Z.of_nat attempt = client.MaxRetries config)
             then ([client.Call], client.giveUp config lastErr')
             else
               if ctxDone attempt
               then ([client.Call; client.Wait d], client.Cancelled)
               else
                 let '(steps, out) :=
                   client.loop fn ctxDone config r (S attempt) lastErr' in
                 (client.Call :: client.Wait d :: steps, out))) <= S r)%nat).
  { intros lastErr' d. destruct (decide _); [cbn; lia | apply Hcont]. }
  cbn [client.loop].
  destruct (fn attempt) as [resp|err]; [|apply Hback].
  destruct (_ && _); [cbn; lia|].
  destruct (http.StatusCode resp =? http.StatusTooManyRequests);
    [|apply Hback].
  destruct (decide (http.RetryAfter resp ≠ "")); [|apply Hback].
  destruct (strconv.Atoi _); [apply Hcont | apply Hback].
Qed.

Lemma loop_gives_up (remaining attempt : nat) (lastErr : string) :
  (attempt + remaining = 4)%nat ->
  (forall k, (attempt <= k < 4)%nat ->
     client.retried (fn k) /\ ctxDone k = false) ->
  snd (client.loop fn ctxDone config remaining attempt lastErr)
  = client.giveUp config
      (match remaining with
       | O => lastErr
       | S _ => client.lastErrOf (fn 3%nat)
       end)
  /\ client.calls (fst (client.loop fn ctxDone config remaining attempt
                         lastErr)) = remaining.
Proof.
  revert attempt lastErr.
  induction remaining as [|r IH]; intros attempt lastErr Hsum Hall.
  { split; reflexivity. }
  destruct (Hall attempt ltac:(lia)) as [Hret Hctx].
  assert (Hcont : forall lastErr' d,
    (r = O -> lastErr' = client.lastErrOf (fn 3%nat)) ->
    let result :=
      if ctxDone attempt
      then ([client.Call; client.Wait d], client.Cancelled)
      else
        let '(steps, out) :=
          client.loop fn ctxDone config r (S attempt) lastErr' in
        (client.Call :: client.Wait d :: steps, out) in
    snd result = client.giveUp config (client.lastErrOf (fn 3%nat))
    /\ client.calls (fst result) = S r).
  { intros lastErr' d Hlast. rewrite Hctx.
    destruct (IH (S attempt) lastErr') as [Hout Hcalls];
      [lia | intros k Hk; apply Hall; lia |].
    destruct (client.loop _ _ _ _ _ _) as [steps out]. cbn in *.
    split; [|congruence].
    rewrite Hout. destruct r; [rewrite Hlast|]; reflexivity. }
  assert (Hback : forall lastErr' d,
    lastErr' = client.lastErrOf (fn attempt) ->
    let result :=
      if decide (Z.of_nat attempt = client.MaxRetries config)
      then ([client.Call], client.giveUp config lastErr')
      else
        if ctxDone attempt
        then ([client.Call; client.Wait d], client.Cancelled)
        else
          let '(steps, out) :=
            client.loop fn ctxDone config r (S attempt) lastErr' in
          (client.Call :: client.Wait d :: steps, out) in
    snd result = client.giveUp config (client.lastErrOf (fn 3%nat))
    /\ client.calls (fst result) = S r).
  { intros lastErr' d ->.
    destruct (decide (Z.of_nat attempt = client.MaxRetries config)) as [Hmax|].
    - change (client.MaxRetries config) with 3 in Hmax.
      assert (attempt = 3%nat) as -> by lia.
      assert (r = O) as -> by lia. split; reflexivity.
    - apply Hcont. intros ->. f_equal. f_equal. lia. }
  assert (Hlast : r = O -> fn attempt = fn 3%nat).
  { intros ->. f_equal. lia. }
  cbn [client.loop]. unfold client.retried in Hret.
  destruct (fn attempt) as [resp|err] eqn:Hfn.
  - assert (Hfail :
      (http.StatusCode resp <? 500)
      && negb (http.StatusCode resp =? http.StatusTooManyRequests) = false).
    { destruct Hret as [Hge | ->]; [|reflexivity].
      destruct (Z.ltb_spec (http.StatusCode resp) 500); [lia | reflexivity]. }
    rewrite Hfail.
    destruct (http.StatusCode resp =? http.StatusTooManyRequests);
      [|apply Hback; reflexivity].
    destruct (decide (http.RetryAfter resp ≠ ""));
      [|apply Hback; reflexivity].
    destruct (strconv.Atoi _); [|apply Hback; reflexivity].
    apply Hcont. intros Hr. rewrite <- (Hlast Hr). reflexivity.
  - apply Hback. reflexivity.
Qed.

(** What the loop does where no duration overflows.  An iteration of the
    loop whose call of [fn] returns a response with a status below 500
    other than 429 returns that response at once.  On a 429 response whose
    Retry-After header is an integer number of seconds, of at most
    9223372036 in absolute value, it waits the smaller of that many seconds
    and the ceiling of 30 seconds.
    On a transport error, a response of status 500 or more, or a 429
    response whose Retry-After header is absent or not an integer, before
    the last attempt, it waits the smaller of one second doubled [attempt]
    times and the ceiling.  A wait ends with the next iteration, or, when
    the context is done first, with the error of the context and no other
    call.  The helper calls [fn] at most four times, and when all four
    calls fail it gives up with the error of the last of them. *)
Theorem RetryWithBackoff_backs_off :
  (forall remaining attempt lastErr resp,
     fn attempt = inl resp ->
     http.StatusCode resp < 500 ->
     http.StatusCode resp <> http.StatusTooManyRequests ->
     client.loop fn ctxDone config (S remaining) attempt lastErr
     = ([client.Call], client.Returned resp))
  /\ (forall remaining attempt lastErr resp seconds,
        fn attempt = inl resp ->
        http.StatusCode resp = http.StatusTooManyRequests ->
        strconv.Atoi (http.RetryAfter resp) = Some seconds ->
        -9223372036 <= seconds <= 9223372036 ->
        client.waits fn ctxDone config remaining attempt "HTTP 429"
          (Z.min (seconds * time.Second) (30 * time.Second))
          (client.loop fn ctxDone config (S remaining) attempt lastErr))
  /\ (forall remaining attempt lastErr,
        (exists err, fn attempt = inr err)
        \/ (exists resp,
              fn attempt = inl resp
              /\ (500 <= http.StatusCode resp
                  \/ (http.StatusCode resp = http.StatusTooManyRequests
                      /\ strconv.Atoi (http.RetryAfter resp) = None))) ->
        Z.of_nat attempt < 3 ->
        client.waits fn ctxDone config remaining attempt
          (client.lastErrOf (fn attempt))
          (Z.min (1 * time.Second * 2 ^ Z.of_nat attempt) (30 * time.Second))
          (client.loop fn ctxDone config (S remaining) attempt lastErr))
  /\ (client.calls (fst (client.RetryWithBackoff fn ctxDone)) <= 4)%nat
  /\ ((forall k, (k < 4)%nat -> client.retried (fn k) /\ ctxDone k = false) ->
      snd (client.RetryWithBackoff fn ctxDone)
      = client.GaveUp ("request failed after 3 retries: "
                       +:+ client.lastErrOf (fn 3%nat))
      /\ client.calls (fst (client.RetryWithBackoff fn ctxDone)) = 4%nat).
Proof.
  split; [|split; [|split; [|split]]].
  - intros. apply loop_returns; assumption.
  - intros remaining attempt lastErr resp seconds Hfn Hstatus Hatoi Hrange.
    change (30 * time.Second) with (client.MaxBackoff config).
    rewrite <- (retryAfterOf_in_range seconds Hrange).
    apply (loop_retry_after remaining attempt lastErr resp); assumption.
  - intros remaining attempt lastErr Hfail Hlt.
    change (Z.min (1 * time.Second * 2 ^ Z.of_nat attempt) (30 * time.Second))
      with (Z.min (client.InitialBackoff config * 2 ^ Z.of_nat attempt)
              (client.MaxBackoff config)).
    rewrite <- backoffOf_min. apply loop_backoff; assumption.
  - apply (loop_calls 4 0 "").
  - intros Hall.
    destruct (loop_gives_up 4 0 "" eq_refl) as [Hout Hcalls].
    + intros k Hk. apply Hall. lia.
    + split; [exact Hout | exact Hcalls].
Qed.

End Retry.

Lemma RetryWithBackoff_backs_off_witness :
  client.waits demo.rateLimited demo.patient client.DefaultRetryConfig 3 0
    "HTTP 429" 2000000000
    (client.RetryWithBackoff demo.rateLimited demo.patient).
Proof.
  apply (proj1 (proj2 (RetryWithBackoff_backs_off demo.rateLimited
                         demo.patient))
           3%nat 0%nat "" (demo.tooMany "2") 2).
  - reflexivity.
  - reflexivity.
  - reflexivity.
  - lia.
Defined.

(** C7.  The cap on Retry-After is defeated by an overflow.  For a 429
    response with [Retry-After: 9223372037] the product of the seconds and
    [time.Second] is more than an [int64] holds and wraps to a negative
    duration before the helper compares it with the ceiling: each of the
    four calls is followed by a wait of that negative duration, which ends
    at once, where the specification has a wait of the ceiling, 30 seconds.
    With one second less the product fits and the helper waits the
    ceiling. *)
Theorem RetryAfter_overflow_defeats_the_cap :
  client.RetryWithBackoff demo.overflowing demo.patient
  = ([client.Call; client.Wait (-9223372036709551616);
      client.Call; client.Wait (-9223372036709551616);
      client.Call; client.Wait (-9223372036709551616);
      client.Call; client.Wait (-9223372036709551616)],
     client.GaveUp "request failed after 3 retries: HTTP 429")
  /\ stated.retryAfterWait client.DefaultRetryConfig 9223372037
     = 30 * time.Second
  /\ ~ stated.honorsRetryAfter demo.overflowing demo.patient
  /\ client.retryAfterOf client.DefaultRetryConfig 9223372036
     = 30 * time.Second.
Proof.
  split; [vm_compute; reflexivity|].
  split; [vm_compute; reflexivity|].
  split; [|vm_compute; reflexivity].
  intros Hhonours.
  destruct (Hhonours (demo.tooMany "9223372037") 9223372037
              eq_refl eq_refl eq_refl) as [rest Hsteps].
  vm_compute in Hsteps. discriminate.
Qed.

(** ** The list commands ask for at most 100 results per page *)

Section PerPage.
Variable env : commands.Env.

Lemma Get_sent (c : cache.Cache) (key : string) (w : World) :
  sent (snd (cache.Get (client.cacheEnv (commands.clientEnv env)) c key w))
  = sent w.
Proof.
  unfold cache.Get. rewrite bind_eq. unfold os.ReadFile. cbn [fst snd].
  destruct (files w !! _) as [data|]; [|reflexivity].
  destruct (cache.Unmarshal _ data) as [entry|]; [|reflexivity].
  rewrite bind_eq. unfold cache.time_Now. cbn [fst snd].
  destruct (time.After _ _); reflexivity.
Qed.

(** A cached read sends nothing, or one GET request for its path. *)
Lemma cachedRead_requested {A : Type} (decode : string -> option A)
  (c : client.Client) (cacheKey path : string)
  (statusErr : Z -> string -> client.error) (w : World) :
  commands.requested c path w
    (snd (client.cachedRead (commands.clientEnv env) decode c cacheKey path
            statusErr w)).
Proof.
  unfold commands.requested, client.cachedRead. rewrite bind_eq.
  set (lookup := match client.cacheInUse c with
                 | Some ch => _
                 | None => _
                 end).
  assert (Hlook : sent (snd (lookup w)) = sent w).
  { unfold lookup. destruct (client.cacheInUse c) as [ch|]; [|reflexivity].
    rewrite bind_eq. apply Get_sent. }
  destruct (lookup w) as [[doc|] w1]; cbn [fst snd] in *.
  { left. exact Hlook. }
  rewrite bind_eq. unfold client.makeRequest.
  destruct (client.NewRequestErr _ _); [left; exact Hlook|].
  rewrite bind_eq. unfold client.httpClient_Do. cbn [fst snd].
  right. rewrite <- Hlook.
  destruct (client.RoundTrip _ _ _) as [resp|err]; [|reflexivity].
  unfold ret at 1. cbn [fst snd].
  destruct (decide (http.StatusCode resp ≠ http.StatusOK)); [reflexivity|].
  destruct (http.ReadErr resp); [reflexivity|].
  destruct (decode _); [|reflexivity].
  rewrite bind_eq. destruct (client.cacheInUse c); reflexivity.
Qed.

(** [ListTickets] is the shared body at its key, path and status error. *)
Lemma ListTickets_cachedRead (c : client.Client) (page perPage : Z)
  (status : string) :
  client.ListTickets (commands.clientEnv env) c page perPage status
  = client.cachedRead (commands.clientEnv env)
      (client.Unmarshal (commands.clientEnv env) client.TicketsResponse) c
      (client.ticketsListKey c page perPage status)
      (if decide (status ≠ "")
       then ("/tickets.json?page=" +:+ itoa page +:+ "&per_page="
             +:+ itoa perPage) +:+ "&status=" +:+ url.QueryEscape status
       else "/tickets.json?page=" +:+ itoa page +:+ "&per_page="
            +:+ itoa perPage)
      (client.failedTo "list tickets").
Proof. reflexivity. Qed.

Lemma then_ret_world {A B} (m : M A) (f : A -> B) (w : World) :
  snd ((r <- m ;; ret (f r)) w) = snd (m w).
Proof. rewrite bind_eq. reflexivity. Qed.

(** A cached read that finds no entry to serve, and can build its
    request, sends the GET request for its path. *)
Lemma cachedRead_fetched {A : Type} (decode : string -> option A)
  (c : client.Client) (cacheKey path : string)
  (statusErr : Z -> string -> client.error) (w : World) :
  commands.fetched env c cacheKey path w
    (snd (client.cachedRead (commands.clientEnv env) decode c cacheKey path
            statusErr w)).
Proof.
  split; [apply cachedRead_requested|].
  intros Hmiss Hbuild. unfold client.cachedRead. rewrite bind_eq.
  set (lookup := match client.cacheInUse c with
                 | Some ch => _
                 | None => _
                 end).
  assert (Hlook : fst (lookup w) = None /\ sent (snd (lookup w)) = sent w).
  { unfold lookup. destruct (client.cacheInUse c) as [ch|] eqn:Hch;
      [|split; reflexivity].
    rewrite bind_eq. unfold ret. cbn [fst snd].
    rewrite (Hmiss ch eq_refl). split; [reflexivity|apply Get_sent]. }
  destruct (lookup w) as [hit w1]. cbn [fst snd] in Hlook.
  destruct Hlook as [-> Hlook]. cbn [fst snd].
  rewrite bind_eq. unfold client.makeRequest. rewrite Hbuild.
  rewrite bind_eq. unfold client.httpClient_Do. cbn [fst snd].
  rewrite <- Hlook.
  destruct (client.RoundTrip _ _ _) as [resp|err]; [|reflexivity].
  unfold ret at 1. cbn [fst snd].
  destruct (decide (http.StatusCode resp ≠ http.StatusOK)); [reflexivity|].
  destruct (http.ReadErr resp); [reflexivity|].
  destruct (decode _); [|reflexivity].
  rewrite bind_eq. destruct (client.cacheInUse c); reflexivity.
Qed.

(** C8, as the code has it.  Given a per-page value above 100, each of the
    eight paged list commands behaves as it does given 100: it runs the
    read of the client with 100, so that the cache key is the one of 100
    results per page, what it sends to the server, if anything, is one GET
    request whose query carries [per_page=100], and it does send that
    request when the cache in use, if there is one, has no entry to serve
    under that key and the request can be built.  The commands clamp the
    value; the reads of the client pass it on as they get it. *)
Theorem per_page_is_clamped (page perPage : Z) (refresh : bool)
  (zdClient : client.Client) (w : World) :
  perPage > 100 ->
  commands.getClientFromFlags env refresh = inl zdClient ->
  (forall status,
     commands.runTicketList env page perPage status refresh
     = commands.runTicketList env page 100 status refresh
     /\ commands.fetched env zdClient
          (client.ticketsListKey zdClient page 100 status)
          (if decide (status ≠ "")
           then ("/tickets.json?page=" +:+ itoa page +:+ "&per_page=100")
                +:+ "&status=" +:+ url.QueryEscape status
           else "/tickets.json?page=" +:+ itoa page +:+ "&per_page=100")
          w (snd (commands.runTicketList env page perPage status refresh w)))
  /\ (commands.runUserList env page perPage refresh
      = commands.runUserList env page 100 refresh
      /\ commands.fetched env zdClient
           (client.subdomain zdClient +:+ ":users:list:" +:+ itoa page
            +:+ ":100")
           ("/users.json?page=" +:+ itoa page +:+ "&per_page=100")
           w (snd (commands.runUserList env page perPage refresh w)))
  /\ (commands.runOrgList env page perPage refresh
      = commands.runOrgList env page 100 refresh
      /\ commands.fetched env zdClient
           (client.subdomain zdClient +:+ ":organizations:list:"
            +:+ itoa page +:+ ":100")
           ("/organizations.json?page=" +:+ itoa page +:+ "&per_page=100")
           w (snd (commands.runOrgList env page perPage refresh w)))
  /\ (commands.runGroupList env page perPage refresh
      = commands.runGroupList env page 100 refresh
      /\ commands.fetched env zdClient
           (client.subdomain zdClient +:+ ":groups:list:" +:+ itoa page
            +:+ ":100")
           ("/groups.json?page=" +:+ itoa page +:+ "&per_page=100")
           w (snd (commands.runGroupList env page perPage refresh w)))
  /\ (forall arg id,
        strconv.Atoi arg = Some id ->
        (commands.runOrgUsers env arg page perPage refresh
         = commands.runOrgUsers env arg page 100 refresh
         /\ commands.fetched env zdClient
              (client.subdomain zdClient +:+ ":organizations:" +:+ itoa id
               +:+ ":users:" +:+ itoa page +:+ ":100")
              ("/organizations/" +:+ itoa id +:+ "/users.json?page="
               +:+ itoa page +:+ "&per_page=100")
              w (snd (commands.runOrgUsers env arg page perPage refresh w)))
        /\ (commands.runOrgTickets env arg page perPage refresh
            = commands.runOrgTickets env arg page 100 refresh
            /\ commands.fetched env zdClient
                 (client.subdomain zdClient +:+ ":organizations:"
                  +:+ itoa id +:+ ":tickets:" +:+ itoa page +:+ ":100")
                 ("/organizations/" +:+ itoa id +:+ "/tickets.json?page="
                  +:+ itoa page +:+ "&per_page=100")
                 w (snd (commands.runOrgTickets env arg page perPage refresh
                           w)))
        /\ (commands.runGroupUsers env arg page perPage refresh
            = commands.runGroupUsers env arg page 100 refresh
            /\ commands.fetched env zdClient
                 (client.subdomain zdClient +:+ ":groups:" +:+ itoa id
                  +:+ ":users:" +:+ itoa page +:+ ":100")
                 ("/groups/" +:+ itoa id +:+ "/users.json?page="
                  +:+ itoa page +:+ "&per_page=100")
                 w (snd (commands.runGroupUsers env arg page perPage refresh
                           w)))
        /\ (commands.runGroupMemberships env arg page perPage refresh
            = commands.runGroupMemberships env arg page 100 refresh
            /\ commands.fetched env zdClient
                 (client.subdomain zdClient +:+ ":groups:" +:+ itoa id
                  +:+ ":memberships:" +:+ itoa page +:+ ":100")
                 ("/groups/" +:+ itoa id +:+ "/memberships.json?page="
                  +:+ itoa page +:+ "&per_page=100")
                 w (snd (commands.runGroupMemberships env arg page perPage
                           refresh w)))).
Proof.
  intros Hbig Hclient.
  assert (Hclamp : (perPage >? 100) = true) by (apply Z.gtb_lt; lia).
  unfold commands.runTicketList, commands.runUserList, commands.runOrgList,
    commands.runGroupList, commands.runOrgUsers, commands.runOrgTickets,
    commands.runGroupUsers, commands.runGroupMemberships, commands.withID.
  rewrite Hclient, Hclamp. change (100 >? 100) with false. cbv iota.
  split; [|split; [|split; [|split]]].
  - intros status. split; [reflexivity|].
    rewrite then_ret_world, ListTickets_cachedRead.
    apply cachedRead_fetched.
  - split; [reflexivity|]. rewrite then_ret_world.
    apply (cachedRead_fetched _ zdClient).
  - split; [reflexivity|]. rewrite then_ret_world.
    apply (cachedRead_fetched _ zdClient).
  - split; [reflexivity|]. rewrite then_ret_world.
    apply (cachedRead_fetched _ zdClient).
  - intros arg id Hatoi. rewrite Hatoi.
    repeat split; try reflexivity; rewrite then_ret_world;
      apply (cachedRead_fetched _ zdClient).
Qed.

End PerPage.

Lemma per_page_is_clamped_witness :
  sent (snd (commands.runTicketList demo.env 1 500 "" false demo.emptyWorld))
  = [http.mkRequest http.MethodGet
       "https://acme.zendesk.com/api/v2/tickets.json?page=1&per_page=100"
       "Basic YUBiLmNvbS90b2tlbjp0b2sxMjM=" None].
Proof.
  assert (Hclient :
    commands.getClientFromFlags demo.env false = inl demo.zdClient)
    by (vm_compute; reflexivity).
  apply (proj2 (proj2 (proj1 (per_page_is_clamped demo.env 1 500 false
                                demo.zdClient demo.emptyWorld eq_refl
                                Hclient)
                         ""))).
  - intros ch [= <-]. vm_compute. reflexivity.
  - reflexivity.
Defined.

(** C8, as the specification words it, fails for the list operation of the
    client: [ListTickets] builds its path from the per-page value it is
    given, and a caller that passes 500 has [per_page=500] requested. *)
Lemma ListTickets_passes_per_page_on :
  ~ stated.clampsPerPage demo.clientEnv demo.zdClient 1 500 ""
      demo.emptyWorld.
Proof.
  intros Hclamps.
  specialize (Hclamps eq_refl
    (http.mkRequest http.MethodGet
       "https://acme.zendesk.com/api/v2/tickets.json?page=1&per_page=500"
       "Basic YUBiLmNvbS90b2tlbjp0b2sxMjM=" None)).
  vm_compute in Hclamps. specialize (Hclamps eq_refl). discriminate.
Qed.

(** ** An id of zero is left out of a created ticket, not of an update *)

Section OptionalIDs.
Variable env : commands.Env.

Lemma makeTicketRequest_sent (c : client.Client) (method path : string)
  (body : json) (w : World) :
  sent (snd (client.makeTicketRequest (commands.clientEnv env) c method path
               body w)) = sent w
  \/ sent (snd (client.makeTicketRequest (commands.clientEnv env) c method
                  path body w))
     = sent w ++ [http.mkRequest method (client.GetBaseURL c +:+ path)
                    (client.authHeader c) (Some body)].
Proof.
  unfold client.makeTicketRequest.
  destruct (client.NewRequestErr _ _); [left; reflexivity|].
  right. rewrite bind_eq. unfold client.httpClient_Do. cbn [fst snd].
  destruct (client.RoundTrip _ _ _) as [resp|err]; [|reflexivity].
  destruct (_ || _); [reflexivity|].
  destruct (client.Unmarshal _ _ _); reflexivity.
Qed.

Lemma createBody_without_assignee (req : client.CreateTicketRequest)
  (r : http.Request) :
  client.createAssigneeID req = None ->
  http.ReqBody r = Some (client.createBody req) ->
  stated.ticketField "assignee_id" r = None.
Proof.
  intros Hnone Hbody. unfold stated.ticketField. rewrite Hbody.
  unfold client.createBody. rewrite Hnone.
  destruct (client.createGroupID req), (client.nonEmpty _), (client.nonEmpty _),
    (client.nonEmptyTags _), (client.nonEmpty _); reflexivity.
Qed.

Lemma createBody_without_group (req : client.CreateTicketRequest)
  (r : http.Request) :
  client.createGroupID req = None ->
  http.ReqBody r = Some (client.createBody req) ->
  stated.ticketField "group_id" r = None.
Proof.
  intros Hnone Hbody. unfold stated.ticketField. rewrite Hbody.
  unfold client.createBody. rewrite Hnone.
  destruct (client.createAssigneeID req), (client.nonEmpty _),
    (client.nonEmpty _), (client.nonEmptyTags _), (client.nonEmpty _);
    reflexivity.
Qed.

(** The create path of C9.  Whatever [zd ticket create] sends beyond what
    was sent before, its ticket has no member [assignee_id] when the
    assignee flag is zero and no member [group_id] when the group flag is
    zero. *)
Lemma runTicketCreate_omits_zero (flags : commands.CreateFlags) (w : World)
  (r : http.Request) :
  sent (snd (commands.runTicketCreate env flags w)) = sent w ++ [r] ->
  (commands.assignee flags = 0 -> stated.ticketField "assignee_id" r = None)
  /\ (commands.group flags = 0 -> stated.ticketField "group_id" r = None).
Proof.
  unfold commands.runTicketCreate.
  destruct (commands.getClientFromFlags env false) as [zdClient|err];
    [|intros Hsent; apply (f_equal (@length _)) in Hsent;
      rewrite length_app in Hsent; cbn in Hsent; lia].
  destruct (if decide (commands.subject flags = "") then _ else _)
    as [subject|err];
    [|intros Hsent; apply (f_equal (@length _)) in Hsent;
      rewrite length_app in Hsent; cbn in Hsent; lia].
  destruct (if decide (commands.description flags = "") then _ else _)
    as [description|err];
    [|intros Hsent; apply (f_equal (@length _)) in Hsent;
      rewrite length_app in Hsent; cbn in Hsent; lia].
  rewrite then_ret_world. unfold client.CreateTicket.
  match goal with
  | |- context [client.makeTicketRequest _ _ _ _ (client.createBody ?q)] =>
      set (req := q)
  end.
  destruct (makeTicketRequest_sent zdClient http.MethodPost "/tickets.json"
              (client.createBody req) w) as [-> | ->]; intros Hsent.
  - apply (f_equal (@length _)) in Hsent.
    rewrite length_app in Hsent. cbn in Hsent. lia.
  - apply app_inv_head in Hsent. injection Hsent as <-.
    split; intros Hzero.
    + apply (createBody_without_assignee req); [|reflexivity].
      unfold req. cbn. rewrite Hzero. reflexivity.
    + apply (createBody_without_group req); [|reflexivity].
      unfold req. cbn. rewrite Hzero. reflexivity.
Qed.

Lemma updateBody_with_assignee (req : client.UpdateTicketRequest)
  (r : http.Request) (id : Z) :
  client.AssigneeID req = Some id ->
  http.ReqBody r = Some (client.updateBody req) ->
  stated.ticketField "assignee_id" r = Some (JNum id).
Proof.
  intros Hsome Hbody. unfold stated.ticketField. rewrite Hbody.
  unfold client.updateBody. rewrite Hsome.
  destruct (client.Subject req), (client.Priority req), (client.Status req);
    reflexivity.
Qed.

(** The update path, in every environment.  Whatever [zd ticket update]
    sends beyond what was sent before, its ticket has the member
    [assignee_id] with the value of the assignee flag whenever the flag is
    given, be it zero. *)
Lemma runTicketUpdate_sends_flag (arg : string)
  (flags : commands.UpdateFlags) (w : World) (r : http.Request) (id : Z) :
  sent (snd (commands.runTicketUpdate env arg flags w)) = sent w ++ [r] ->
  commands.newAssignee flags = Some id ->
  stated.ticketField "assignee_id" r = Some (JNum id).
Proof.
  assert (Hnothing : forall l : list http.Request, l = l ++ [r] -> False).
  { intros l Hsent. apply (f_equal (@length _)) in Hsent.
    rewrite length_app in Hsent. cbn in Hsent. lia. }
  unfold commands.runTicketUpdate, commands.withID.
  destruct (commands.getClientFromFlags env false) as [zdClient|err];
    [|intros Hsent; destruct (Hnothing _ Hsent)].
  destruct (strconv.Atoi arg) as [ticketID|];
    [|intros Hsent; destruct (Hnothing _ Hsent)].
  destruct (negb _); [intros Hsent; destruct (Hnothing _ Hsent)|].
  rewrite then_ret_world. unfold client.UpdateTicket. rewrite bind_eq.
  match goal with
  | |- context [client.makeTicketRequest _ _ _ ?p (client.updateBody ?q)] =>
      set (req := q); set (path := p)
  end.
  assert (Hsame :
    sent (snd (let r0 :=
                 client.makeTicketRequest (commands.clientEnv env) zdClient
                   http.MethodPut path (client.updateBody req) w in
               match fst r0 with
               | inr err => ret (inr err)
               | inl ticket =>
                   match client.cache zdClient with
                   | Some ch =>
                       cache.Delete
                         (client.cacheEnv (commands.clientEnv env)) ch
                         (client.ticketKey zdClient ticketID)
                   | None => ret tt
                   end ;;; ret (inl ticket)
               end (snd r0)))
    = sent (snd (client.makeTicketRequest (commands.clientEnv env) zdClient
                   http.MethodPut path (client.updateBody req) w))).
  { cbv zeta. destruct (client.makeTicketRequest _ _ _ _ _ w) as [[t|err] w1];
      cbn [fst snd]; [|reflexivity].
    rewrite bind_eq. destruct (client.cache zdClient); reflexivity. }
  cbv zeta in Hsame. rewrite Hsame.
  destruct (makeTicketRequest_sent zdClient http.MethodPut path
              (client.updateBody req) w) as [-> | ->]; intros Hsent Hflag.
  - destruct (Hnothing _ Hsent).
  - apply app_inv_head in Hsent. injection Hsent as <-.
    apply (updateBody_with_assignee req); [exact Hflag | reflexivity].
Qed.

End OptionalIDs.

(** C9 on the update path, at a caller-supplied zero.  [zd ticket update 500
    --assignee 0] and [zd ticket assign 500 0] each send a ticket whose
    member [assignee_id] is the number 0, where [zd ticket create --assignee
    0] sends a ticket without that member. *)
Theorem runTicketUpdate_sends_zero :
  sent (snd (commands.runTicketUpdate demo.env "500" demo.unassign
               demo.emptyWorld))
  = [http.mkRequest "PUT" "https://acme.zendesk.com/api/v2/tickets/500.json"
       "Basic YUBiLmNvbS90b2tlbjp0b2sxMjM="
       (Some (JObj [("ticket", JObj [("assignee_id", JNum 0)])]))]
  /\ sent (snd (commands.runTicketAssign demo.env "500" "0" demo.emptyWorld))
     = [http.mkRequest "PUT"
          "https://acme.zendesk.com/api/v2/tickets/500.json"
          "Basic YUBiLmNvbS90b2tlbjp0b2sxMjM="
          (Some (JObj [("ticket", JObj [("assignee_id", JNum 0)])]))]
  /\ exists r,
       sent (snd (commands.runTicketCreate demo.env demo.createUnassigned
                    demo.emptyWorld)) = [r]
       /\ stated.ticketField "assignee_id" r = None.
Proof.
  split; [vm_compute; reflexivity|].
  split; [vm_compute; reflexivity|].
  eexists. split; [vm_compute; reflexivity|]. reflexivity.
Qed.

(** ** The configuration's instances (config.go) *)

Section ConfigMethods.

Import config.

Lemma consistent_NewConfig : consistent NewConfig.
Proof.
  split; [|split].
  - intros name instance H. cbn in H. rewrite lookup_empty in H. discriminate.
  - reflexivity.
  - intros H. destruct H. reflexivity.
Qed.

Lemma yieldsKey_rangeFirst : yieldsKey demo.rangeFirst.
Proof.
  intros m Hm. unfold demo.rangeFirst.
  destruct (map_to_list m) as [|[name instance] l] eqn:E.
  - apply map_to_list_empty_iff in E. contradiction.
  - exists instance. apply elem_of_map_to_list. rewrite E. left.
Qed.

Lemma consistent_twoInstances : consistent demo.twoInstances.
Proof.
  split; [|split].
  - intros name i H. cbn in H.
    destruct (decide (name = "staging")) as [->|Hs].
    + rewrite lookup_insert_eq in H. injection H as <-. split; [reflexivity|discriminate].
    + rewrite lookup_insert_ne in H by congruence.
      destruct (decide (name = "work")) as [->|Hw].
      * rewrite lookup_singleton_eq in H. injection H as <-.
        split; [reflexivity|discriminate].
      * rewrite lookup_singleton_ne in H by congruence. discriminate.
  - discriminate.
  - intros _. exists demo.instance. reflexivity.
Qed.

Lemma AddInstanceWithSwitch_consistent (c : Config) (instance : Instance)
  (makeCurrent : bool) :
  consistent c ->
  consistent (snd (AddInstanceWithSwitch c instance makeCurrent)).
Proof.
  intros (Hnames & Hnone & Hcur). unfold AddInstanceWithSwitch.
  destruct (decide (Name instance = "")) as [|Hname];
    [split; [|split]; assumption|].
  destruct (decide (is_Some (Instances c !! Name instance))) as [|Hnew];
    [split; [|split]; assumption|].
  assert (Hins : forall name i,
    <[Name instance := instance]> (Instances c) !! name = Some i ->
    Name i = name /\ name <> "").
  { intros name i H. destruct (decide (Name instance = name)) as [<-|Hne].
    - rewrite lookup_insert_eq in H. injection H as <-. split; congruence.
    - rewrite lookup_insert_ne in H by assumption. apply (Hnames _ _ H). }
  destruct (bool_decide (Current c = "") || makeCurrent) eqn:E; cbn [snd].
  - split; [exact Hins|split]; cbn.
    + intros H. congruence.
    + intros _. rewrite lookup_insert_eq. eexists; reflexivity.
  - apply orb_false_elim in E as [E _]. apply bool_decide_eq_false in E.
    split; [exact Hins|split]; cbn.
    + intros H. contradiction.
    + intros _. destruct (Hcur E) as [i Hi].
      destruct (decide (Name instance = Current c)) as [Heq|Hne].
      * rewrite Heq, lookup_insert_eq. eexists; reflexivity.
      * rewrite lookup_insert_ne by assumption. exists i. exact Hi.
Qed.

Lemma RemoveInstance_consistent
  (rangeFirst : gmap string Instance -> string) (c : Config) (name : string) :
  yieldsKey rangeFirst -> consistent c ->
  consistent (snd (RemoveInstance rangeFirst c name)).
Proof.
  intros Hrange (Hnames & Hnone & Hcur). unfold RemoveInstance.
  destruct (Instances c !! name) as [removed|] eqn:E;
    [|split; [|split]; assumption].
  assert (Hdel : forall n i,
    delete name (Instances c) !! n = Some i -> Name i = n /\ n <> "").
  { intros n i H. apply lookup_delete_Some in H as [_ H].
    apply (Hnames _ _ H). }
  destruct (decide (Current c = name)) as [Heq|Hne].
  - destruct (decide (0 < size (delete name (Instances c)))%nat) as [Hsz|Hsz];
      cbn [snd].
    + assert (Hm : delete name (Instances c) <> ∅).
      { apply map_size_non_empty_iff. lia. }
      destruct (Hrange _ Hm) as [i Hi].
      split; [exact Hdel|split]; cbn.
      * intros H. rewrite H in Hi. destruct (Hdel _ _ Hi) as [_ ?].
        contradiction.
      * intros _. exists i. exact Hi.
    + split; [exact Hdel|split]; cbn.
      * intros _. apply map_size_empty_iff. lia.
      * intros H. destruct H. reflexivity.
  - cbn [snd]. split; [exact Hdel|split]; cbn.
    + intros H. rewrite (Hnone H), lookup_empty in E. discriminate.
    + intros H. destruct (Hcur H) as [i Hi]. exists i.
      rewrite lookup_delete_ne by congruence. exact Hi.
Qed.

Lemma SwitchInstance_consistent (c : Config) (name : string) :
  consistent c -> consistent (snd (SwitchInstance c name)).
Proof.
  intros (Hnames & Hnone & Hcur). unfold SwitchInstance.
  destruct (Instances c !! name) as [i|] eqn:E;
    [|split; [|split]; assumption].
  cbn [snd]. split; [exact Hnames|split]; cbn.
  - intros ->. destruct (Hnames _ _ E) as [_ H]. destruct H. reflexivity.
  - intros _. exists i. exact E.
Qed.

Lemma GetCurrentInstance_consistent (c : Config) :
  consistent c ->
  match GetCurrentInstance c with
  | inl instance =>
      Instances c !! Current c = Some instance
      /\ Name instance = Current c /\ Instances c <> ∅
  | inr err => err = ErrNoCurrentInstance /\ Instances c = ∅
  end.
Proof.
  intros (Hnames & Hnone & Hcur). unfold GetCurrentInstance.
  destruct (decide (Current c = "")) as [Hempty|Hset].
  - split; [reflexivity|exact (Hnone Hempty)].
  - destruct (Hcur Hset) as [i Hi]. rewrite Hi.
    split; [reflexivity|split].
    + apply (Hnames _ _ Hi).
    + intros H. rewrite H, lookup_empty in Hi. discriminate.
Qed.

(** Each method that changes the configuration keeps it consistent: every
    instance stays filed under its own non-empty name, and the current name
    is that of an instance whenever there is one, empty only when there is
    none.  This holds whether the method succeeds or fails, and for the
    removal whichever key the range over the remaining instances yields. *)
Theorem config_methods_keep_consistent
  (rangeFirst : gmap string Instance -> string) (c : Config) :
  yieldsKey rangeFirst -> consistent c ->
  (forall instance makeCurrent,
     consistent (snd (AddInstanceWithSwitch c instance makeCurrent)))
  /\ (forall name, consistent (snd (RemoveInstance rangeFirst c name)))
  /\ (forall name, consistent (snd (SwitchInstance c name))).
Proof.
  intros Hrange Hc. split; [|split].
  - intros instance makeCurrent.
    exact (AddInstanceWithSwitch_consistent c instance makeCurrent Hc).
  - intros name. exact (RemoveInstance_consistent rangeFirst c name Hrange Hc).
  - intros name. exact (SwitchInstance_consistent c name Hc).
Qed.

Lemma config_methods_keep_consistent_witness :
  (forall instance makeCurrent,
     consistent
       (snd (AddInstanceWithSwitch demo.twoInstances instance makeCurrent)))
  /\ (forall name,
        consistent (snd (RemoveInstance demo.rangeFirst demo.twoInstances name)))
  /\ (forall name, consistent (snd (SwitchInstance demo.twoInstances name))).
Proof.
  apply (config_methods_keep_consistent demo.rangeFirst demo.twoInstances).
  - exact yieldsKey_rangeFirst.
  - exact consistent_twoInstances.
Defined.

(** On a consistent configuration [GetCurrentInstance] fails only when there
    is no instance at all, with [ErrNoCurrentInstance]; otherwise it returns
    the instance that is filed under the current name, and
    [ErrInstanceNotFound] does not occur. *)
Theorem GetCurrentInstance_of_consistent (c : Config) :
  consistent c ->
  match GetCurrentInstance c with
  | inl instance =>
      Instances c !! Current c = Some instance
      /\ Name instance = Current c /\ Instances c <> ∅
  | inr err => err = ErrNoCurrentInstance /\ Instances c = ∅
  end.
Proof. exact (GetCurrentInstance_consistent c). Qed.

Lemma GetCurrentInstance_of_consistent_witness :
  match GetCurrentInstance demo.twoInstances with
  | inl instance =>
      Instances demo.twoInstances !! Current demo.twoInstances = Some instance
      /\ Name instance = Current demo.twoInstances
      /\ Instances demo.twoInstances <> ∅
  | inr err => err = ErrNoCurrentInstance /\ Instances demo.twoInstances = ∅
  end.
Proof.
  apply (GetCurrentInstance_of_consistent demo.twoInstances).
  exact consistent_twoInstances.
Defined.

(** Adding an instance without switching and then removing it gives back the
    configuration as it was, current instance included: the added instance
    becomes current only when there was none, and removing the last instance
    clears the current name again. *)
Theorem AddInstance_then_RemoveInstance
  (rangeFirst : gmap string Instance -> string) (c c' : Config)
  (instance : Instance) :
  consistent c ->
  AddInstance c instance = (None, c') ->
  RemoveInstance rangeFirst c' (Name instance) = (None, c).
Proof.
  intros (Hnames & Hnone & Hcur). unfold AddInstance, AddInstanceWithSwitch.
  destruct (decide (Name instance = "")) as [|Hname]; [discriminate|].
  destruct (decide (is_Some (Instances c !! Name instance))) as [|Hnew];
    [discriminate|].
  assert (Habsent : Instances c !! Name instance = None).
  { destruct (Instances c !! Name instance) eqn:E; [|reflexivity].
    destruct Hnew. eexists; reflexivity. }
  rewrite orb_false_r. destruct c as [current instances]; cbn in *.
  unfold RemoveInstance.
  destruct (bool_decide (current = "")) eqn:E; intros [= <-]; cbn;
    rewrite lookup_insert_eq, (delete_insert_id _ _ _ Habsent).
  - apply bool_decide_eq_true in E. subst current.
    rewrite (Hnone eq_refl), map_size_empty.
    destruct (decide (Name instance = Name instance)); [|congruence].
    destruct (decide (0 < 0)%nat); [lia|reflexivity].
  - apply bool_decide_eq_false in E. destruct (Hcur E) as [i Hi].
    destruct (decide (current = Name instance)) as [->|]; [|reflexivity].
    congruence.
Qed.

Lemma AddInstance_then_RemoveInstance_witness :
  RemoveInstance demo.rangeFirst demo.twoInstances (Name demo.staging)
  = (None, demo.oneInstance).
Proof.
  apply (AddInstance_then_RemoveInstance demo.rangeFirst demo.oneInstance
           demo.twoInstances demo.staging).
  - split; [|split].
    + intros name i H. cbn in H.
      destruct (decide (name = "work")) as [->|Hw].
      * rewrite lookup_singleton_eq in H. injection H as <-.
        split; [reflexivity|discriminate].
      * rewrite lookup_singleton_ne in H by congruence. discriminate.
    + discriminate.
    + intros _. exists demo.instance. reflexivity.
  - reflexivity.
Defined.

(** [AddInstanceWithSwitch] refuses an instance whose name is empty or
    already taken and then changes nothing.  Otherwise it files the instance
    under its name and leaves every other instance as it was, and the name
    of the instance becomes the current name when that was asked for or
    when the current name was empty, whether or not there were instances;
    else the current name stays.  [GetCurrentInstance] then returns the new
    instance in these two cases, and also when the current name was already
    the name of the new instance, under which nothing was filed; in every
    other case it answers as before.  This holds of every configuration,
    the consistent ones and the others. *)
Theorem AddInstanceWithSwitch_current (c : Config) (instance : Instance)
  (makeCurrent : bool) :
  match AddInstanceWithSwitch c instance makeCurrent with
  | (Some err, c') =>
      c' = c
      /\ (err = ErrInvalidInstanceName /\ Name instance = ""
          \/ err = ErrInstanceExists /\ Name instance <> ""
             /\ is_Some (Instances c !! Name instance))
  | (None, c') =>
      Name instance <> "" /\ Instances c !! Name instance = None
      /\ Instances c' !! Name instance = Some instance
      /\ (forall name, name <> Name instance ->
            Instances c' !! name = Instances c !! name)
      /\ Current c'
         = (if makeCurrent || bool_decide (Current c = "")
            then Name instance else Current c)
      /\ GetCurrentInstance c'
         = (if makeCurrent || bool_decide (Current c = "")
               || bool_decide (Current c = Name instance)
            then inl instance else GetCurrentInstance c)
  end.
Proof.
  unfold AddInstanceWithSwitch.
  destruct (decide (Name instance = "")) as [Hname|Hname];
    [split; [reflexivity|left; split; [reflexivity|assumption]]|].
  destruct (decide (is_Some (Instances c !! Name instance))) as [Hold|Hnew];
    [split; [reflexivity|right; split; [reflexivity|split; assumption]]|].
  assert (Habsent : Instances c !! Name instance = None).
  { destruct (Instances c !! Name instance) eqn:E; [|reflexivity].
    destruct Hnew. eexists; reflexivity. }
  assert (Hframe : forall name, name <> Name instance ->
    <[Name instance := instance]> (Instances c) !! name = Instances c !! name).
  { intros name Hne. apply lookup_insert_ne. congruence. }
  assert (Hnew' : GetCurrentInstance
                    (mkConfig (Name instance)
                       (<[Name instance := instance]> (Instances c)))
                  = inl instance).
  { unfold GetCurrentInstance; cbn.
    destruct (decide (Name instance = "")); [contradiction|].
    rewrite lookup_insert_eq. reflexivity. }
  rewrite (orb_comm (bool_decide (Current c = "")) makeCurrent).
  destruct (makeCurrent || bool_decide (Current c = "")) eqn:E; cbn [orb].
  - repeat split; try assumption. apply lookup_insert_eq.
  - apply orb_false_iff in E as [_ E]. apply bool_decide_eq_false in E.
    repeat split; try assumption; [apply lookup_insert_eq|].
    unfold GetCurrentInstance; cbn.
    destruct (decide (Current c = "")); [contradiction|].
    destruct (bool_decide (Current c = Name instance)) eqn:E2.
    + apply bool_decide_eq_true in E2. rewrite E2, lookup_insert_eq.
      reflexivity.
    + apply bool_decide_eq_false in E2.
      rewrite lookup_insert_ne by congruence. reflexivity.
Qed.

(** Adding an instance to a file that has an instance and names no current
    one makes the new instance the current one, also when that was not
    asked for. *)
Lemma AddInstanceWithSwitch_current_witness :
  AddInstanceWithSwitch demo.noCurrent demo.staging false
  = (None,
     mkConfig "staging"
       (<["staging" := demo.staging]> (Instances demo.noCurrent)))
  /\ GetCurrentInstance
       (snd (AddInstanceWithSwitch demo.noCurrent demo.staging false))
     = inl demo.staging.
Proof.
  split; [reflexivity|].
  exact (proj2 (proj2 (proj2 (proj2 (proj2
    (AddInstanceWithSwitch_current demo.noCurrent demo.staging false)))))).
Defined.

(** [RemoveInstance] fails on a name that is not filed and then changes
    nothing.  Removing an instance other than the current one leaves the
    current name, and so the answer of [GetCurrentInstance], as it was.
    Removing the current one makes current one of the names under which an
    instance remains, whichever the map range yields first, and
    [GetCurrentInstance] returns the instance filed under it; it fails, with
    [ErrNoCurrentInstance], only when no instance remains or when the name
    that the range yields is the empty name, under which an instance is
    filed then.  This holds of every configuration, the consistent ones
    and the others. *)
Theorem RemoveInstance_current
  (rangeFirst : gmap string Instance -> string) (c : Config) (name : string) :
  yieldsKey rangeFirst ->
  match Instances c !! name with
  | None => RemoveInstance rangeFirst c name = (Some ErrInstanceNotFound, c)
  | Some removed =>
      exists c', RemoveInstance rangeFirst c name = (None, c')
      /\ Instances c' = delete name (Instances c)
      /\ (Current c <> name ->
          Current c' = Current c
          /\ GetCurrentInstance c' = GetCurrentInstance c)
      /\ (Current c = name ->
          match GetCurrentInstance c' with
          | inl instance =>
              Current c' <> name
              /\ Instances c !! Current c' = Some instance
          | inr err =>
              err = ErrNoCurrentInstance
              /\ (Instances c = {[ name := removed ]}
                  \/ Current c' = "" /\ name <> ""
                     /\ is_Some (Instances c !! ""))
          end)
  end.
Proof.
  intros Hrange.
  destruct (Instances c !! name) as [removed|] eqn:E;
    [|unfold RemoveInstance; rewrite E; reflexivity].
  exists (snd (RemoveInstance rangeFirst c name)).
  unfold RemoveInstance. rewrite E.
  split; [|split; [|split]].
  - destruct (decide (Current c = name));
      [destruct (decide (0 < size (delete name (Instances c)))%nat)|];
      reflexivity.
  - destruct (decide (Current c = name));
      [destruct (decide (0 < size (delete name (Instances c)))%nat)|];
      reflexivity.
  - intros Hne. destruct (decide (Current c = name)); [contradiction|].
    cbn [snd]. split; [reflexivity|]. unfold GetCurrentInstance; cbn.
    destruct (decide (Current c = "")); [reflexivity|].
    rewrite lookup_delete_ne by congruence. reflexivity.
  - intros Heq. destruct (decide (Current c = name)); [|contradiction].
    destruct (decide (0 < size (delete name (Instances c)))%nat)
      as [Hpos|Hzero]; cbn [snd].
    + assert (Hne : delete name (Instances c) <> ∅).
      { intros H. rewrite H, map_size_empty in Hpos. lia. }
      destruct (Hrange _ Hne) as [i Hi].
      set (k := rangeFirst (delete name (Instances c))) in *.
      pose proof Hi as Hi'. apply lookup_delete_Some in Hi' as [Hk Hi'].
      unfold GetCurrentInstance; cbn.
      destruct (decide (k = "")) as [Hemp|Hemp].
      * split; [reflexivity|]. right. split; [exact Hemp|].
        split; [congruence|]. rewrite <- Hemp. eexists; exact Hi'.
      * rewrite Hi. split; [congruence|exact Hi'].
    + unfold GetCurrentInstance; cbn. split; [reflexivity|]. left.
      assert (Hempty : delete name (Instances c) = ∅)
        by (apply map_size_empty_iff; lia).
      rewrite <- (insert_delete_id _ _ _ E), Hempty. reflexivity.
Qed.

(** Removing the current instance of a file that has another instance
    under the empty name leaves no current instance. *)
Lemma RemoveInstance_current_witness :
  exists c',
    RemoveInstance demo.rangeFirst demo.unnamed "work" = (None, c')
    /\ Instances c' = delete "work" (Instances demo.unnamed)
    /\ (Current demo.unnamed <> "work" ->
        Current c' = Current demo.unnamed
        /\ GetCurrentInstance c' = GetCurrentInstance demo.unnamed)
    /\ (Current demo.unnamed = "work" ->
        match GetCurrentInstance c' with
        | inl instance =>
            Current c' <> "work"
            /\ Instances demo.unnamed !! Current c' = Some instance
        | inr err =>
            err = ErrNoCurrentInstance
            /\ (Instances demo.unnamed = {[ "work" := demo.instance ]}
                \/ Current c' = "" /\ "work" <> ""
                   /\ is_Some (Instances demo.unnamed !! ""))
        end).
Proof.
  exact (RemoveInstance_current demo.rangeFirst demo.unnamed "work"
           yieldsKey_rangeFirst).
Defined.

End ConfigMethods.

(** ** Writing, deleting, clearing and pruning cache entries *)

Lemma string_app_assoc (s t u : string) : (s +:+ t) +:+ u = s +:+ t +:+ u.
Proof.
  induction s as [|a s IH]; [reflexivity|].
  rewrite !string_app_cons, IH. reflexivity.
Qed.

Lemma stripPrefix_app (p s : string) : os.stripPrefix p (p +:+ s) = Some s.
Proof.
  induction p as [|a p IH]; [reflexivity|].
  rewrite string_app_cons. cbn [os.stripPrefix].
  rewrite Ascii.eqb_refl. exact IH.
Qed.

Lemma stripPrefix_Some (p s r : string) :
  os.stripPrefix p s = Some r -> s = p +:+ r.
Proof.
  revert s. induction p as [|a p IH]; intros s H.
  - injection H as ->. reflexivity.
  - destruct s as [|b s]; [discriminate|]. cbn [os.stripPrefix] in H.
    destruct (Ascii.eqb_spec a b) as [->|]; [|discriminate].
    rewrite string_app_cons. f_equal. apply IH, H.
Qed.

Lemma childName_Some (dir path name : string) :
  os.childName dir path = Some name ->
  path = dir +:+ "/" +:+ name /\ os.hasSeparator name = false /\ name <> "".
Proof.
  unfold os.childName.
  destruct (os.stripPrefix _ path) as [n|] eqn:E; [|discriminate].
  destruct (os.hasSeparator n) eqn:Hs; [discriminate|]. cbn [orb].
  destruct (bool_decide (n = "")) eqn:Hn; [discriminate|]. intros [= <-].
  apply stripPrefix_Some in E. rewrite string_app_assoc in E.
  apply bool_decide_eq_false in Hn. auto.
Qed.

Lemma childName_child (dir name : string) :
  os.hasSeparator name = false -> name <> "" ->
  os.childName dir (dir +:+ "/" +:+ name) = Some name.
Proof.
  intros Hs Hn. unfold os.childName.
  rewrite <- string_app_assoc, stripPrefix_app, Hs.
  rewrite bool_decide_eq_false_2 by assumption. reflexivity.
Qed.

Lemma Join_nonempty (dir name : string) :
  dir <> "" -> filepath.Join dir name = dir +:+ "/" +:+ name.
Proof.
  intros H. unfold filepath.Join. destruct (decide (dir = "")); [contradiction|].
  reflexivity.
Qed.

Lemma childName_Join (dir path name : string) :
  dir <> "" ->
  os.childName dir path = Some name -> filepath.Join dir name = path.
Proof.
  intros Hdir H. apply childName_Some in H as (-> & _).
  apply Join_nonempty, Hdir.
Qed.

Lemma Join_inj (dir n1 n2 : string) :
  dir <> "" -> filepath.Join dir n1 = filepath.Join dir n2 -> n1 = n2.
Proof.
  intros Hdir. rewrite !Join_nonempty by assumption. intros H.
  apply String.app_inj in H. apply (String.app_inj "/") in H. exact H.
Qed.

Lemma hasSeparator_hex (h rest : string) :
  os.hasSeparator (hex.EncodeToString h +:+ rest) = os.hasSeparator rest.
Proof.
  induction h as [|b h IH]; [reflexivity|].
  cbn [hex.EncodeToString]. rewrite string_app_assoc.
  transitivity (os.hasSeparator (hex.EncodeToString h +:+ rest));
    [|exact IH].
  generalize (hex.EncodeToString h +:+ rest). intros s.
  destruct b as [[] [] [] [] [] [] [] []]; reflexivity.
Qed.

(** The entry file of a key is a file of the cache directory. *)
Lemma childName_keyToPath (env : cache.Env) (c : cache.Cache) (key : string) :
  cache.dir c <> "" ->
  os.childName (cache.dir c) (cache.keyToPath env c key)
  = Some (hex.EncodeToString (cache.Sum256 env key) +:+ ".json").
Proof.
  intros Hdir. unfold cache.keyToPath. rewrite Join_nonempty by assumption.
  apply childName_child.
  - rewrite hasSeparator_hex. reflexivity.
  - intros H. apply (f_equal String.length) in H.
    rewrite string_length_app in H. cbn in H. lia.
Qed.

Lemma elem_of_ReadDir (dir name : string) (w : World) :
  name ∈ fst (os.ReadDir dir w) <->
  exists path, is_Some (files w !! path) /\ os.childName dir path = Some name.
Proof.
  unfold os.ReadDir; cbn [fst]. rewrite list_elem_of_omap. split.
  - intros (path & Hin & Hname). exists path. split; [|exact Hname].
    apply list_elem_of_fmap in Hin as ([p data] & -> & Hin).
    apply elem_of_map_to_list in Hin. eexists; exact Hin.
  - intros (path & [data Hdata] & Hname). exists path. split; [|exact Hname].
    apply list_elem_of_fmap. exists (path, data). split; [reflexivity|].
    apply elem_of_map_to_list, Hdata.
Qed.

Lemma NoDup_omap {A B} (f : A -> option B) (l : list A) :
  (forall x y z, f x = Some z -> f y = Some z -> x = y) ->
  NoDup l -> NoDup (omap f l).
Proof.
  intros Hinj. induction 1 as [|x l Hx Hl IH]; [constructor|].
  change (omap f (x :: l))
    with (match f x with Some z => z :: omap f l | None => omap f l end).
  destruct (f x) as [z|] eqn:E; [|exact IH].
  constructor; [|exact IH]. rewrite list_elem_of_omap.
  intros (y & Hy & Hz). rewrite (Hinj _ _ _ E Hz) in Hx. contradiction.
Qed.

Lemma NoDup_ReadDir (dir : string) (w : World) :
  NoDup (fst (os.ReadDir dir w)).
Proof.
  unfold os.ReadDir; cbn [fst]. apply NoDup_omap.
  - intros p1 p2 name H1 H2.
    apply childName_Some in H1 as (-> & _), H2 as (-> & _). reflexivity.
  - apply NoDup_fst_map_to_list.
Qed.

Section CacheWrites.
Variable env : cache.Env.
Variable c : cache.Cache.
Hypothesis Hdir : cache.dir c <> "".

Lemma clearEntries_removes (names : list string) (w : World) :
  NoDup names ->
  (forall name, name ∈ names ->
     is_Some (files w !! filepath.Join (cache.dir c) name)) ->
  exists w',
    cache.clearEntries c names w = (None, w')
    /\ ticks w' = ticks w /\ sent w' = sent w
    /\ forall path,
         files w' !! path
         = if decide (path ∈ filepath.Join (cache.dir c) <$> names)
           then None else files w !! path.
Proof.
  intros Hnodup. revert w.
  induction Hnodup as [|name rest Hname Hrest IH]; intros w Hexist.
  - exists w. repeat split.
  - cbn [cache.clearEntries]. rewrite bind_eq. unfold os.Remove at 1 2.
    cbn [fst snd].
    rewrite bool_decide_eq_true_2 by (apply Hexist; left).
    set (path0 := filepath.Join (cache.dir c) name).
    destruct (IH (mkWorld (delete path0 (files w)) (ticks w) (sent w)))
      as (w' & Hrun & Hticks & Hsent & Hfiles).
    { intros n Hn. cbn [files]. rewrite lookup_delete_ne.
      - apply Hexist. right. exact Hn.
      - intros Heq. apply (Join_inj _ _ _ Hdir) in Heq. subst n.
        contradiction. }
    exists w'. split; [exact Hrun|]. split; [exact Hticks|].
    split; [exact Hsent|]. intros path. rewrite Hfiles. cbn [files].
    rewrite fmap_cons. fold path0.
    destruct (decide (path ∈ filepath.Join (cache.dir c) <$> rest))
      as [Hin|Hout].
    + rewrite decide_True by (right; exact Hin). reflexivity.
    + destruct (decide (path = path0)) as [->|Hne].
      * rewrite decide_True by left. apply lookup_delete_eq.
      * rewrite lookup_delete_ne by congruence.
        rewrite decide_False; [reflexivity|].
        intros Hin. apply elem_of_cons in Hin as [?|?]; contradiction.
Qed.

Lemma elem_of_Join_ReadDir (path : string) (w : World) :
  path ∈ filepath.Join (cache.dir c) <$> fst (os.ReadDir (cache.dir c) w) <->
  is_Some (files w !! path) /\ is_Some (os.childName (cache.dir c) path).
Proof.
  rewrite list_elem_of_fmap. split.
  - intros (name & -> & Hin). apply elem_of_ReadDir in Hin
      as (p & Hp & Hname).
    rewrite (childName_Join _ _ _ Hdir Hname). split; [exact Hp|].
    apply childName_Some in Hname as (-> & Hs & Hn).
    rewrite childName_child by assumption. eexists; reflexivity.
  - intros [Hp [name Hname]]. exists name. split.
    + symmetry. apply (childName_Join _ _ _ Hdir Hname).
    + apply elem_of_ReadDir. exists path. split; assumption.
Qed.

Lemma Clear_files (w : World) :
  exists w',
    cache.Clear c w = (None, w')
    /\ ticks w' = ticks w /\ sent w' = sent w
    /\ forall path,
         files w' !! path
         = match os.childName (cache.dir c) path with
           | Some _ => None
           | None => files w !! path
           end.
Proof.
  unfold cache.Clear. rewrite bind_eq.
  destruct (clearEntries_removes (fst (os.ReadDir (cache.dir c) w)) w)
    as (w' & Hrun & Hticks & Hsent & Hfiles).
  { apply NoDup_ReadDir. }
  { intros name Hin. apply elem_of_ReadDir in Hin as (p & Hp & Hname).
    rewrite (childName_Join _ _ _ Hdir Hname). exact Hp. }
  exists w'. split; [exact Hrun|]. split; [exact Hticks|].
  split; [exact Hsent|].
  intros path. rewrite Hfiles.
  destruct (decide _) as [Hin|Hout].
  - apply elem_of_Join_ReadDir in Hin as [_ [name ->]]. reflexivity.
  - destruct (os.childName (cache.dir c) path) as [name|] eqn:E;
      [|reflexivity].
    destruct (files w !! path) as [data|] eqn:Hp; [|reflexivity].
    destruct Hout. apply elem_of_Join_ReadDir. rewrite Hp, E.
    split; eexists; reflexivity.
Qed.

(** [Clear] removes every file of the cache directory and nothing else:
    files elsewhere, also in directories below the cache directory, stay as
    they are, no request is sent and the clock is not read.  After it [Get]
    misses for every key, and leaves the world as it is. *)
Theorem Clear_removes_every_entry (w : World) :
  exists w',
    cache.Clear c w = (None, w')
    /\ ticks w' = ticks w /\ sent w' = sent w
    /\ (forall path,
          files w' !! path
          = match os.childName (cache.dir c) path with
            | Some _ => None
            | None => files w !! path
            end)
    /\ forall key, cache.Get env c key w' = (("", false), w').
Proof.
  destruct (Clear_files w) as (w' & Hrun & Hticks & Hsent & Hall).
  exists w'. split; [exact Hrun|]. split; [exact Hticks|].
  split; [exact Hsent|]. split; [exact Hall|].
  intros key. apply Get_absent. rewrite Hall.
  rewrite (childName_keyToPath env c key Hdir). reflexivity.
Qed.

End CacheWrites.

Lemma Clear_removes_every_entry_witness :
  exists w',
    cache.Clear demo.zdCache demo.cachedWorld = (None, w')
    /\ ticks w' = ticks demo.cachedWorld /\ sent w' = sent demo.cachedWorld
    /\ (forall path,
          files w' !! path
          = match os.childName (cache.dir demo.zdCache) path with
            | Some _ => None
            | None => files demo.cachedWorld !! path
            end)
    /\ forall key,
         cache.Get demo.cacheEnv demo.zdCache key w' = (("", false), w').
Proof.
  apply (Clear_removes_every_entry demo.cacheEnv demo.zdCache).
  discriminate.
Defined.

Section CachePrune.
Variable env : cache.Env.
Variable c : cache.Cache.
Hypothesis Hdir : cache.dir c <> "".

Abbreviation pruned := (cache.pruned env).

Lemma pruned_idempotent (now : Z) (file : option string) :
  pruned now (pruned now file) = pruned now file.
Proof.
  unfold cache.pruned. destruct file as [data|]; [|reflexivity].
  destruct (cache.Unmarshal env data) as [entry|] eqn:E; [|reflexivity].
  destruct (time.After now (cache.ExpiresAt entry)) eqn:Ha; [reflexivity|].
  rewrite E, Ha. reflexivity.
Qed.

Lemma pruneEntries_prunes (now : Z) (names : list string) (w : World) :
  exists w',
    cache.pruneEntries env c now names w = (tt, w')
    /\ ticks w' = ticks w /\ sent w' = sent w
    /\ forall path,
         files w' !! path
         = if decide (path ∈ filepath.Join (cache.dir c) <$> names)
           then pruned now (files w !! path) else files w !! path.
Proof.
  revert w. induction names as [|name rest IH]; intros w.
  - exists w. repeat split.
  - cbn [cache.pruneEntries]. rewrite bind_eq. unfold os.ReadFile at 1 2.
    cbn [fst snd]. set (path0 := filepath.Join (cache.dir c) name).
    assert (Hstep : exists w1,
      match files w !! path0 with
      | Some data =>
          match cache.Unmarshal env data with
          | Some cacheEntry =>
              (if time.After now (cache.ExpiresAt cacheEntry)
               then os.Remove path0;;; ret tt else ret tt);;;
              cache.pruneEntries env c now rest
          | None => os.Remove path0;;; cache.pruneEntries env c now rest
          end
      | None => cache.pruneEntries env c now rest
      end w = cache.pruneEntries env c now rest w1
      /\ ticks w1 = ticks w /\ sent w1 = sent w
      /\ forall path,
           files w1 !! path
           = if decide (path = path0) then pruned now (files w !! path)
             else files w !! path).
    { destruct (files w !! path0) as [data|] eqn:Hfile.
      - destruct (cache.Unmarshal env data) as [entry|] eqn:Hdec.
        + destruct (time.After now (cache.ExpiresAt entry)) eqn:Ha.
          * exists (mkWorld (delete path0 (files w)) (ticks w) (sent w)).
            split; [reflexivity|]. split; [reflexivity|].
            split; [reflexivity|]. intros path. cbn [files].
            destruct (decide (path = path0)) as [->|Hne].
            -- rewrite lookup_delete_eq, Hfile. unfold cache.pruned.
               rewrite Hdec, Ha. reflexivity.
            -- apply lookup_delete_ne. congruence.
          * exists w. split; [reflexivity|]. split; [reflexivity|].
            split; [reflexivity|]. intros path.
            destruct (decide (path = path0)) as [->|Hne]; [|reflexivity].
            rewrite Hfile. unfold cache.pruned. rewrite Hdec, Ha. reflexivity.
        + exists (mkWorld (delete path0 (files w)) (ticks w) (sent w)).
          split; [reflexivity|]. split; [reflexivity|].
          split; [reflexivity|]. intros path. cbn [files].
          destruct (decide (path = path0)) as [->|Hne].
          * rewrite lookup_delete_eq, Hfile. unfold cache.pruned.
            rewrite Hdec. reflexivity.
          * apply lookup_delete_ne. congruence.
      - exists w. split; [reflexivity|]. split; [reflexivity|].
        split; [reflexivity|]. intros path.
        destruct (decide (path = path0)) as [->|Hne]; [|reflexivity].
        rewrite Hfile. reflexivity. }
    destruct Hstep as (w1 & -> & Hticks1 & Hsent1 & Hfiles1).
    destruct (IH w1) as (w' & Hrun & Hticks & Hsent & Hfiles).
    exists w'. split; [exact Hrun|]. split; [congruence|].
    split; [congruence|]. intros path. rewrite Hfiles, Hfiles1.
    rewrite fmap_cons. fold path0.
    destruct (decide (path ∈ filepath.Join (cache.dir c) <$> rest))
      as [Hin|Hout].
    + rewrite (decide_True (P := path ∈ path0 :: _)) by (right; exact Hin).
      destruct (decide (path = path0)); [|reflexivity].
      apply pruned_idempotent.
    + destruct (decide (path = path0)) as [->|Hne].
      * rewrite decide_True by left. reflexivity.
      * rewrite decide_False; [reflexivity|].
        intros Hin. apply elem_of_cons in Hin as [?|?]; contradiction.
Qed.

(** [PruneExpired] reads the clock once and keeps of the files of the cache
    directory exactly those that decode as an entry whose expiration that
    reading is not after; every other file of the directory is removed, and
    files elsewhere stay as they are.  So the entry of a key is still there
    afterwards exactly when [Get], reading the clock at the same instant,
    would have found it: the two agree on the instant of expiry. *)
Theorem PruneExpired_keeps_what_Get_finds (w : World) :
  exists w',
    cache.PruneExpired env c w = (None, w')
    /\ ticks w' = S (ticks w) /\ sent w' = sent w
    /\ (forall path,
          files w' !! path
          = match os.childName (cache.dir c) path with
            | Some _ => pruned (cache.Now env (ticks w)) (files w !! path)
            | None => files w !! path
            end)
    /\ forall key,
         is_Some (files w' !! cache.keyToPath env c key)
         <-> snd (fst (cache.Get env c key w)) = true.
Proof.
  unfold cache.PruneExpired. rewrite bind_eq.
  set (names := fst (os.ReadDir (cache.dir c) w)).
  change (snd (os.ReadDir (cache.dir c) w)) with w.
  rewrite bind_eq. unfold cache.time_Now at 1 2. cbn [fst snd].
  set (now := cache.Now env (ticks w)).
  destruct (pruneEntries_prunes now names
              (mkWorld (files w) (S (ticks w)) (sent w)))
    as (w' & Hrun & Hticks & Hsent & Hfiles).
  cbn [files ticks sent] in Hticks, Hsent, Hfiles.
  assert (Hall : forall path,
    files w' !! path
    = match os.childName (cache.dir c) path with
      | Some _ => pruned now (files w !! path)
      | None => files w !! path
      end).
  { intros path. rewrite Hfiles. destruct (decide _) as [Hin|Hout].
    - apply (elem_of_Join_ReadDir c Hdir) in Hin as [_ [name ->]].
      reflexivity.
    - destruct (os.childName (cache.dir c) path) as [name|] eqn:E;
        [|reflexivity].
      destruct (files w !! path) as [data|] eqn:Hp; [|reflexivity].
      destruct Hout. apply (elem_of_Join_ReadDir c Hdir). rewrite Hp, E.
      split; eexists; reflexivity. }
  exists w'. rewrite bind_eq, Hrun. cbn [fst snd].
  split; [reflexivity|]. split; [exact Hticks|]. split; [exact Hsent|].
  split; [exact Hall|]. intros key. rewrite Hall.
  rewrite (childName_keyToPath env c key Hdir). unfold cache.pruned.
  destruct (files w !! cache.keyToPath env c key) as [data|] eqn:Hfile.
  - destruct (cache.Unmarshal env data) as [entry|] eqn:Hdec.
    + unfold time.After. fold now.
      destruct (Z.ltb_spec (cache.ExpiresAt entry) now) as [Hlt|Hge].
      * rewrite (Get_expired env c key w data entry Hfile Hdec Hlt).
        split; [intros [? ?]|]; discriminate.
      * rewrite (Get_fresh env c key w data entry Hfile Hdec Hge).
        split; [reflexivity|]. intros _. eexists; reflexivity.
    + rewrite (Get_malformed env c key w data Hfile Hdec).
      split; [intros [? ?]|]; discriminate.
  - rewrite (Get_absent env c key w Hfile).
    split; [intros [? ?]|]; discriminate.
Qed.

End CachePrune.

Lemma PruneExpired_keeps_what_Get_finds_witness :
  exists w',
    cache.PruneExpired demo.cacheEnv demo.zdCache demo.cachedWorld = (None, w')
    /\ ticks w' = S (ticks demo.cachedWorld)
    /\ sent w' = sent demo.cachedWorld
    /\ (forall path,
          files w' !! path
          = match os.childName (cache.dir demo.zdCache) path with
            | Some _ =>
                cache.pruned demo.cacheEnv
                  (cache.Now demo.cacheEnv (ticks demo.cachedWorld))
                  (files demo.cachedWorld !! path)
            | None => files demo.cachedWorld !! path
            end)
    /\ forall key,
         is_Some (files w' !! cache.keyToPath demo.cacheEnv demo.zdCache key)
         <-> snd (fst (cache.Get demo.cacheEnv demo.zdCache key
                         demo.cachedWorld)) = true.
Proof.
  apply (PruneExpired_keeps_what_Get_finds demo.cacheEnv demo.zdCache).
  discriminate.
Defined.

Section CacheRoundTrip.
Variable env : cache.Env.
Variable c : cache.Cache.
Variable key : string.
Variable w : World.

Lemma Set_world (data : string) :
  cache.Set_ env c key data w
  = (tt,
     mkWorld
       (<[cache.keyToPath env c key :=
            cache.Marshal env
              (cache.mkEntry data
                 (time.Add (cache.Now env (S (ticks w))) (cache.ttl c))
                 (cache.Now env (ticks w)))]> (files w))
       (S (S (ticks w))) (sent w)).
Proof. reflexivity. Qed.

(** What [Set] stores, [Get] gives back until it expires.  [Set] reads the
    clock twice and lets the entry expire one time-to-live after the second
    reading; it writes the entry file of the key and no other file.  A [Get]
    of the same key that follows returns the stored data as found when its
    own reading of the clock is not after that expiration, and misses
    otherwise.  The codec is asked only to give back the data and the
    expiration of the entry that was written. *)
Theorem Set_then_Get (data : string) :
  cache.codecKeeps env
    (cache.mkEntry data
       (time.Add (cache.Now env (S (ticks w))) (cache.ttl c))
       (cache.Now env (ticks w))) ->
  (forall path,
     path <> cache.keyToPath env c key ->
     files (snd (cache.Set_ env c key data w)) !! path = files w !! path)
  /\ sent (snd (cache.Set_ env c key data w)) = sent w
  /\ fst (cache.Get env c key (snd (cache.Set_ env c key data w)))
     = if time.After (cache.Now env (S (S (ticks w))))
            (time.Add (cache.Now env (S (ticks w))) (cache.ttl c))
       then ("", false) else (data, true).
Proof.
  intros (decoded & Hdec & Hdata & Hexp). rewrite Set_world. cbn [snd].
  split; [|split; [reflexivity|]].
  - intros path Hne. cbn [files]. apply lookup_insert_ne. congruence.
  - cbn [cache.ExpiresAt cache.Data] in Hdata, Hexp.
    unfold time.After.
    match goal with |- context [cache.Get env c key ?x] => set (w1 := x) end.
    assert (Hfile : files w1 !! cache.keyToPath env c key
                    = Some (cache.Marshal env
                              (cache.mkEntry data
                                 (time.Add (cache.Now env (S (ticks w)))
                                    (cache.ttl c))
                                 (cache.Now env (ticks w))))).
    { apply lookup_insert_eq. }
    destruct (Z.ltb_spec
                (time.Add (cache.Now env (S (ticks w))) (cache.ttl c))
                (cache.Now env (S (S (ticks w))))) as [Hlt|Hge].
    + rewrite (Get_expired env c key w1 _ decoded Hfile Hdec);
        [reflexivity|]. rewrite Hexp. exact Hlt.
    + rewrite (Get_fresh env c key w1 _ decoded Hfile Hdec);
        [cbn [fst]; congruence|]. rewrite Hexp. exact Hge.
Qed.

(** After [Delete] the key has no entry: [Get] misses and leaves the world
    as it is.  [Delete] changes no other file, sends nothing, and on a key
    without entry changes nothing at all; in particular [Set] followed by
    [Delete] leaves the files as [Delete] alone does. *)
Theorem Delete_then_Get_misses :
  cache.Get env c key (snd (cache.Delete env c key w))
  = (("", false), snd (cache.Delete env c key w))
  /\ (forall path,
        path <> cache.keyToPath env c key ->
        files (snd (cache.Delete env c key w)) !! path = files w !! path)
  /\ ticks (snd (cache.Delete env c key w)) = ticks w
  /\ sent (snd (cache.Delete env c key w)) = sent w
  /\ (files w !! cache.keyToPath env c key = None ->
      snd (cache.Delete env c key w) = w)
  /\ forall data,
       files (snd (cache.Delete env c key
                     (snd (cache.Set_ env c key data w))))
       = files (snd (cache.Delete env c key w)).
Proof.
  change (snd (cache.Delete env c key w))
    with (mkWorld (delete (cache.keyToPath env c key) (files w)) (ticks w)
            (sent w)).
  split; [|split; [|split; [|split; [|split]]]].
  - apply Get_absent. apply lookup_delete_eq.
  - intros path Hne. cbn [files]. apply lookup_delete_ne. congruence.
  - reflexivity.
  - reflexivity.
  - intros Hnone. rewrite (delete_id _ _ Hnone). destruct w; reflexivity.
  - intros data. rewrite Set_world. cbn. apply delete_insert_eq.
Qed.

End CacheRoundTrip.

Lemma Set_then_Get_witness :
  (forall path,
     path <> cache.keyToPath demo.cacheEnv demo.zdCache demo.ticketKey ->
     files (snd (cache.Set_ demo.cacheEnv demo.zdCache demo.ticketKey "cached"
                   demo.emptyWorld)) !! path
     = files demo.emptyWorld !! path)
  /\ sent (snd (cache.Set_ demo.cacheEnv demo.zdCache demo.ticketKey "cached"
                  demo.emptyWorld)) = sent demo.emptyWorld
  /\ fst (cache.Get demo.cacheEnv demo.zdCache demo.ticketKey
            (snd (cache.Set_ demo.cacheEnv demo.zdCache demo.ticketKey
                    "cached" demo.emptyWorld)))
     = if time.After (cache.Now demo.cacheEnv (S (S (ticks demo.emptyWorld))))
            (time.Add (cache.Now demo.cacheEnv (S (ticks demo.emptyWorld)))
               (cache.ttl demo.zdCache))
       then ("", false) else ("cached", true).
Proof.
  apply (Set_then_Get demo.cacheEnv demo.zdCache demo.ticketKey
           demo.emptyWorld "cached").
  eexists. split; [vm_compute; reflexivity|]. split; reflexivity.
Defined.

(** ** Reads through the cache *)

(** [Get] sends nothing. *)
Lemma cache_Get_sent (cenv : cache.Env) (ch : cache.Cache) (key : string)
  (w : World) :
  sent (snd (cache.Get cenv ch key w)) = sent w.
Proof.
  unfold cache.Get. rewrite bind_eq. unfold os.ReadFile. cbn [fst snd].
  destruct (files w !! _) as [data|]; [|reflexivity].
  destruct (cache.Unmarshal _ data) as [entry|]; [|reflexivity].
  rewrite bind_eq. unfold cache.time_Now. cbn [fst snd].
  destruct (time.After _ _); reflexivity.
Qed.

Section CachedRead.
Variable env : client.Env.
Variable A : Type.
Variable decode : string -> option A.
Variable c : client.Client.
Variable cacheKey path : string.
Variable statusErr : Z -> string -> client.error.

Let cenv := client.cacheEnv env.
Let url := client.GetBaseURL c +:+ path.
Let get := http.mkRequest http.MethodGet url (client.authHeader c) None.
Let read := client.cachedRead env decode c cacheKey path statusErr.

(** What the read does once the cache has not answered, at the world [w]
    the lookup has left. *)
Lemma cachedRead_fetch (w w1 : World) :
  (match client.cacheInUse c with
   | Some ch =>
       r <- cache.Get cenv ch cacheKey ;;
       ret (if snd r then decode (fst r) else None)
   | None => ret None
   end) w = (None, w1) ->
  read w
  = match client.NewRequestErr env url with
    | Some err =>
        (inr (client.Errorf ("failed to create request: " +:+ err)), w1)
    | None =>
        let w2 := mkWorld (files w1) (ticks w1) (sent w1 ++ [get]) in
        match client.RoundTrip env (sent w1) get with
        | inr err => (inr (client.Errorf ("request failed: " +:+ err)), w2)
        | inl resp =>
            if decide (http.StatusCode resp ≠ http.StatusOK) then
              (inr (statusErr (http.StatusCode resp) (http.Body resp)), w2)
            else if http.ReadErr resp then
              (inr (client.Errorf "failed to read response"), w2)
            else
              match decode (http.Body resp) with
              | None => (inr (client.Errorf "failed to decode response"), w2)
              | Some doc =>
                  (inl doc,
                   match client.cacheInUse c with
                   | Some ch =>
                       snd (cache.Set_ cenv ch cacheKey (http.Body resp) w2)
                   | None => w2
                   end)
              end
        end
    end.
Proof.
  intros Hlook. unfold read, client.cachedRead. rewrite bind_eq.
  fold cenv. rewrite Hlook. cbn [fst snd]. rewrite bind_eq.
  unfold client.makeRequest. fold url.
  destruct (client.NewRequestErr env url) as [err|]; [reflexivity|].
  rewrite bind_eq. unfold client.httpClient_Do. cbn [fst snd]. fold get.
  destruct (client.RoundTrip env (sent w1) get) as [resp|err];
    [|reflexivity].
  unfold ret at 1. cbn [fst snd].
  destruct (decide (http.StatusCode resp ≠ http.StatusOK)); [reflexivity|].
  destruct (http.ReadErr resp); [reflexivity|].
  destruct (decode (http.Body resp)) as [doc|]; [|reflexivity].
  rewrite bind_eq. destruct (client.cacheInUse c); reflexivity.
Qed.

(** The lookup of the read in a cache that is in use. *)
Lemma cachedRead_lookup (ch : cache.Cache) (w : World) :
  client.cacheInUse c = Some ch ->
  (match client.cacheInUse c with
   | Some ch =>
       r <- cache.Get cenv ch cacheKey ;;
       ret (if snd r then decode (fst r) else None)
   | None => ret None
   end) w
  = ((if snd (fst (cache.Get cenv ch cacheKey w))
      then decode (fst (fst (cache.Get cenv ch cacheKey w))) else None),
     snd (cache.Get cenv ch cacheKey w)).
Proof. intros ->. rewrite bind_eq. reflexivity. Qed.

Lemma cachedRead_found (w w1 : World) (doc : A) :
  (match client.cacheInUse c with
   | Some ch =>
       r <- cache.Get cenv ch cacheKey ;;
       ret (if snd r then decode (fst r) else None)
   | None => ret None
   end) w = (Some doc, w1) ->
  read w = (inl doc, w1).
Proof.
  intros Hlook. unfold read, client.cachedRead. rewrite bind_eq.
  fold cenv. rewrite Hlook. reflexivity.
Qed.

Lemma cachedRead_served (ch : cache.Cache) (w : World) (data : string)
  (entry : cache.Entry) (doc : A) :
  client.cacheInUse c = Some ch ->
  files w !! cache.keyToPath cenv ch cacheKey = Some data ->
  cache.Unmarshal cenv data = Some entry ->
  time.After (cache.Now cenv (ticks w)) (cache.ExpiresAt entry) = false ->
  decode (cache.Data entry) = Some doc ->
  read w = (inl doc, mkWorld (files w) (S (ticks w)) (sent w)).
Proof.
  intros Huse Hfile Hdec Hfresh Hdoc. apply cachedRead_found.
  rewrite (cachedRead_lookup ch w Huse).
  unfold time.After in Hfresh. apply Z.ltb_ge in Hfresh.
  rewrite (Get_fresh cenv ch cacheKey w data entry Hfile Hdec Hfresh).
  cbn [fst snd]. rewrite Hdoc. reflexivity.
Qed.

(** A read whose key has an entry in the cache in use that has not expired
    and whose data decodes is answered from the cache: it returns the
    decoded document, sends no request and changes no file.  This is the
    body of every read method of the client ([GetTicket], [ListTickets],
    [SearchTickets], [GetUser], [GetMe], [ListUsers], the lists of
    organizations and groups and of their users, tickets and
    memberships). *)
Theorem cachedRead_hit (ch : cache.Cache) (w : World) (data : string)
  (entry : cache.Entry) (doc : A) :
  client.cacheInUse c = Some ch ->
  files w !! cache.keyToPath cenv ch cacheKey = Some data ->
  cache.Unmarshal cenv data = Some entry ->
  time.After (cache.Now cenv (ticks w)) (cache.ExpiresAt entry) = false ->
  decode (cache.Data entry) = Some doc ->
  read w = (inl doc, mkWorld (files w) (S (ticks w)) (sent w)).
Proof. apply cachedRead_served. Qed.

(** A read that the server has answered is followed by reads of the same
    key that the cache answers, with the same document and without a
    request, for as long as the clock is not after the expiration that the
    first read has set: one time-to-live after the last reading of the
    clock before the second read.  The codec of the cache is asked one
    thing only, to read back the entry that the first read has written,
    which holds the body of the server's answer: with the same expiration,
    and with data that decode as that body does. *)
Theorem cachedRead_then_hit (ch : cache.Cache) (w w1 : World) (doc : A) :
  client.cacheInUse c = Some ch ->
  (forall resp,
     client.RoundTrip env (sent w) get = inl resp ->
     cache.codecReadsBack cenv decode
       (cache.mkEntry (http.Body resp)
          (time.Add (cache.Now cenv (Nat.pred (ticks w1))) (cache.ttl ch))
          (cache.Now cenv (Nat.pred (Nat.pred (ticks w1)))))) ->
  read w = (inl doc, w1) ->
  sent w1 <> sent w ->
  time.After (cache.Now cenv (ticks w1))
    (time.Add (cache.Now cenv (Nat.pred (ticks w1))) (cache.ttl ch)) = false ->
  read w1 = (inl doc, mkWorld (files w1) (S (ticks w1)) (sent w1)).
Proof.
  intros Huse Hcodec Hread Hsent Hfresh.
  pose proof (cachedRead_lookup ch w Huse) as Hlook.
  pose proof (cache_Get_sent cenv ch cacheKey w) as Hgetsent.
  destruct (if snd (fst (cache.Get cenv ch cacheKey w))
            then decode (fst (fst (cache.Get cenv ch cacheKey w)))
            else None) as [found|] eqn:Hfound.
  { rewrite (cachedRead_found w _ found Hlook) in Hread.
    injection Hread as _ <-. rewrite Hgetsent in Hsent. contradiction. }
  rewrite (cachedRead_fetch w _ Hlook) in Hread. clear Hlook Hfound.
  set (w0 := snd (cache.Get cenv ch cacheKey w)) in *.
  destruct (client.NewRequestErr env url); [discriminate|]. cbv zeta in Hread.
  rewrite <- Hgetsent in Hcodec.
  destruct (client.RoundTrip env (sent w0) get) as [resp|err];
    [|discriminate].
  specialize (Hcodec resp eq_refl).
  destruct (decide (http.StatusCode resp ≠ http.StatusOK)); [discriminate|].
  destruct (http.ReadErr resp); [discriminate|].
  destruct (decode (http.Body resp)) as [doc'|] eqn:Hdoc; [|discriminate].
  rewrite Huse in Hread. rewrite Set_world in Hread. cbn [snd] in Hread.
  injection Hread as -> <-. cbn [ticks files sent Nat.pred] in *.
  destruct Hcodec as (decoded & Hdec & Hdata & Hexp).
  cbn [cache.Data cache.ExpiresAt] in Hdata, Hexp.
  match goal with
  | |- read ?x = _ =>
      eapply (cachedRead_served ch x _ decoded); [exact Huse| | exact Hdec | |]
  end.
  - cbn [files]. apply lookup_insert_eq.
  - cbn [ticks]. rewrite Hexp. exact Hfresh.
  - rewrite Hdata. exact Hdoc.
Qed.

(** With no cache in use, as under [--refresh], a read neither reads nor
    writes a file and does not read the clock, and it asks the server
    whenever the request can be made: it sends exactly one GET request for
    its path. *)
Lemma cachedRead_without_cache (w : World) :
  client.cacheInUse c = None ->
  files (snd (read w)) = files w
  /\ ticks (snd (read w)) = ticks w
  /\ sent (snd (read w))
     = match client.NewRequestErr env url with
       | Some _ => sent w
       | None => sent w ++ [get]
       end.
Proof.
  intros Huse.
  assert (Hlook :
    (match client.cacheInUse c with
     | Some ch =>
         r <- cache.Get cenv ch cacheKey ;;
         ret (if snd r then decode (fst r) else None)
     | None => ret None
     end) w = (None, w)) by (rewrite Huse; reflexivity).
  rewrite (cachedRead_fetch w w Hlook), Huse.
  destruct (client.NewRequestErr env url); [repeat split|]. cbv zeta.
  destruct (client.RoundTrip env (sent w) get) as [resp|err];
    [|repeat split].
  destruct (decide (http.StatusCode resp ≠ http.StatusOK)); [repeat split|].
  destruct (http.ReadErr resp); [repeat split|].
  destruct (decode (http.Body resp)); repeat split.
Qed.

End CachedRead.

Lemma cachedRead_hit_witness :
  client.GetTicket demo.clientEnv demo.zdClient 500 demo.cachedWorld
  = (inl "cached",
     mkWorld (files demo.cachedWorld) (S (ticks demo.cachedWorld))
       (sent demo.cachedWorld)).
Proof.
  apply (cachedRead_hit demo.clientEnv _
           (client.Unmarshal demo.clientEnv client.TicketResponse)
           demo.zdClient (client.ticketKey demo.zdClient 500)
           "/tickets/500.json" (client.failedTo "get ticket") demo.zdCache
           demo.cachedWorld "5000" (cache.mkEntry "cached" 5000 0) "cached");
    vm_compute; reflexivity.
Defined.

Lemma unbits_bits (p : positive) (data : string) :
  demo.unbits (demo.bits p +:+ data) = Some (p, data).
Proof.
  induction p as [p IH|p IH|]; cbn [demo.bits]; rewrite string_app_cons.
  - change (demo.unbits (String "1" (demo.bits p +:+ data)))
      with (match demo.unbits (demo.bits p +:+ data) with
            | Some (q, d) => Some (xI q, d)
            | None => None
            end).
    rewrite IH. reflexivity.
  - change (demo.unbits (String "0" (demo.bits p +:+ data)))
      with (match demo.unbits (demo.bits p +:+ data) with
            | Some (q, d) => Some (xO q, d)
            | None => None
            end).
    rewrite IH. reflexivity.
  - reflexivity.
Qed.

Lemma codecKeeps_codecEnv (entry : cache.Entry) :
  cache.codecKeeps (client.cacheEnv demo.codecEnv) entry.
Proof.
  destruct entry as [data expires created]. unfold cache.codecKeeps.
  cbn [client.cacheEnv demo.codecEnv cache.Marshal cache.Unmarshal].
  unfold demo.marshal. cbn [cache.ExpiresAt cache.Data].
  destruct expires as [|p|p].
  - eexists. split; [reflexivity|]. split; reflexivity.
  - exists (cache.mkEntry data (Z.pos p) 0). split; [|split; reflexivity].
    change (demo.unmarshal (String "+" (demo.bits p +:+ data)))
      with (match demo.unbits (demo.bits p +:+ data) with
            | Some (q, d) => Some (cache.mkEntry d (Zpos q) 0)
            | None => None
            end).
    rewrite unbits_bits. reflexivity.
  - exists (cache.mkEntry data (Z.neg p) 0). split; [|split; reflexivity].
    change (demo.unmarshal (String "-" (demo.bits p +:+ data)))
      with (match demo.unbits (demo.bits p +:+ data) with
            | Some (q, d) => Some (cache.mkEntry d (Zneg q) 0)
            | None => None
            end).
    rewrite unbits_bits. reflexivity.
Qed.

(** A codec that gives the data of an entry back reads the entry back for
    every reader of the data. *)
Lemma codecReadsBack_of_keeps (cenv : cache.Env) {A : Type}
  (decode : string -> option A) (entry : cache.Entry) :
  cache.codecKeeps cenv entry -> cache.codecReadsBack cenv decode entry.
Proof.
  intros (decoded & Hdec & Hdata & Hexp). exists decoded.
  rewrite Hdata. split; [exact Hdec|]. split; [reflexivity|exact Hexp].
Qed.

Lemma cachedRead_then_hit_witness :
  client.GetTicket demo.codecEnv demo.zdClient 500
    (snd (client.GetTicket demo.codecEnv demo.zdClient 500 demo.emptyWorld))
  = (inl "ok",
     mkWorld
       (files (snd (client.GetTicket demo.codecEnv demo.zdClient 500
                      demo.emptyWorld)))
       (S (ticks (snd (client.GetTicket demo.codecEnv demo.zdClient 500
                         demo.emptyWorld))))
       (sent (snd (client.GetTicket demo.codecEnv demo.zdClient 500
                     demo.emptyWorld)))).
Proof.
  apply (cachedRead_then_hit demo.codecEnv _
           (client.Unmarshal demo.codecEnv client.TicketResponse)
           demo.zdClient (client.ticketKey demo.zdClient 500)
           "/tickets/500.json" (client.failedTo "get ticket") demo.zdCache
           demo.emptyWorld).
  - reflexivity.
  - intros resp _. apply codecReadsBack_of_keeps, codecKeeps_codecEnv.
  - vm_compute. reflexivity.
  - vm_compute. discriminate.
  - vm_compute. reflexivity.
Defined.

(** ** Commands under [--refresh] *)

(** Under [--refresh] the client has no cache, so a read of any command
    neither reads nor writes a file and does not read the clock, and it
    asks the server whenever the request can be made: it sends exactly one
    GET request for its path. *)
Theorem refresh_bypasses_cache (env : commands.Env) (zdClient : client.Client)
  {A : Type} (decode : string -> option A) (cacheKey path : string)
  (statusErr : Z -> string -> client.error) (w : World) :
  commands.getClientFromFlags env true = inl zdClient ->
  client.cache zdClient = None
  /\ files (snd (client.cachedRead (commands.clientEnv env) decode zdClient
                   cacheKey path statusErr w)) = files w
  /\ ticks (snd (client.cachedRead (commands.clientEnv env) decode zdClient
                   cacheKey path statusErr w)) = ticks w
  /\ sent (snd (client.cachedRead (commands.clientEnv env) decode zdClient
                  cacheKey path statusErr w))
     = match client.NewRequestErr (commands.clientEnv env)
               (client.GetBaseURL zdClient +:+ path) with
       | Some _ => sent w
       | None =>
           sent w ++ [http.mkRequest http.MethodGet
                        (client.GetBaseURL zdClient +:+ path)
                        (client.authHeader zdClient) None]
       end.
Proof.
  intros Hclient.
  assert (Hnone : client.cache zdClient = None
                  /\ client.cacheInUse zdClient = None).
  { unfold commands.getClientFromFlags in Hclient.
    destruct (commands.current env) as [instance|]; [|discriminate].
    unfold client.NewClientWithCache in Hclient. cbn [negb] in Hclient.
    repeat (destruct (decide _) in Hclient);
      repeat (destruct (auth.ValidateTokenAuth _ _) in Hclient;
              try discriminate);
      repeat (destruct (auth.ValidateOAuthToken _ _ _) in Hclient;
              try discriminate);
      repeat (destruct (auth.ValidateOAuthConfig _ _) in Hclient;
              try discriminate);
      try discriminate; injection Hclient as <-; split; reflexivity. }
  destruct Hnone as [Hcache Huse]. split; [exact Hcache|].
  apply cachedRead_without_cache. exact Huse.
Qed.

Lemma refresh_bypasses_cache_witness :
  client.cache demo.refreshClient = None
  /\ files (snd (client.GetTicket demo.clientEnv demo.refreshClient 500
                   demo.cachedWorld)) = files demo.cachedWorld
  /\ ticks (snd (client.GetTicket demo.clientEnv demo.refreshClient 500
                   demo.cachedWorld)) = ticks demo.cachedWorld
  /\ sent (snd (client.GetTicket demo.clientEnv demo.refreshClient 500
                  demo.cachedWorld))
     = match client.NewRequestErr demo.clientEnv
               (client.GetBaseURL demo.refreshClient +:+ "/tickets/500.json")
       with
       | Some _ => sent demo.cachedWorld
       | None =>
           sent demo.cachedWorld
           ++ [http.mkRequest http.MethodGet
                 (client.GetBaseURL demo.refreshClient
                  +:+ "/tickets/500.json")
                 (client.authHeader demo.refreshClient) None]
       end.
Proof.
  apply (refresh_bypasses_cache demo.env demo.refreshClient
           (client.Unmarshal demo.clientEnv client.TicketResponse)
           (client.ticketKey demo.refreshClient 500) "/tickets/500.json"
           (client.failedTo "get ticket") demo.cachedWorld).
  vm_compute. reflexivity.
Defined.

(** ** Writes of a user invalidate the entry of that user *)

(** The key of a user is not the key of the authenticated user. *)
Lemma userKey_not_me (c : client.Client) (userID : Z) :
  client.userMeKey c <> client.userKey c userID.
Proof.
  unfold client.userMeKey, client.userKey. intros Heq.
  apply (String.app_inj (client.subdomain c)) in Heq.
  rewrite !string_app_cons, !string_app_nil in Heq. injection Heq as Heq.
  symmetry in Heq. revert Heq. apply itoa_head; [reflexivity | discriminate].
Qed.

Section UserWrites.
Variable env : client.Env.
Variable UserResponse : Type.
Variable UnmarshalUser : string -> option UserResponse.
Variable c : client.Client.
Variable userID : Z.

Let cenv := client.cacheEnv env.
Let key := client.userKey c userID.
Let url := client.GetBaseURL c +:+ "/users/" +:+ itoa userID +:+ ".json".

(** The files that a write of the user leaves. *)
Let invalidated (w : World) : gmap string string :=
  match client.cache c with
  | Some ch => delete (cache.keyToPath cenv ch key) (files w)
  | None => files w
  end.

Lemma makeUserRequest_ok (method path : string) (body : json)
  (w w' : World) (user : UserResponse) :
  client.makeUserRequest env UserResponse UnmarshalUser c method path body w
  = (inl user, w') ->
  client.NewRequestErr env (client.GetBaseURL c +:+ path) = None
  /\ w' = mkWorld (files w) (ticks w)
            (sent w ++ [http.mkRequest method (client.GetBaseURL c +:+ path)
                          (client.authHeader c) (Some body)]).
Proof.
  unfold client.makeUserRequest.
  destruct (client.NewRequestErr env _) as [err|]; [discriminate|].
  rewrite bind_eq. unfold client.httpClient_Do. cbn [fst snd].
  destruct (client.RoundTrip env _ _) as [resp|err]; [|discriminate].
  destruct (_ || _); [discriminate|].
  destruct (UnmarshalUser _); [|discriminate].
  unfold ret. intros [= _ <-]. split; reflexivity.
Qed.

(** The three methods that send a PUT for the user, by the body they
    send. *)
Lemma putUser_ok (body : json) (w w' : World) (user : UserResponse) :
  (r <- client.makeUserRequest env UserResponse UnmarshalUser c
          http.MethodPut ("/users/" +:+ itoa userID +:+ ".json") body ;;
   match r with
   | inr err => ret (inr err)
   | inl user =>
       match client.cache c with
       | Some ch => cache.Delete cenv ch (client.userKey c userID)
       | None => ret tt
       end ;;;
       ret (inl user)
   end) w = (inl user, w') ->
  client.NewRequestErr env url = None
  /\ ticks w' = ticks w
  /\ sent w' = sent w ++ [http.mkRequest http.MethodPut url
                            (client.authHeader c) (Some body)]
  /\ files w' = invalidated w.
Proof.
  rewrite bind_eq.
  destruct (client.makeUserRequest _ _ _ c _ _ _ w) as [[u|err] w1] eqn:Hreq;
    cbn [fst snd]; [|discriminate].
  apply makeUserRequest_ok in Hreq as [Hurl ->].
  rewrite bind_eq. unfold invalidated. destruct (client.cache c) as [ch|].
  - unfold cache.Delete. rewrite bind_eq. unfold os.Remove, ret.
    cbn [fst snd]. intros [= _ <-]. repeat split; assumption || reflexivity.
  - unfold ret. cbn [fst snd]. intros [= _ <-].
    repeat split; assumption || reflexivity.
Qed.

Lemma DeleteUser_ok (w w' : World) :
  client.DeleteUser env c userID w = (None, w') ->
  client.NewRequestErr env url = None
  /\ ticks w' = ticks w
  /\ sent w' = sent w ++ [http.mkRequest http.MethodDelete url
                            (client.authHeader c) None]
  /\ files w' = invalidated w.
Proof.
  unfold client.DeleteUser. fold url.
  destruct (client.NewRequestErr env url) as [err|]; [discriminate|].
  rewrite bind_eq. unfold client.httpClient_Do. cbn [fst snd].
  destruct (client.RoundTrip env _ _) as [resp|err]; [|discriminate].
  destruct (_ && _); [discriminate|].
  rewrite bind_eq. unfold invalidated. destruct (client.cache c) as [ch|].
  - unfold cache.Delete. rewrite bind_eq. unfold os.Remove, ret.
    cbn [fst snd]. intros [= <-]. repeat split; reflexivity.
  - unfold ret. cbn [fst snd]. intros [= <-]. repeat split; reflexivity.
Qed.

(** A successful [UpdateUser], [SuspendUser], [UnsuspendUser] or
    [DeleteUser] deletes the entry file of that user's key and changes no
    other file (it deletes nothing when the client has no cache), so the
    next [GetUser] of the user finds no entry and asks the server.  The
    entry of every key with another digest is as it was before, and the key
    of the authenticated user ([GetMe]) is another key: what [GetMe] has
    cached stays, also when the user written is the authenticated one. *)
Theorem user_writes_invalidate (w w' : World) :
  (exists req user,
     client.UpdateUser env UserResponse UnmarshalUser c userID req w
     = (inl user, w'))
  \/ (exists user,
        client.SuspendUser env UserResponse UnmarshalUser c userID w
        = (inl user, w'))
  \/ (exists user,
        client.UnsuspendUser env UserResponse UnmarshalUser c userID w
        = (inl user, w'))
  \/ client.DeleteUser env c userID w = (None, w') ->
  (forall ch, client.cache c = Some ch ->
     files w' = delete (cache.keyToPath cenv ch key) (files w)
     /\ snd (fst (cache.Get cenv ch key w')) = false)
  /\ (client.cache c = None -> files w' = files w)
  /\ sent (snd (client.GetUser env UserResponse UnmarshalUser c userID w'))
     = sent w' ++ [http.mkRequest http.MethodGet url (client.authHeader c)
                     None]
  /\ (forall ch k,
        client.cache c = Some ch ->
        cache.Sum256 cenv k <> cache.Sum256 cenv key ->
        files w' !! cache.keyToPath cenv ch k
        = files w !! cache.keyToPath cenv ch k)
  /\ client.userMeKey c <> key.
Proof.
  intros Hwrite.
  assert (Hok : client.NewRequestErr env url = None
                /\ files w' = invalidated w).
  { destruct Hwrite as [(req & user & H)|[(user & H)|[(user & H)|H]]].
    - apply (putUser_ok (client.updateUserBody req)) in H. tauto.
    - apply (putUser_ok (client.suspendedBody true)) in H. tauto.
    - apply (putUser_ok (client.suspendedBody false)) in H. tauto.
    - apply DeleteUser_ok in H. tauto. }
  destruct Hok as [Hurl Hfiles]. unfold invalidated in Hfiles.
  split; [|split; [|split; [|split]]].
  - intros ch Hch. rewrite Hch in Hfiles. split; [exact Hfiles|].
    rewrite Get_absent; [reflexivity|].
    rewrite Hfiles. apply lookup_delete_eq.
  - intros Hnone. rewrite Hnone in Hfiles. exact Hfiles.
  - unfold client.GetUser.
    assert (Hlook :
      (match client.cacheInUse c with
       | Some ch =>
           r <- cache.Get cenv ch (client.userKey c userID) ;;
           ret (if snd r then UnmarshalUser (fst r) else None)
       | None => ret None
       end) w' = (None, w')).
    { destruct (client.cacheInUse c) as [ch|] eqn:Huse; [|reflexivity].
      rewrite bind_eq, Get_absent; [reflexivity|].
      unfold client.cacheInUse in Huse.
      destruct (client.useCache c); [|discriminate].
      rewrite Hfiles, Huse. apply lookup_delete_eq. }
    rewrite (cachedRead_fetch env UserResponse UnmarshalUser c _ _ _ w' w'
               Hlook).
    fold url. rewrite Hurl. cbv zeta.
    destruct (client.RoundTrip env _ _) as [resp|err]; [|reflexivity].
    destruct (decide (http.StatusCode resp ≠ http.StatusOK)); [reflexivity|].
    destruct (http.ReadErr resp); [reflexivity|].
    destruct (UnmarshalUser (http.Body resp)); [|reflexivity].
    destruct (client.cacheInUse c); reflexivity.
  - intros ch k Hch Hdigest. rewrite Hfiles, Hch.
    apply lookup_delete_ne. intros Hpath. apply Hdigest. symmetry.
    exact (keyToPath_inj _ _ _ _ Hpath).
  - apply userKey_not_me.
Qed.

End UserWrites.

Lemma user_writes_invalidate_witness :
  snd (fst (cache.Get demo.cacheEnv demo.zdCache demo.userKey
              demo.suspendedWorld)) = false
  /\ files demo.suspendedWorld
       !! cache.keyToPath demo.cacheEnv demo.zdCache demo.meKey
     = Some "5000".
Proof.
  assert (Hrun :
    client.SuspendUser demo.clientEnv string demo.UnmarshalUser demo.zdClient
      7 demo.usersWorld = (inl "ok", demo.suspendedWorld))
    by (vm_compute; reflexivity).
  destruct (user_writes_invalidate demo.clientEnv string demo.UnmarshalUser
              demo.zdClient 7 demo.usersWorld demo.suspendedWorld
              (or_intror (or_introl (ex_intro _ "ok" Hrun))))
    as (Hdel & _ & _ & Hframe & _).
  split.
  - exact (proj2 (Hdel demo.zdCache eq_refl)).
  - etransitivity.
    + apply (Hframe demo.zdCache demo.meKey eq_refl).
      vm_compute. discriminate.
    + vm_compute. reflexivity.
Defined.

(** ** Which errors of the client can be classified *)


Lemma cachedRead_error {A : Type} (env : client.Env)
  (decode : string -> option A) (c : client.Client)
  (cacheKey path : string) (statusErr : Z -> string -> client.error)
  (w : World) (err : client.error) :
  fst (client.cachedRead env decode c cacheKey path statusErr w) = inr err ->
  (exists msg, err = client.Errorf msg)
  \/ (exists resp,
        client.RoundTrip env (sent w)
          (http.mkRequest http.MethodGet (client.GetBaseURL c +:+ path)
             (client.authHeader c) None) = inl resp
        /\ http.StatusCode resp <> http.StatusOK
        /\ err = statusErr (http.StatusCode resp) (http.Body resp)).
Proof.
  destruct ((match client.cacheInUse c with
             | Some ch =>
                 r <- cache.Get (client.cacheEnv env) ch cacheKey ;;
                 ret (if snd r then decode (fst r) else None)
             | None => ret None
             end) w) as [[doc|] w1] eqn:Hlook.
  - rewrite (cachedRead_found env A decode c cacheKey path statusErr w w1 doc
               Hlook). discriminate.
  - assert (Hsent : sent w1 = sent w).
    { destruct (client.cacheInUse c) as [ch|].
      - rewrite bind_eq in Hlook. injection Hlook as _ <-.
        apply cache_Get_sent.
      - injection Hlook as <-. reflexivity. }
    rewrite (cachedRead_fetch env A decode c cacheKey path statusErr w w1
               Hlook), Hsent.
    destruct (client.NewRequestErr env _);
      [intros [= <-]; left; eexists; reflexivity|]. cbv zeta.
    destruct (client.RoundTrip env _ _) as [resp|e];
      [|intros [= <-]; left; eexists; reflexivity].
    destruct (decide (http.StatusCode resp ≠ http.StatusOK)) as [Hst|].
    + intros [= <-]. right. exists resp. repeat split. exact Hst.
    + destruct (http.ReadErr resp);
        [intros [= <-]; left; eexists; reflexivity|].
      destruct (decode (http.Body resp));
        [discriminate|intros [= <-]; left; eexists; reflexivity].
Qed.

Lemma makeTicketRequest_error (env : client.Env) (c : client.Client)
  (method path : string) (body : json) (w : World) (err : client.error) :
  fst (client.makeTicketRequest env c method path body w) = inr err ->
  exists msg, err = client.Errorf msg.
Proof.
  unfold client.makeTicketRequest.
  destruct (client.NewRequestErr env _);
    [intros [= <-]; eexists; reflexivity|].
  rewrite bind_eq. unfold client.httpClient_Do. cbn [fst snd].
  destruct (client.RoundTrip env _ _) as [resp|e];
    [|intros [= <-]; eexists; reflexivity].
  destruct (_ || _); [intros [= <-]; eexists; reflexivity|].
  destruct (client.Unmarshal env _ _);
    [discriminate|intros [= <-]; eexists; reflexivity].
Qed.

(** The errors of the ticket methods are never classified.  Whatever the
    server answers to [GetTicket], [ListTickets], [SearchTickets],
    [CreateTicket] or [UpdateTicket], a status 401, 403, 404 or 429
    included, the error returned is a plain formatted error and none of
    [IsRateLimitError], [IsAuthError], [IsNotFoundError] holds of it. *)
Theorem ticket_errors_are_not_classified (env : client.Env)
  (c : client.Client) (w : World) (err : client.error) :
  (exists ticketID, fst (client.GetTicket env c ticketID w) = inr err)
  \/ (exists page perPage status,
        fst (client.ListTickets env c page perPage status w) = inr err)
  \/ (exists query, fst (client.SearchTickets env c query w) = inr err)
  \/ (exists req, fst (client.CreateTicket env c req w) = inr err)
  \/ (exists ticketID req,
        fst (client.UpdateTicket env c ticketID req w) = inr err) ->
  (exists msg, err = client.Errorf msg)
  /\ client.IsRateLimitError err = false
  /\ client.IsAuthError err = false
  /\ client.IsNotFoundError err = false.
Proof.
  intros Hop.
  assert (Hmsg : exists msg, err = client.Errorf msg).
  { destruct Hop as [(ticketID & H)|[(page & perPage & status & H)
                    |[(query & H)|[(req & H)|(ticketID & req & H)]]]].
    - apply (cachedRead_error env
               (client.Unmarshal env client.TicketResponse) c
               (client.ticketKey c ticketID)
               ("/tickets/" +:+ itoa ticketID +:+ ".json")
               (client.failedTo "get ticket")) in H
        as [Hmsg|(resp & _ & _ & ->)]; [exact Hmsg|eexists; reflexivity].
    - apply (cachedRead_error env
               (client.Unmarshal env client.TicketsResponse) c
               (client.ticketsListKey c page perPage status)
               (if decide (status ≠ "")
                then ("/tickets.json?page=" +:+ itoa page +:+ "&per_page="
                      +:+ itoa perPage)
                     +:+ "&status=" +:+ url.QueryEscape status
                else "/tickets.json?page=" +:+ itoa page +:+ "&per_page="
                     +:+ itoa perPage)
               (client.failedTo "list tickets")) in H
        as [Hmsg|(resp & _ & _ & ->)]; [exact Hmsg|eexists; reflexivity].
    - apply cachedRead_error in H
        as [Hmsg|(resp & _ & _ & ->)]; [exact Hmsg|eexists; reflexivity].
    - apply makeTicketRequest_error in H. exact H.
    - unfold client.UpdateTicket in H. rewrite bind_eq in H.
      destruct (client.makeTicketRequest env c _ _ _ w) as [[t|e] w1] eqn:Hreq;
        cbn [fst snd] in H.
      + rewrite bind_eq in H. discriminate.
      + injection H as <-.
        apply (makeTicketRequest_error env c http.MethodPut
                 ("/tickets/" +:+ itoa ticketID +:+ ".json")
                 (client.updateBody req) w).
        rewrite Hreq. reflexivity. }
  split; [exact Hmsg|]. destruct Hmsg as [msg ->]. repeat split.
Qed.

Lemma ticket_errors_are_not_classified_witness :
  (exists msg,
     client.Errorf "failed to get ticket (status 404): {}"
     = client.Errorf msg)
  /\ client.IsRateLimitError
       (client.Errorf "failed to get ticket (status 404): {}") = false
  /\ client.IsAuthError
       (client.Errorf "failed to get ticket (status 404): {}") = false
  /\ client.IsNotFoundError
       (client.Errorf "failed to get ticket (status 404): {}") = false.
Proof.
  apply (ticket_errors_are_not_classified demo.missingEnv demo.zdClient
           demo.emptyWorld).
  left. exists 500. vm_compute. reflexivity.
Defined.

Section UserErrors.
Variable env : client.Env.
Variable UserResponse : Type.
Variable UnmarshalUser : string -> option UserResponse.
Variable c : client.Client.
Variable userID : Z.

Lemma sent_one_more (l : list http.Request) (r : http.Request) :
  l <> l ++ [r].
Proof.
  intros H. apply (f_equal length) in H. rewrite length_app in H.
  cbn in H. lia.
Qed.





End UserErrors.


(** ** What the client sends, and where *)


Section OwnRequests.
Variable env : client.Env.
Variable UserResponse : Type.
Variable UnmarshalUser : string -> option UserResponse.
Variable c : client.Client.

Let request (method path : string) (body : option json) : http.Request :=
  http.mkRequest method (client.GetBaseURL c +:+ path) (client.authHeader c)
    body.




Lemma makeTicketRequest_world (method path : string) (body : json)
  (w : World) :
  snd (client.makeTicketRequest env c method path body w) = w
  \/ snd (client.makeTicketRequest env c method path body w)
     = mkWorld (files w) (ticks w)
         (sent w ++ [request method path (Some body)]).
Proof.
  unfold client.makeTicketRequest.
  destruct (client.NewRequestErr env _); [left; reflexivity|].
  right. rewrite bind_eq. unfold client.httpClient_Do. cbn [fst snd].
  destruct (client.RoundTrip env _ _) as [resp|e]; [|reflexivity].
  destruct (_ || _); [reflexivity|].
  destruct (client.Unmarshal env _ _); reflexivity.
Qed.

Lemma makeUserRequest_world (method path : string) (body : json)
  (w : World) :
  snd (client.makeUserRequest env UserResponse UnmarshalUser c method path
         body w) = w
  \/ snd (client.makeUserRequest env UserResponse UnmarshalUser c method path
            body w)
     = mkWorld (files w) (ticks w)
         (sent w ++ [request method path (Some body)]).
Proof.
  unfold client.makeUserRequest.
  destruct (client.NewRequestErr env _); [left; reflexivity|].
  right. rewrite bind_eq. unfold client.httpClient_Do. cbn [fst snd].
  destruct (client.RoundTrip env _ _) as [resp|e]; [|reflexivity].
  destruct (_ || _); [reflexivity|].
  destruct (UnmarshalUser _); reflexivity.
Qed.

(** A write followed by the invalidation of an entry sends what the write
    sends. *)
Lemma invalidating_sent {A : Type} (m : M (A + client.error))
  (key : string) (w : World) :
  sent (snd ((r <- m ;;
              match r with
              | inr err => ret (inr err)
              | inl doc =>
                  match client.cache c with
                  | Some ch => cache.Delete (client.cacheEnv env) ch key
                  | None => ret tt
                  end ;;;
                  ret (inl doc)
              end) w))
  = sent (snd (m w)).
Proof.
  rewrite bind_eq. destruct (m w) as [[doc|err] w1]; cbn [fst snd];
    [|reflexivity].
  rewrite bind_eq. destruct (client.cache c); reflexivity.
Qed.

Lemma DeleteUser_sent (userID : Z) (w : World) :
  sent (snd (client.DeleteUser env c userID w)) = sent w
  \/ sent (snd (client.DeleteUser env c userID w))
     = sent w ++ [request http.MethodDelete
                    ("/users/" +:+ itoa userID +:+ ".json") None].
Proof.
  unfold client.DeleteUser.
  destruct (client.NewRequestErr env _); [left; reflexivity|].
  right. rewrite bind_eq. unfold client.httpClient_Do. cbn [fst snd].
  destruct (client.RoundTrip env _ _) as [resp|e]; [|reflexivity].
  destruct (_ && _); [reflexivity|].
  rewrite bind_eq. destruct (client.cache c); reflexivity.
Qed.


End OwnRequests.

(** ** Creations leave the cache as it is *)

Lemma cache_Get_ignores_sent (cenv : cache.Env) (ch : cache.Cache)
  (key : string) (f : gmap string string) (t : nat)
  (s s' : list http.Request) :
  cache.Get cenv ch key (mkWorld f t s)
  = (fst (cache.Get cenv ch key (mkWorld f t s')),
     mkWorld (files (snd (cache.Get cenv ch key (mkWorld f t s'))))
       (ticks (snd (cache.Get cenv ch key (mkWorld f t s')))) s).
Proof.
  unfold cache.Get. rewrite !bind_eq. unfold os.ReadFile. cbn [fst snd files].
  destruct (f !! _) as [data|]; [|reflexivity].
  destruct (cache.Unmarshal cenv data) as [entry|]; [|reflexivity].
  rewrite !bind_eq. unfold cache.time_Now. cbn [fst snd ticks files sent].
  destruct (time.After _ _); reflexivity.
Qed.

Section Creations.
Variable env : client.Env.
Variable UserResponse : Type.
Variable UnmarshalUser : string -> option UserResponse.
Variable c : client.Client.

Lemma cachedRead_ignores_sent {A : Type} (decode : string -> option A)
  (cacheKey path : string) (statusErr : Z -> string -> client.error)
  (w : World) (l : list http.Request) :
  sent (snd (client.cachedRead env decode c cacheKey path statusErr w))
  = sent w ->
  fst (client.cachedRead env decode c cacheKey path statusErr
         (mkWorld (files w) (ticks w) (sent w ++ l)))
  = fst (client.cachedRead env decode c cacheKey path statusErr w).
Proof.
  intros Hquiet.
  set (lookup := match client.cacheInUse c with
                 | Some ch =>
                     r <- cache.Get (client.cacheEnv env) ch cacheKey ;;
                     ret (if snd r then decode (fst r) else None)
                 | None => ret None
                 end).
  assert (Hsame : fst (lookup (mkWorld (files w) (ticks w) (sent w ++ l)))
                  = fst (lookup w)
                  /\ sent (snd (lookup w)) = sent w).
  { unfold lookup. destruct (client.cacheInUse c) as [ch|];
      [|split; reflexivity].
    rewrite !bind_eq. cbn [fst snd].
    rewrite (cache_Get_ignores_sent _ ch cacheKey (files w) (ticks w)
               (sent w ++ l) (sent w)).
    cbn [fst snd]. destruct w as [f t s]. cbn [files ticks sent].
    split; [reflexivity|]. apply cache_Get_sent. }
  destruct Hsame as [Hfst Hsent].
  destruct (lookup w) as [hit w0] eqn:Hw.
  destruct (lookup (mkWorld (files w) (ticks w) (sent w ++ l)))
    as [hit' w0'] eqn:Hw'.
  cbn [fst snd] in Hfst, Hsent. subst hit'. destruct hit as [doc|].
  - rewrite (cachedRead_found env A decode c cacheKey path statusErr _ _ doc
               Hw),
      (cachedRead_found env A decode c cacheKey path statusErr _ _ doc Hw').
    reflexivity.
  - rewrite (cachedRead_fetch env A decode c cacheKey path statusErr _ _ Hw)
      in Hquiet |- *.
    rewrite (cachedRead_fetch env A decode c cacheKey path statusErr _ _ Hw').
    destruct (client.NewRequestErr env _); [reflexivity|]. exfalso.
    cbv zeta in Hquiet.
    assert (Hmore : sent w0 ++ [http.mkRequest http.MethodGet
                                  (client.GetBaseURL c +:+ path)
                                  (client.authHeader c) None] = sent w).
    { rewrite <- Hquiet.
      destruct (client.RoundTrip env _ _) as [resp|e]; [|reflexivity].
      destruct (decide (http.StatusCode resp ≠ http.StatusOK));
        [reflexivity|].
      destruct (http.ReadErr resp); [reflexivity|].
      destruct (decode (http.Body resp)); [|reflexivity].
      destruct (client.cacheInUse c); reflexivity. }
    rewrite Hsent in Hmore. symmetry in Hmore.
    exact (sent_one_more _ _ Hmore).
Qed.

(** [CreateTicket] and [CreateUser] change no file and do not read the
    clock: they invalidate nothing.  So whatever read the cache answered
    before the creation, a list of tickets or of users for instance, it
    answers the same after it, and what was created does not show in it
    until the entry expires. *)
Theorem creations_invalidate_nothing (w w1 : World) :
  (exists req, w1 = snd (client.CreateTicket env c req w))
  \/ (exists req,
        w1 = snd (client.CreateUser env UserResponse UnmarshalUser c req w)) ->
  files w1 = files w
  /\ ticks w1 = ticks w
  /\ forall (A : Type) (decode : string -> option A) cacheKey path statusErr,
       sent (snd (client.cachedRead env decode c cacheKey path statusErr w))
       = sent w ->
       fst (client.cachedRead env decode c cacheKey path statusErr w1)
       = fst (client.cachedRead env decode c cacheKey path statusErr w).
Proof.
  intros Hop.
  assert (Hw1 : exists l, w1 = mkWorld (files w) (ticks w) (sent w ++ l)).
  { destruct Hop as [(req & ->)|(req & ->)].
    - destruct (makeTicketRequest_world env c http.MethodPost "/tickets.json"
                  (client.createBody req) w) as [H|H].
      + exists []. unfold client.CreateTicket. rewrite H, app_nil_r.
        destruct w; reflexivity.
      + eexists. exact H.
    - destruct (makeUserRequest_world env UserResponse UnmarshalUser c
                  http.MethodPost "/users.json" (client.createUserBody req) w)
        as [H|H].
      + exists []. unfold client.CreateUser. rewrite H, app_nil_r.
        destruct w; reflexivity.
      + eexists. exact H. }
  destruct Hw1 as [l ->]. split; [reflexivity|]. split; [reflexivity|].
  intros A decode cacheKey path statusErr.
  apply cachedRead_ignores_sent.
Qed.

End Creations.

Lemma creations_invalidate_nothing_witness :
  files (snd (client.CreateTicket demo.clientEnv demo.zdClient
                (client.mkCreateTicketRequest "s" "d" "" "" "" None None [])
                demo.cachedWorld))
  = files demo.cachedWorld
  /\ ticks (snd (client.CreateTicket demo.clientEnv demo.zdClient
                   (client.mkCreateTicketRequest "s" "d" "" "" "" None None [])
                   demo.cachedWorld))
     = ticks demo.cachedWorld
  /\ forall (A : Type) (decode : string -> option A) cacheKey path statusErr,
       sent (snd (client.cachedRead demo.clientEnv decode demo.zdClient
                    cacheKey path statusErr demo.cachedWorld))
       = sent demo.cachedWorld ->
       fst (client.cachedRead demo.clientEnv decode demo.zdClient cacheKey
              path statusErr
              (snd (client.CreateTicket demo.clientEnv demo.zdClient
                      (client.mkCreateTicketRequest "s" "d" "" "" "" None None
                         [])
                      demo.cachedWorld)))
       = fst (client.cachedRead demo.clientEnv decode demo.zdClient cacheKey
                path statusErr demo.cachedWorld).
Proof.
  apply (creations_invalidate_nothing demo.clientEnv string demo.UnmarshalUser
           demo.zdClient demo.cachedWorld).
  left. eexists. reflexivity.
Defined.

(** ** The envelope of the retry helper *)

Section RetryEnvelope.
Variable fn : nat -> http.Response + string.
Variable ctxDone : nat -> bool.

Let config := client.DefaultRetryConfig.

(** What holds of the steps and of the outcome of the loop entered at
    [attempt] with [remaining] iterations left. *)
Let within (attempt remaining : nat) (result : list client.step * client.outcome)
  : Prop :=
  (forall d, In (client.Wait d) (fst result) -> d <= client.MaxBackoff config)
  /\ ((client.calls (fst result) <= remaining)%nat
      /\ (length (fst result) <= 2 * client.calls (fst result))%nat)
  /\ match snd result with
     | client.Returned resp =>
         http.StatusCode resp < 500
         /\ http.StatusCode resp <> http.StatusTooManyRequests
         /\ exists k, (attempt <= k < attempt + remaining)%nat
                      /\ fn k = inl resp
     | client.Cancelled =>
         exists k, (attempt <= k < attempt + remaining)%nat
                   /\ ctxDone k = true
     | client.GaveUp _ =>
         forall k, (attempt <= k < attempt + remaining)%nat ->
                   client.retried (fn k)
     end.

Lemma backoffOf_le (attempt : nat) :
  client.backoffOf config attempt <= client.MaxBackoff config.
Proof.
  unfold client.backoffOf.
  destruct (Z.gtb_spec (client.InitialBackoff config * 2 ^ Z.of_nat attempt)
              (client.MaxBackoff config)); lia.
Qed.

Lemma retryAfterOf_le (seconds : Z) :
  client.retryAfterOf config seconds <= client.MaxBackoff config.
Proof.
  unfold client.retryAfterOf.
  destruct (Z.gtb_spec (wrap64 (seconds * time.Second))
              (client.MaxBackoff config)); lia.
Qed.

Lemma loop_within (remaining attempt : nat) (lastErr : string) :
  (attempt + remaining = 4)%nat ->
  within attempt remaining
    (client.loop fn ctxDone config remaining attempt lastErr).
Proof.
  revert attempt lastErr.
  induction remaining as [|r IH]; intros attempt lastErr Hsum.
  { split; [intros d []|]. split; [cbn; lia|]. cbn. intros k Hk. lia. }
  assert (Hcont : forall lastErr' d,
    d <= client.MaxBackoff config ->
    client.retried (fn attempt) ->
    within attempt (S r)
      (if ctxDone attempt
       then ([client.Call; client.Wait d], client.Cancelled)
       else
         let '(steps, out) :=
           client.loop fn ctxDone config r (S attempt) lastErr' in
         (client.Call :: client.Wait d :: steps, out))).
  { intros lastErr' d Hd Hretried.
    destruct (ctxDone attempt) eqn:Hdone.
    - split; [|split].
      + intros d' [H|[H|[]]]; [discriminate|]. injection H as <-. exact Hd.
      + cbn. lia.
      + exists attempt. split; [lia|exact Hdone].
    - destruct (IH (S attempt) lastErr' ltac:(lia)) as (Hw & Hlen & Hout).
      destruct (client.loop fn ctxDone config r (S attempt) lastErr')
        as [steps out].
      cbn [fst snd] in *. unfold within. cbn [fst snd]. split; [|split].
      + intros d' [H|[H|H]]; [discriminate| |exact (Hw d' H)].
        injection H as <-. exact Hd.
      + cbn [length client.calls]. lia.
      + destruct out as [resp| |msg].
        * destruct Hout as (H1 & H2 & k & Hk & Hfn).
          split; [exact H1|]. split; [exact H2|]. exists k. split; [lia|].
          exact Hfn.
        * destruct Hout as (k & Hk & Hdone'). exists k. split; [lia|].
          exact Hdone'.
        * intros k Hk. destruct (decide (k = attempt)) as [->|Hne];
            [exact Hretried|]. apply Hout. lia. }
  assert (Hback : forall lastErr',
    client.retried (fn attempt) ->
    within attempt (S r)
      (if decide (Z.of_nat attempt = client.MaxRetries config)
       then ([client.Call], client.giveUp config lastErr')
       else
         if ctxDone attempt
         then ([client.Call; client.Wait (client.backoffOf config attempt)],
               client.Cancelled)
         else
           let '(steps, out) :=
             client.loop fn ctxDone config r (S attempt) lastErr' in
           (client.Call
            :: client.Wait (client.backoffOf config attempt) :: steps, out))).
  { intros lastErr' Hretried.
    destruct (decide (Z.of_nat attempt = client.MaxRetries config))
      as [Hlast|Hmore]; [|apply Hcont; [apply backoffOf_le|exact Hretried]].
    change (client.MaxRetries config) with 3 in Hlast.
    split; [|split].
    - intros d [H|[]]. discriminate.
    - cbn. lia.
    - cbn. intros k Hk. replace k with attempt by lia. exact Hretried. }
  cbn [client.loop].
  destruct (fn attempt) as [resp|err] eqn:Hfn; [|apply Hback; exact I].
  destruct ((http.StatusCode resp <? 500)
            && negb (http.StatusCode resp =? http.StatusTooManyRequests))
    eqn:Hgood.
  { apply andb_true_iff in Hgood as [Hlt Hne].
    apply negb_true_iff in Hne. split; [|split].
    - intros d [H|[]]. discriminate.
    - cbn. lia.
    - cbn [snd]. split; [lia|]. split; [lia|]. exists attempt.
      split; [lia|exact Hfn]. }
  assert (Hretried : client.retried (inl resp)).
  { cbn. apply andb_false_iff in Hgood as [Hge|Heq].
    - left. lia.
    - right. apply negb_false_iff in Heq. lia. }
  destruct (http.StatusCode resp =? http.StatusTooManyRequests);
    [|apply Hback; exact Hretried].
  destruct (decide (http.RetryAfter resp ≠ ""));
    [|apply Hback; exact Hretried].
  destruct (strconv.Atoi _) as [seconds|];
    [apply Hcont; [apply retryAfterOf_le|exact Hretried]
    |apply Hback; exact Hretried].
Qed.

(** Whatever [fn] answers and whenever the context is done, the retry helper
    stays within bounds: no wait is longer than the ceiling of 30 seconds
    (a [Retry-After] header cannot make it wait longer), it calls [fn] at
    most four times and its steps are at most twice its calls, so it waits
    at most four times; a response it returns was answered by one of the
    calls and has neither a status of 500 or more nor status 429; it
    returns the error of the context only when the context was done during
    a wait; and it gives up only when every call ended in a transport
    error, a status of 500 or more, or status 429. *)
Theorem RetryWithBackoff_stays_within_bounds :
  (forall d,
     In (client.Wait d) (fst (client.RetryWithBackoff fn ctxDone)) ->
     d <= 30 * time.Second)
  /\ ((client.calls (fst (client.RetryWithBackoff fn ctxDone)) <= 4)%nat
      /\ (length (fst (client.RetryWithBackoff fn ctxDone))
          <= 2 * client.calls (fst (client.RetryWithBackoff fn ctxDone)))%nat)
  /\ match snd (client.RetryWithBackoff fn ctxDone) with
     | client.Returned resp =>
         http.StatusCode resp < 500
         /\ http.StatusCode resp <> http.StatusTooManyRequests
         /\ exists k, (k < 4)%nat /\ fn k = inl resp
     | client.Cancelled => exists k, (k < 4)%nat /\ ctxDone k = true
     | client.GaveUp _ => forall k, (k < 4)%nat -> client.retried (fn k)
     end.
Proof.
  destruct (loop_within 4 0 "" eq_refl) as (Hw & Hlen & Hout).
  change (client.loop fn ctxDone config 4 0 "")
    with (client.RetryWithBackoff fn ctxDone) in *.
  split; [exact Hw|]. split; [exact Hlen|].
  destruct (snd (client.RetryWithBackoff fn ctxDone)) as [resp| |msg].
  - destruct Hout as (H1 & H2 & k & Hk & Hfn). split; [exact H1|].
    split; [exact H2|]. exists k. split; [lia|exact Hfn].
  - destruct Hout as (k & Hk & Hdone). exists k. split; [lia|exact Hdone].
  - intros k Hk. apply Hout. lia.
Qed.

(** [ShouldRetry] and the retry loop agree on every status below 600: the
    loop returns a response at once exactly when [ShouldRetry] is false of
    its status.  They part on a status of 600 or more, which [ShouldRetry]
    does not retry and the loop does. *)
Theorem ShouldRetry_agrees_below_600 (remaining attempt : nat)
  (lastErr : string) (resp : http.Response) :
  fn attempt = inl resp ->
  (http.StatusCode resp < 600 ->
   (client.ShouldRetry (http.StatusCode resp) = false <->
    client.loop fn ctxDone config (S remaining) attempt lastErr
    = ([client.Call], client.Returned resp)))
  /\ (600 <= http.StatusCode resp ->
      client.ShouldRetry (http.StatusCode resp) = false
      /\ client.loop fn ctxDone config (S remaining) attempt lastErr
         <> ([client.Call], client.Returned resp)).
Proof.
  intros Hfn.
  assert (Hloop :
    client.loop fn ctxDone config (S remaining) attempt lastErr
    = ([client.Call], client.Returned resp)
    <-> http.StatusCode resp < 500
        /\ http.StatusCode resp <> http.StatusTooManyRequests).
  { split.
    - cbn [client.loop]. rewrite Hfn.
      destruct ((http.StatusCode resp <? 500)
                && negb (http.StatusCode resp
                         =? http.StatusTooManyRequests)) eqn:Hgood.
      + intros _. apply andb_true_iff in Hgood as [Hlt Hne].
        apply negb_true_iff in Hne. lia.
      + assert (Hnot : forall result : list client.step * client.outcome,
          (snd result = client.Cancelled
           \/ (exists msg, snd result = client.GaveUp msg)
           \/ (2 <= length (fst result))%nat) ->
          result <> ([client.Call], client.Returned resp)).
        { intros result Hcases ->. cbn in Hcases.
          destruct Hcases as [H|[[msg H]|H]];
            [discriminate|discriminate|lia]. }
        assert (Hcont : forall lastErr' d,
          (if ctxDone attempt
           then ([client.Call; client.Wait d], client.Cancelled)
           else
             let '(steps, out) :=
               client.loop fn ctxDone config remaining (S attempt) lastErr' in
             (client.Call :: client.Wait d :: steps, out))
          <> ([client.Call], client.Returned resp)).
        { intros lastErr' d. apply Hnot.
          destruct (ctxDone attempt); [left; reflexivity|].
          destruct (client.loop fn ctxDone config remaining (S attempt)
                      lastErr').
          right. right. cbn. lia. }
        assert (Hback : forall lastErr',
          (if decide (Z.of_nat attempt = client.MaxRetries config)
           then ([client.Call], client.giveUp config lastErr')
           else
             if ctxDone attempt
             then ([client.Call;
                    client.Wait (client.backoffOf config attempt)],
                   client.Cancelled)
             else
               let '(steps, out) :=
                 client.loop fn ctxDone config remaining (S attempt)
                   lastErr' in
               (client.Call
                :: client.Wait (client.backoffOf config attempt) :: steps,
                out))
          <> ([client.Call], client.Returned resp)).
        { intros lastErr'. destruct (decide _); [|apply Hcont].
          apply Hnot. right. left. eexists. reflexivity. }
        intros Hres. exfalso. revert Hres.
        destruct (http.StatusCode resp =? http.StatusTooManyRequests);
          [|apply Hback].
        destruct (decide (http.RetryAfter resp ≠ "")); [|apply Hback].
        destruct (strconv.Atoi _); [apply Hcont|apply Hback].
    - intros [Hlt Hne]. cbn [client.loop]. rewrite Hfn.
      replace ((http.StatusCode resp <? 500)
               && negb (http.StatusCode resp =? http.StatusTooManyRequests))
        with true; [reflexivity|].
      symmetry. apply andb_true_iff. split; [lia|].
      apply negb_true_iff. lia. }
  assert (Hshould :
    client.ShouldRetry (http.StatusCode resp) = false
    <-> http.StatusCode resp <> http.StatusTooManyRequests
        /\ (http.StatusCode resp < 500 \/ 600 <= http.StatusCode resp)).
  { unfold client.ShouldRetry.
    destruct (Z.eqb_spec (http.StatusCode resp) http.StatusTooManyRequests)
      as [Heq|Hne].
    - split; [discriminate|]. intros [H _]. contradiction.
    - destruct (Z.geb_spec (http.StatusCode resp) 500),
               (Z.ltb_spec (http.StatusCode resp) 600); cbn [andb];
        split; try discriminate; try (intros _; split; [assumption|lia]);
        try (intros [_ [?|?]]; lia); reflexivity. }
  unfold http.StatusTooManyRequests in *. split.
  - intros Hlt. rewrite Hloop, Hshould. lia.
  - intros Hge. split; [apply Hshould; lia|]. rewrite Hloop. lia.
Qed.

End RetryEnvelope.

Lemma ShouldRetry_agrees_below_600_witness :
  (http.StatusCode demo.unavailable < 600 ->
   (client.ShouldRetry (http.StatusCode demo.unavailable) = false <->
    client.loop (fun _ => inl demo.unavailable) demo.patient
      client.DefaultRetryConfig 4 0 ""
    = ([client.Call], client.Returned demo.unavailable)))
  /\ (600 <= http.StatusCode demo.unavailable ->
      client.ShouldRetry (http.StatusCode demo.unavailable) = false
      /\ client.loop (fun _ => inl demo.unavailable) demo.patient
           client.DefaultRetryConfig 4 0 ""
         <> ([client.Call], client.Returned demo.unavailable)).
Proof.
  apply (ShouldRetry_agrees_below_600 (fun _ => inl demo.unavailable)
           demo.patient 3 0 "" demo.unavailable).
  reflexivity.
Defined.

(** ** The token of the OAuth flow *)

Section OAuthToken.
Variable Token : Type.
Variable Exchange : string -> Token + string.

(** A code channel that holds a code keeps it. *)
Lemma deliver_held (state : string) (requests : list url.Values)
  (held : string) (errChan : option string) :
  fst (auth.deliver state requests (Some held) errChan) = Some held.
Proof.
  revert errChan. induction requests as [|query rest IH]; intros errChan;
    [reflexivity|].
  cbn [auth.deliver]. destruct (snd (auth.callback state query)); apply IH.
Qed.

(** The code the channel holds in the end is that of the first callback the
    handler accepts. *)
Lemma deliver_first (state : string) (requests : list url.Values)
  (errChan : option string) (code : string) :
  fst (auth.deliver state requests None errChan) = Some code ->
  exists before query after,
    requests = before ++ query :: after
    /\ (forall q c, In q before ->
          snd (auth.callback state q) <> auth.toCodeChan c)
    /\ snd (auth.callback state query) = auth.toCodeChan code.
Proof.
  revert errChan. induction requests as [|query rest IH]; intros errChan.
  - discriminate.
  - cbn [auth.deliver].
    destruct (snd (auth.callback state query)) as [code'|err] eqn:Hsig.
    + cbn [auth.send]. rewrite deliver_held. intros [= ->].
      exists [], query, rest. split; [reflexivity|]. split; [|exact Hsig].
      intros q c [].
    + intros Hcode. apply IH in Hcode
        as (before & q0 & after & -> & Hbefore & Hq0).
      exists (query :: before), q0, after. split; [reflexivity|].
      split; [|exact Hq0]. intros q c [<-|Hin]; [congruence|].
      apply Hbefore, Hin.
Qed.

(** The flow returns a token only as the answer of the token endpoint to
    the code of the first callback that the handler accepts: a callback
    that carries the issued state, no [error] parameter and a code that is
    not empty.  The callbacks before it were all refused, those after it
    are not looked at, and that code is the only one the flow passes to the
    token endpoint. *)
Theorem token_comes_from_first_accepted_callback (run : auth.Run)
  (token : Token) :
  fst (auth.PerformOAuthFlow Token Exchange run) = inl token ->
  exists before query after code,
    auth.requests run = before ++ query :: after
    /\ (forall q c, In q before ->
          snd (auth.callback (auth.state (auth.started run)) q)
          <> auth.toCodeChan c)
    /\ url.Get query "state" = auth.state (auth.started run)
    /\ url.Get query "error" = ""
    /\ url.Get query "code" = code
    /\ code <> ""
    /\ Exchange code = inl token
    /\ auth.exchanged (snd (auth.PerformOAuthFlow Token Exchange run))
       = [code].
Proof.
  unfold auth.PerformOAuthFlow.
  destruct (auth.deliver _ _ _ _) as [codeChan errChan] eqn:Hdel.
  destruct (auth.select _ _ _) as [code| | |] eqn:Hsel; try discriminate.
  apply select_code in Hsel. subst codeChan.
  assert (Hfst :
    fst (auth.deliver (auth.state (auth.started run)) (auth.requests run)
           None
           match auth.serverErr run with
           | Some err => Some ("failed to start callback server: " +:+ err)
           | None => None
           end) = Some code) by (rewrite Hdel; reflexivity).
  apply deliver_first in Hfst as (before & query & after & Hreq & Hbefore
                                  & Hsig).
  apply callback_code in Hsig as (Hst & Herr & Hcode & Hne).
  destruct (Exchange code) as [token'|err] eqn:Hex; [|discriminate].
  cbn [fst snd auth.exchanged]. intros [= ->].
  exists before, query, after, code. repeat split; assumption.
Qed.

End OAuthToken.

Lemma token_comes_from_first_accepted_callback_witness :
  exists before query after code,
    auth.requests demo.acceptedRun = before ++ query :: after
    /\ (forall q c, In q before ->
          snd (auth.callback (auth.state (auth.started demo.acceptedRun)) q)
          <> auth.toCodeChan c)
    /\ url.Get query "state" = auth.state (auth.started demo.acceptedRun)
    /\ url.Get query "error" = ""
    /\ url.Get query "code" = code
    /\ code <> ""
    /\ demo.Exchange code = inl "token-for-abc"
    /\ auth.exchanged
         (snd (auth.PerformOAuthFlow string demo.Exchange demo.acceptedRun))
       = [code].
Proof.
  apply (token_comes_from_first_accepted_callback string demo.Exchange
           demo.acceptedRun "token-for-abc").
  vm_compute. reflexivity.
Defined.

(** ** Deleting a user asks first *)

(** Without [--force], [zd user delete] sends something only after the
    prompt was answered with "yes" in some spelling of upper and lower
    case, and then what it sends is one DELETE request for the user whose
    id is the argument, with the credentials of the current instance. *)
Theorem runUserDelete_needs_confirmation (env : commands.Env) (arg : string)
  (w : World) :
  sent (snd (commands.runUserDelete env arg false w)) <> sent w ->
  exists confirm userID zdClient,
    commands.promptString env "Type 'yes' to confirm" = inl confirm
    /\ strings.ToLower confirm = "yes"
    /\ strconv.Atoi arg = Some userID
    /\ commands.getClientFromFlags env false = inl zdClient
    /\ sent (snd (commands.runUserDelete env arg false w))
       = sent w ++ [http.mkRequest http.MethodDelete
                      (client.GetBaseURL zdClient +:+ "/users/"
                       +:+ itoa userID +:+ ".json")
                      (client.authHeader zdClient) None].
Proof.
  unfold commands.runUserDelete.
  destruct (commands.getClientFromFlags env false) as [zdClient|err];
    [|intros H; destruct H; reflexivity].
  destruct (strconv.Atoi arg) as [userID|];
    [|intros H; destruct H; reflexivity].
  cbn [negb].
  destruct (commands.promptString env "Type 'yes' to confirm")
    as [confirm|err]; [|intros H; destruct H; reflexivity].
  destruct (bool_decide (strings.ToLower confirm = "yes")) eqn:Hyes;
    [|intros H; destruct H; reflexivity].
  apply bool_decide_eq_true in Hyes. rewrite bind_eq. intros Hsent.
  exists confirm, userID, zdClient. repeat split; try assumption.
  assert (Hsame :
    sent (snd (match fst (client.DeleteUser (commands.clientEnv env) zdClient
                            userID w) with
               | Some err =>
                   ret (commands.DeletionFailed
                          ("failed to delete user: " +:+ client.Error err))
               | None => ret commands.Deleted
               end (snd (client.DeleteUser (commands.clientEnv env) zdClient
                           userID w))))
    = sent (snd (client.DeleteUser (commands.clientEnv env) zdClient userID
                   w))).
  { destruct (fst (client.DeleteUser _ _ _ _)); reflexivity. }
  rewrite Hsame in Hsent |- *.
  destruct (DeleteUser_sent (commands.clientEnv env) zdClient userID w)
    as [H|H]; [contradiction|exact H].
Qed.

Lemma runUserDelete_needs_confirmation_witness :
  exists confirm userID zdClient,
    commands.promptString demo.confirmingEnv "Type 'yes' to confirm"
    = inl confirm
    /\ strings.ToLower confirm = "yes"
    /\ strconv.Atoi "7" = Some userID
    /\ commands.getClientFromFlags demo.confirmingEnv false = inl zdClient
    /\ sent (snd (commands.runUserDelete demo.confirmingEnv "7" false
                    demo.usersWorld))
       = sent demo.usersWorld
         ++ [http.mkRequest http.MethodDelete
               (client.GetBaseURL zdClient +:+ "/users/" +:+ itoa userID
                +:+ ".json")
               (client.authHeader zdClient) None].
Proof.
  apply (runUserDelete_needs_confirmation demo.confirmingEnv "7"
           demo.usersWorld).
  vm_compute. discriminate.
Defined.

(** ** Lines added to a shell's start-up file *)

Lemma string_app_nil_r (s : string) : s +:+ "" = s.
Proof.
  induction s as [|a s IH]; [reflexivity|].
  rewrite string_app_cons, IH. reflexivity.
Qed.

Lemma Contains_eq (s substr : string) :
  strings.Contains s substr
  = if strings.HasPrefix s substr then true
    else
      match s with
      | EmptyString => false
      | String _ rest => strings.Contains rest substr
      end.
Proof. destruct s; reflexivity. Qed.

Lemma HasPrefix_refl (s : string) : strings.HasPrefix s s = true.
Proof.
  unfold strings.HasPrefix. induction s as [|a s IH]; [reflexivity|].
  cbn [String.prefix]. destruct (ascii_dec a a); [exact IH|contradiction].
Qed.

Lemma Contains_refl (s : string) : strings.Contains s s = true.
Proof. rewrite Contains_eq, HasPrefix_refl. reflexivity. Qed.

Lemma Contains_app_l (a b substr : string) :
  strings.Contains b substr = true ->
  strings.Contains (a +:+ b) substr = true.
Proof.
  intros Hb. induction a as [|x a IH]; [exact Hb|].
  rewrite string_app_cons, Contains_eq.
  destruct (strings.HasPrefix _ _); [reflexivity|exact IH].
Qed.

(** [addLineToFile] adds its line at most once: after a first run the file
    contains the line, a second run finds it and changes nothing.  What the
    file held before is kept as the beginning of what it holds after, no
    other file is touched, and when the file already contains the line, as
    a part of any of its lines, nothing is written at all. *)
Theorem addLineToFile_adds_once (filepath line comment : string) (w : World) :
  commands.addLineToFile filepath line comment
    (snd (commands.addLineToFile filepath line comment w))
  = (None, snd (commands.addLineToFile filepath line comment w))
  /\ strings.Contains
       (default ""
          (files (snd (commands.addLineToFile filepath line comment w))
             !! filepath)) line = true
  /\ (exists added,
        default ""
          (files (snd (commands.addLineToFile filepath line comment w))
             !! filepath)
        = default "" (files w !! filepath) +:+ added)
  /\ (forall other, other <> filepath ->
        files (snd (commands.addLineToFile filepath line comment w)) !! other
        = files w !! other)
  /\ (strings.Contains (default "" (files w !! filepath)) line = true ->
      commands.addLineToFile filepath line comment w = (None, w)).
Proof.
  assert (Hfound : forall w0,
    strings.Contains (default "" (files w0 !! filepath)) line = true ->
    commands.addLineToFile filepath line comment w0 = (None, w0)).
  { intros w0 H. unfold commands.addLineToFile. rewrite bind_eq.
    unfold os.ReadFile. cbn [fst snd]. rewrite H. reflexivity. }
  destruct (strings.Contains (default "" (files w !! filepath)) line)
    eqn:Hhas.
  { rewrite (Hfound w Hhas). cbn [snd]. rewrite (Hfound w Hhas).
    split; [reflexivity|]. split; [exact Hhas|].
    split; [exists ""; symmetry; apply string_app_nil_r
           |split; [reflexivity|intros _; reflexivity]]. }
  set (content := default "" (files w !! filepath)) in *.
  set (body :=
    (if (0 <? Z.of_nat (String.length content))
        && negb (strings.HasSuffix content (String "010" ""))
     then content +:+ String "010" "" else content)
    +:+ (String "010" "" +:+ comment +:+ String "010" "")).
  assert (Hrun : commands.addLineToFile filepath line comment w
                 = (None, mkWorld (<[filepath := body +:+ line]> (files w))
                            (ticks w) (sent w))).
  { unfold commands.addLineToFile. rewrite bind_eq. unfold os.ReadFile.
    cbn [fst snd]. fold content. rewrite Hhas. reflexivity. }
  rewrite Hrun. cbn [snd files]. rewrite lookup_insert_eq. cbn [default].
  assert (Hnow : strings.Contains (body +:+ line) line = true)
    by (apply Contains_app_l, Contains_refl).
  split; [|split; [exact Hnow|split; [|split]]].
  - apply Hfound. cbn [files]. rewrite lookup_insert_eq. exact Hnow.
  - unfold body.
    destruct ((0 <? Z.of_nat (String.length content)) && _).
    + eexists. rewrite !string_app_assoc. reflexivity.
    + eexists. rewrite !string_app_assoc. reflexivity.
  - intros other Hne. apply lookup_insert_ne. congruence.
  - discriminate.
Qed.

(** [addBlockToFile] looks for the marker, not for the block.  When the
    block contains the marker, as the block of the bash completion does,
    it is added at most once: a second run changes nothing.  What the file
    held before is kept as the beginning of what it holds after, and no
    other file is touched. *)
Theorem addBlockToFile_adds_once (filepath block marker : string)
  (w : World) :
  strings.Contains block marker = true ->
  commands.addBlockToFile filepath block marker
    (snd (commands.addBlockToFile filepath block marker w))
  = (None, snd (commands.addBlockToFile filepath block marker w))
  /\ (exists added,
        default ""
          (files (snd (commands.addBlockToFile filepath block marker w))
             !! filepath)
        = default "" (files w !! filepath) +:+ added)
  /\ (forall other, other <> filepath ->
        files (snd (commands.addBlockToFile filepath block marker w)) !! other
        = files w !! other).
Proof.
  intros Hblock.
  assert (Hfound : forall w0,
    strings.Contains (default "" (files w0 !! filepath)) marker = true ->
    commands.addBlockToFile filepath block marker w0 = (None, w0)).
  { intros w0 H. unfold commands.addBlockToFile. rewrite bind_eq.
    unfold os.ReadFile. cbn [fst snd]. rewrite H. reflexivity. }
  destruct (strings.Contains (default "" (files w !! filepath)) marker)
    eqn:Hhas.
  { rewrite (Hfound w Hhas). cbn [snd]. rewrite (Hfound w Hhas).
    split; [reflexivity|].
    split; [exists ""; symmetry; apply string_app_nil_r|reflexivity]. }
  set (content := default "" (files w !! filepath)) in *.
  set (body :=
    if (0 <? Z.of_nat (String.length content))
       && negb (strings.HasSuffix content (String "010" ""))
    then content +:+ String "010" "" else content).
  assert (Hrun : commands.addBlockToFile filepath block marker w
                 = (None, mkWorld (<[filepath := body +:+ block]> (files w))
                            (ticks w) (sent w))).
  { unfold commands.addBlockToFile. rewrite bind_eq. unfold os.ReadFile.
    cbn [fst snd]. fold content. rewrite Hhas. reflexivity. }
  rewrite Hrun. cbn [snd files]. rewrite lookup_insert_eq. cbn [default].
  split; [|split].
  - apply Hfound. cbn [files]. rewrite lookup_insert_eq. cbn [default].
    apply Contains_app_l, Hblock.
  - unfold body.
    destruct ((0 <? Z.of_nat (String.length content)) && _).
    + eexists. rewrite !string_app_assoc. reflexivity.
    + eexists. reflexivity.
  - intros other Hne. apply lookup_insert_ne. congruence.
Qed.

Lemma addBlockToFile_adds_once_witness :
  commands.addBlockToFile "/home/zd/.bashrc" demo.sourceBlock
    "# zd completion"
    (snd (commands.addBlockToFile "/home/zd/.bashrc" demo.sourceBlock
            "# zd completion" demo.zshrcWorld))
  = (None,
     snd (commands.addBlockToFile "/home/zd/.bashrc" demo.sourceBlock
            "# zd completion" demo.zshrcWorld))
  /\ (exists added,
        default ""
          (files (snd (commands.addBlockToFile "/home/zd/.bashrc"
                         demo.sourceBlock "# zd completion" demo.zshrcWorld))
             !! "/home/zd/.bashrc")
        = default "" (files demo.zshrcWorld !! "/home/zd/.bashrc") +:+ added)
  /\ (forall other, other <> "/home/zd/.bashrc" ->
        files (snd (commands.addBlockToFile "/home/zd/.bashrc"
                      demo.sourceBlock "# zd completion" demo.zshrcWorld))
          !! other
        = files demo.zshrcWorld !! other).
Proof.
  apply (addBlockToFile_adds_once "/home/zd/.bashrc" demo.sourceBlock
           "# zd completion" demo.zshrcWorld).
  vm_compute. reflexivity.
Defined.

(** ** Clearing the cache from the command line *)

Lemma New_dir (cenv : cache.Env) (ttl : Z) (c : cache.Cache) :
  cache.New cenv ttl = Some c ->
  cache.dir c <> ""
  /\ forall ttl' c', cache.New cenv ttl' = Some c' ->
                     cache.dir c' = cache.dir c.
Proof.
  unfold cache.New. destruct (cache.UserHomeDir cenv) as [home|];
    [|discriminate].
  destruct (cache.MkdirAll cenv _); [|discriminate]. intros [= <-].
  cbn [cache.dir]. split.
  - unfold filepath.Join at 1. destruct (decide _); [discriminate|].
    intros H. apply (f_equal String.length) in H.
    rewrite !string_length_app in H. cbn in H. lia.
  - intros ttl' c' [= <-]. reflexivity.
Qed.

Lemma NewClientWithCache_cache (env : client.Env) (instance : config.Instance)
  (useCache : bool) (c : client.Client) (ch : cache.Cache) :
  client.NewClientWithCache env instance useCache = inl c ->
  client.cache c = Some ch ->
  cache.New (client.cacheEnv env) cache.DefaultTTL = Some ch.
Proof.
  unfold client.NewClientWithCache. intros Hnew Hcache.
  assert (Hwith : forall authHeader,
    (if useCache then
       match cache.New (client.cacheEnv env) cache.DefaultTTL with
       | None =>
           inl (client.mkClient (config.Subdomain instance) authHeader None
                  false)
       | Some c0 =>
           inl (client.mkClient (config.Subdomain instance) authHeader
                  (Some c0) useCache)
       end
     else
       inl (client.mkClient (config.Subdomain instance) authHeader None
              useCache)) = (inl c : client.Client + string) ->
    cache.New (client.cacheEnv env) cache.DefaultTTL = Some ch).
  { intros authHeader H. destruct useCache.
    - destruct (cache.New _ _) as [c0|]; injection H as <-;
        cbn in Hcache; congruence.
    - injection H as <-. discriminate. }
  destruct (decide (config.AuthType instance = config.AuthTypeToken)).
  - destruct (auth.ValidateTokenAuth _ _); [discriminate|].
    exact (Hwith _ Hnew).
  - destruct (decide (config.AuthType instance = config.AuthTypeOAuth));
      [|discriminate].
    destruct (auth.ValidateOAuthToken _ _ _); [discriminate|].
    destruct (auth.ValidateOAuthConfig _ _); [discriminate|].
    exact (Hwith _ Hnew).
Qed.

(** A cache is read through its directory only. *)
Lemma Get_same_dir (cenv : cache.Env) (c1 c2 : cache.Cache) (key : string) :
  cache.dir c1 = cache.dir c2 ->
  cache.Get cenv c1 key = cache.Get cenv c2 key.
Proof.
  destruct c1 as [d1 t1], c2 as [d2 t2]. cbn [cache.dir]. intros ->.
  reflexivity.
Qed.

Lemma clearEntries_same_dir (d : string) (t1 t2 : Z) (names : list string)
  (w : World) :
  cache.clearEntries (cache.mkCache d t1) names w
  = cache.clearEntries (cache.mkCache d t2) names w.
Proof.
  revert w. induction names as [|name rest IH]; intros w; [reflexivity|].
  cbn [cache.clearEntries cache.dir]. rewrite !bind_eq.
  destruct (fst (os.Remove (filepath.Join d name) w)); [apply IH|reflexivity].
Qed.

Lemma Clear_same_dir (c1 c2 : cache.Cache) (w : World) :
  cache.dir c1 = cache.dir c2 -> cache.Clear c1 w = cache.Clear c2 w.
Proof.
  destruct c1 as [d1 t1], c2 as [d2 t2]. cbn [cache.dir]. intros ->.
  unfold cache.Clear. rewrite !bind_eq. cbn [cache.dir].
  apply clearEntries_same_dir.
Qed.

(** [zd cache clear] empties the cache that the clients use: it makes its
    own cache object, with another time-to-live, but over the same
    directory.  When it reports success, [Get] misses for every key in the
    cache of every client that [NewClientWithCache] makes, so the next read
    of each such client asks the server; nothing was sent, the files
    outside the cache directory are as before, and the world is the one
    that [ClearCache] of such a client leaves. *)
Theorem runCacheClear_empties_client_caches (env : commands.Env)
  (w w' : World) (instance : config.Instance) (zdClient : client.Client)
  (ch : cache.Cache) :
  commands.runCacheClear env w = (commands.CacheCleared, w') ->
  client.NewClientWithCache (commands.clientEnv env) instance true
  = inl zdClient ->
  client.cache zdClient = Some ch ->
  (forall key,
     cache.Get (client.cacheEnv (commands.clientEnv env)) ch key w'
     = (("", false), w'))
  /\ sent w' = sent w
  /\ (forall path,
        os.childName (cache.dir ch) path = None ->
        files w' !! path = files w !! path)
  /\ client.ClearCache zdClient w = (None, w').
Proof.
  intros Hrun Hnew Hcache.
  apply (NewClientWithCache_cache _ _ _ _ ch Hnew) in Hcache as Hch.
  unfold commands.runCacheClear in Hrun.
  destruct (cache.New _ (15 * time.Minute)) as [c|] eqn:Hc; [|discriminate].
  destruct (New_dir _ _ _ Hc) as [Hdir Hsame].
  specialize (Hsame _ _ Hch).
  rewrite bind_eq in Hrun.
  destruct (Clear_files c Hdir w) as (w1 & Hclear & _ & Hsent & Hfiles).
  rewrite Hclear in Hrun. cbn [fst snd] in Hrun. injection Hrun as <-.
  split; [|split; [exact Hsent|split]].
  - intros key. rewrite (Get_same_dir _ ch c key Hsame).
    apply Get_absent. rewrite Hfiles.
    rewrite (childName_keyToPath _ c key Hdir). reflexivity.
  - intros path Hout. rewrite Hfiles, <- Hsame, Hout. reflexivity.
  - unfold client.ClearCache. rewrite Hcache.
    rewrite (Clear_same_dir ch c w Hsame). exact Hclear.
Qed.

Lemma runCacheClear_empties_client_caches_witness :
  (forall key,
     cache.Get (client.cacheEnv (commands.clientEnv demo.env)) demo.zdCache
       key (snd (commands.runCacheClear demo.env demo.cachedWorld))
     = (("", false), snd (commands.runCacheClear demo.env demo.cachedWorld)))
  /\ sent (snd (commands.runCacheClear demo.env demo.cachedWorld))
     = sent demo.cachedWorld
  /\ (forall path,
        os.childName (cache.dir demo.zdCache) path = None ->
        files (snd (commands.runCacheClear demo.env demo.cachedWorld)) !! path
        = files demo.cachedWorld !! path)
  /\ client.ClearCache demo.zdClient demo.cachedWorld
     = (None, snd (commands.runCacheClear demo.env demo.cachedWorld)).
Proof.
  apply (runCacheClear_empties_client_caches demo.env demo.cachedWorld
           (snd (commands.runCacheClear demo.env demo.cachedWorld))
           demo.instance demo.zdClient demo.zdCache).
  - vm_compute. reflexivity.
  - vm_compute. reflexivity.
  - reflexivity.
Defined.

(** ** Cache keys *)

Lemma Contains_colon_cons (a : ascii) (s : string) :
  strings.Contains (String a s) ":"
  = Ascii.eqb a ":" || strings.Contains s ":".
Proof.
  rewrite Contains_eq. unfold strings.HasPrefix. cbn [String.prefix].
  destruct (ascii_dec ":" a) as [<-|Hne].
  - destruct s; reflexivity.
  - destruct (Ascii.eqb_spec a ":") as [->|_]; [contradiction|reflexivity].
Qed.

Lemma pretty_N_go_colon (x : N) (s : string) :
  strings.Contains s ":" = false ->
  strings.Contains (pretty_N_go x s) ":" = false.
Proof.
  revert s. induction (N.lt_wf_0 x) as [x _ IH]; intros s Hs.
  assert (x = 0 \/ 0 < x)%N as [->|Hpos] by lia.
  - rewrite pretty_N_go_0. assumption.
  - rewrite pretty_N_go_step by assumption. apply IH.
    + apply N.div_lt; [assumption | reflexivity].
    + rewrite Contains_colon_cons, Hs, orb_false_r.
      unfold pretty_N_char. repeat case_match; reflexivity.
Qed.

Lemma itoa_colon (n : Z) : strings.Contains (itoa n) ":" = false.
Proof.
  assert (Hpos : forall p, strings.Contains (pretty (N.pos p)) ":" = false).
  { intros p. unfold pretty, pretty_N.
    destruct (decide (N.pos p = 0%N)); [discriminate|].
    apply pretty_N_go_colon. reflexivity. }
  destruct n as [|p|p].
  - reflexivity.
  - apply Hpos.
  - change (itoa (Z.neg p)) with (String "-" (pretty (N.pos p))).
    rewrite Contains_colon_cons. apply Hpos.
Qed.

(** A string without colon that is followed by a colon ends at that
    colon. *)
Lemma colon_split (s1 s2 x y : string) :
  strings.Contains s1 ":" = false ->
  strings.Contains s2 ":" = false ->
  s1 +:+ ":" +:+ x = s2 +:+ ":" +:+ y -> s1 = s2 /\ x = y.
Proof.
  revert s2. induction s1 as [|a s1 IH]; intros [|b s2] H1 H2 Heq;
    repeat (rewrite string_app_cons in Heq || rewrite string_app_nil in Heq).
  - injection Heq as ->. split; reflexivity.
  - injection Heq as <- _. rewrite Contains_colon_cons in H2. discriminate.
  - injection Heq as -> _. rewrite Contains_colon_cons in H1. discriminate.
  - injection Heq as -> Heq. rewrite Contains_colon_cons in H1, H2.
    apply orb_false_elim in H1 as [_ H1], H2 as [_ H2].
    destruct (IH s2 H1 H2 Heq) as [-> ->]. split; reflexivity.
Qed.

(** The keys of the cache lose nothing of what they are made of: for one
    client, two tickets, two users, two pages of the ticket list (by page,
    page size and status) or two searches have the same key only when they
    are the same, and the key of a ticket is never the key of a user.  So
    two of them share an entry file only if the digests of two different
    keys collide. *)
Theorem cache_keys_are_injective (c : client.Client) :
  (forall a b, client.ticketKey c a = client.ticketKey c b -> a = b)
  /\ (forall a b, client.userKey c a = client.userKey c b -> a = b)
  /\ (forall page perPage status page' perPage' status',
        client.ticketsListKey c page perPage status
        = client.ticketsListKey c page' perPage' status' ->
        page = page' /\ perPage = perPage' /\ status = status')
  /\ (forall query query',
        client.ticketsSearchKey c query = client.ticketsSearchKey c query' ->
        query = query')
  /\ (forall a b, client.ticketKey c a <> client.userKey c b).
Proof.
  split; [|split; [|split; [|split]]].
  - intros a b Heq. unfold client.ticketKey in Heq.
    apply (String.app_inj (client.subdomain c)) in Heq.
    apply (String.app_inj ":tickets:") in Heq.
    exact (pretty_Z_inj _ _ Heq).
  - intros a b Heq. unfold client.userKey in Heq.
    apply (String.app_inj (client.subdomain c)) in Heq.
    apply (String.app_inj ":users:") in Heq.
    exact (pretty_Z_inj _ _ Heq).
  - intros page perPage status page' perPage' status' Heq.
    unfold client.ticketsListKey in Heq.
    apply (String.app_inj (client.subdomain c)) in Heq.
    apply (String.app_inj ":tickets:list:") in Heq.
    apply colon_split in Heq as [Hpage Heq]; try apply itoa_colon.
    apply colon_split in Heq as [Hper Hstatus]; try apply itoa_colon.
    split; [exact (pretty_Z_inj _ _ Hpage)|].
    split; [exact (pretty_Z_inj _ _ Hper)|exact Hstatus].
  - intros query query' Heq. unfold client.ticketsSearchKey in Heq.
    apply (String.app_inj (client.subdomain c)) in Heq.
    apply (String.app_inj ":tickets:search:") in Heq. exact Heq.
  - intros a b Heq. unfold client.ticketKey, client.userKey in Heq.
    apply (String.app_inj (client.subdomain c)) in Heq.
    rewrite !string_app_cons in Heq. discriminate.
Qed.

(** ** Comments of a ticket *)

Lemma cache_Get_local (cenv : cache.Env) (ch : cache.Cache) (key : string)
  (w1 w2 : World) :
  ticks w1 = ticks w2 ->
  files w1 !! cache.keyToPath cenv ch key
  = files w2 !! cache.keyToPath cenv ch key ->
  fst (cache.Get cenv ch key w1) = fst (cache.Get cenv ch key w2).
Proof.
  intros Hticks Hfile. unfold cache.Get. rewrite !bind_eq.
  unfold os.ReadFile. cbn [fst snd]. rewrite Hfile.
  destruct (files w2 !! _) as [data|]; [|reflexivity].
  destruct (cache.Unmarshal cenv data) as [entry|]; [|reflexivity].
  rewrite !bind_eq. unfold cache.time_Now. cbn [fst snd]. rewrite Hticks.
  destruct (time.After _ _); reflexivity.
Qed.

(** A read that the cache answers, or that cannot make its request, gives
    the same result in every world with the same clock and the same entry
    file of its key. *)
Lemma cachedRead_local {A : Type} (env : client.Env)
  (decode : string -> option A) (c : client.Client)
  (cacheKey path : string) (statusErr : Z -> string -> client.error)
  (w w' : World) :
  ticks w' = ticks w ->
  (forall ch, client.cacheInUse c = Some ch ->
     files w' !! cache.keyToPath (client.cacheEnv env) ch cacheKey
     = files w !! cache.keyToPath (client.cacheEnv env) ch cacheKey) ->
  sent (snd (client.cachedRead env decode c cacheKey path statusErr w))
  = sent w ->
  fst (client.cachedRead env decode c cacheKey path statusErr w')
  = fst (client.cachedRead env decode c cacheKey path statusErr w).
Proof.
  intros Hticks Hfile Hquiet.
  set (lookup := match client.cacheInUse c with
                 | Some ch =>
                     r <- cache.Get (client.cacheEnv env) ch cacheKey ;;
                     ret (if snd r then decode (fst r) else None)
                 | None => ret None
                 end).
  assert (Hsame : fst (lookup w') = fst (lookup w)
                  /\ sent (snd (lookup w)) = sent w).
  { unfold lookup. destruct (client.cacheInUse c) as [ch|];
      [|split; reflexivity].
    rewrite !bind_eq. cbn [fst snd].
    rewrite (cache_Get_local _ ch cacheKey w' w Hticks (Hfile ch eq_refl)).
    split; [reflexivity|]. apply cache_Get_sent. }
  destruct Hsame as [Hfst Hsent].
  destruct (lookup w) as [hit w0] eqn:Hw.
  destruct (lookup w') as [hit' w0'] eqn:Hw'.
  cbn [fst snd] in Hfst, Hsent. subst hit'. destruct hit as [doc|].
  - rewrite (cachedRead_found env A decode c cacheKey path statusErr _ _ doc
               Hw),
      (cachedRead_found env A decode c cacheKey path statusErr _ _ doc Hw').
    reflexivity.
  - rewrite (cachedRead_fetch env A decode c cacheKey path statusErr _ _ Hw)
      in Hquiet |- *.
    rewrite (cachedRead_fetch env A decode c cacheKey path statusErr _ _ Hw').
    destruct (client.NewRequestErr env _); [reflexivity|]. exfalso.
    cbv zeta in Hquiet.
    assert (Hmore : sent w0 ++ [http.mkRequest http.MethodGet
                                  (client.GetBaseURL c +:+ path)
                                  (client.authHeader c) None] = sent w).
    { rewrite <- Hquiet.
      destruct (client.RoundTrip env _ _) as [resp|e]; [|reflexivity].
      destruct (decide (http.StatusCode resp ≠ http.StatusOK));
        [reflexivity|].
      destruct (http.ReadErr resp); [reflexivity|].
      destruct (decode (http.Body resp)); [|reflexivity].
      destruct (client.cacheInUse c); reflexivity. }
    rewrite Hsent in Hmore. symmetry in Hmore.
    exact (sent_one_more _ _ Hmore).
Qed.

Lemma commentsKey_not_ticket (c : client.Client) (ticketID : Z) :
  client.ticketCommentsKey c ticketID <> client.ticketKey c ticketID.
Proof.
  unfold client.ticketCommentsKey, client.ticketKey. intros Heq.
  apply (String.app_inj (client.subdomain c)) in Heq.
  apply (String.app_inj ":tickets:") in Heq.
  rewrite <- (string_app_nil_r (itoa ticketID)) in Heq at 2.
  apply String.app_inj in Heq. discriminate.
Qed.

(** Adding a comment to a ticket leaves the cached comments of the ticket
    as they are: [UpdateTicket] invalidates the entry of the ticket, and the
    comments are cached under another key.  So when [zd ticket comments]
    was answered from the cache before [zd ticket comment] succeeded, it
    gives the same answer after it, without the new comment, until the
    entry expires.  (The digests of the two keys are taken to differ.) *)
Theorem commenting_leaves_cached_comments (env : commands.Env)
  (CommentsResponse : Type)
  (UnmarshalComments : string -> option CommentsResponse)
  (arg : string) (flags : commands.CommentFlags) (w w' : World)
  (ticket : client.Decoded (commands.clientEnv env) client.TicketResponse)
  (zdClient : client.Client) (ticketID : Z) :
  commands.getClientFromFlags env false = inl zdClient ->
  strconv.Atoi arg = Some ticketID ->
  commands.runTicketComment env arg flags w = (inl ticket, w') ->
  cache.Sum256 (client.cacheEnv (commands.clientEnv env))
    (client.ticketCommentsKey zdClient ticketID)
  <> cache.Sum256 (client.cacheEnv (commands.clientEnv env))
       (client.ticketKey zdClient ticketID) ->
  sent (snd (commands.runTicketComments env CommentsResponse UnmarshalComments
               arg false w)) = sent w ->
  client.ticketCommentsKey zdClient ticketID
  <> client.ticketKey zdClient ticketID
  /\ fst (commands.runTicketComments env CommentsResponse UnmarshalComments
            arg false w')
     = fst (commands.runTicketComments env CommentsResponse UnmarshalComments
              arg false w).
Proof.
  intros Hclient Hid Hrun Hdigest Hquiet.
  split; [apply commentsKey_not_ticket|].
  unfold commands.runTicketComment in Hrun. rewrite Hclient in Hrun.
  unfold commands.withID in Hrun. rewrite Hid in Hrun.
  destruct (if decide (commands.message flags = "")
            then commands.promptString env "Comment"
            else inl (commands.message flags)) as [message|err];
    [|discriminate].
  rewrite bind_eq in Hrun.
  destruct (client.UpdateTicket (commands.clientEnv env) zdClient ticketID _
              w) as [[t|e] w1] eqn:Hupd; cbn [fst snd] in Hrun;
    [|discriminate].
  injection Hrun as _ <-.
  apply UpdateTicket_ok in Hupd as (_ & Hticks & _ & Hfiles).
  unfold commands.runTicketComments in *. rewrite Hclient in *.
  unfold commands.withID in *. rewrite Hid in *.
  rewrite bind_eq in Hquiet. unfold ret in Hquiet. cbn [snd] in Hquiet.
  rewrite !bind_eq. unfold ret. cbn [fst]. f_equal.
  unfold client.GetTicketComments in *.
  apply cachedRead_local; [exact Hticks| |exact Hquiet].
  intros ch Huse. unfold client.cacheInUse in Huse.
  destruct (client.useCache zdClient); [|discriminate].
  rewrite Hfiles, Huse. apply lookup_delete_ne.
  intros Hpath. apply Hdigest. symmetry.
  exact (keyToPath_inj _ _ _ _ Hpath).
Qed.

Lemma commenting_leaves_cached_comments_witness :
  client.ticketCommentsKey demo.zdClient 500
  <> client.ticketKey demo.zdClient 500
  /\ fst (commands.runTicketComments demo.env string demo.UnmarshalComments
            "500" false
            (snd (commands.runTicketComment demo.env "500" demo.notPublic
                    demo.commentsWorld)))
     = fst (commands.runTicketComments demo.env string demo.UnmarshalComments
              "500" false demo.commentsWorld).
Proof.
  apply (commenting_leaves_cached_comments demo.env string
           demo.UnmarshalComments "500" demo.notPublic demo.commentsWorld
           (snd (commands.runTicketComment demo.env "500" demo.notPublic
                   demo.commentsWorld))
           "ok" demo.zdClient 500).
  - vm_compute. reflexivity.
  - vm_compute. reflexivity.
  - vm_compute. reflexivity.
  - vm_compute. discriminate.
  - vm_compute. reflexivity.
Defined.

(** [zd ticket comment] decides the visibility of the comment by the flag
    [private] alone: the flag [public] is declared but never read.  Unless
    [--private] is given, the comment that is sent is public, also under
    [--public=false]. *)
Theorem runTicketComment_ignores_public (env : commands.Env) (arg : string)
  (flags : commands.CommentFlags) (w : World) (r : http.Request) :
  commands.private flags = None ->
  sent (snd (commands.runTicketComment env arg flags w)) = sent w ++ [r] ->
  exists message,
    http.ReqBody r
    = Some (JObj [("ticket",
                   JObj [("comment",
                          JObj [("body", JStr message);
                                ("public", JBool true)])])])
    /\ http.Method r = http.MethodPut
    /\ (commands.message flags <> "" -> message = commands.message flags).
Proof.
  intros Hprivate. unfold commands.runTicketComment.
  destruct (commands.getClientFromFlags env false) as [zdClient|err];
    [|intros H; destruct (sent_one_more _ _ H)].
  unfold commands.withID.
  destruct (strconv.Atoi arg) as [ticketID|];
    [|intros H; destruct (sent_one_more _ _ H)].
  destruct (if decide (commands.message flags = "")
            then commands.promptString env "Comment"
            else inl (commands.message flags)) as [message|err] eqn:Hmsg;
    [|intros H; destruct (sent_one_more _ _ H)].
  rewrite Hprivate, then_ret_world. unfold client.UpdateTicket.
  rewrite (invalidating_sent (commands.clientEnv env) zdClient).
  match goal with
  | |- context [client.makeTicketRequest _ _ ?m ?p ?b] =>
      destruct (makeTicketRequest_world (commands.clientEnv env) zdClient m p
                  b w) as [H|H]; rewrite H
  end.
  - intros Hsent. destruct (sent_one_more _ _ Hsent).
  - cbn [sent]. intros Hsent. apply app_inv_head in Hsent.
    injection Hsent as <-. exists message. split; [reflexivity|].
    split; [reflexivity|]. intros Hne.
    destruct (decide (commands.message flags = "")); [contradiction|].
    injection Hmsg as <-. reflexivity.
Qed.

Lemma runTicketComment_ignores_public_witness :
  exists message,
    http.ReqBody
      (http.mkRequest "PUT" "https://acme.zendesk.com/api/v2/tickets/500.json"
         "Basic YUBiLmNvbS90b2tlbjp0b2sxMjM="
         (Some (JObj [("ticket",
                       JObj [("comment",
                              JObj [("body", JStr "hello");
                                    ("public", JBool true)])])])))
    = Some (JObj [("ticket",
                   JObj [("comment",
                          JObj [("body", JStr message);
                                ("public", JBool true)])])])
    /\ http.Method
         (http.mkRequest "PUT"
            "https://acme.zendesk.com/api/v2/tickets/500.json"
            "Basic YUBiLmNvbS90b2tlbjp0b2sxMjM="
            (Some (JObj [("ticket",
                          JObj [("comment",
                                 JObj [("body", JStr "hello");
                                       ("public", JBool true)])])])))
       = http.MethodPut
    /\ (commands.message demo.notPublic <> "" ->
        message = commands.message demo.notPublic).
Proof.
  apply (runTicketComment_ignores_public demo.env "500" demo.notPublic
           demo.emptyWorld).
  - reflexivity.
  - vm_compute. reflexivity.
Defined.
